(** * easy-git: a shallow embedding of [src/easygit.py]

    Definitions, in the order of the Python source:

    - [PyStr]     : the [str] and [list] builtins the program calls
                    ([strip], [split], [readlines], [index], [in]);
    - [PosixPath] : [os.path.join], [split], [dirname], [basename],
                    [normpath], [abspath];
    - [Sha1]      : [hashlib.sha1(...).hexdigest()];
    - [OS], [FS]  : the file system as a finite map from path strings to
                    nodes, the logger, and the exceptions that [open],
                    [os.mkdir], [os.remove] and [os.makedirs] raise, in a
                    state-and-exception monad;
    - [EasyGit]   : the class [easyGit]: [add], [remove], [commit],
                    [restore], [search], [status];
    - [Spec]      : the notions the properties are stated with;
    - [Scenario]  : a project with two files, staged, committed, restored;
    - [Frame]     : what a computation may write, the walk of the working
                    tree and the replay of a record, as relations;
    - [Setup]     : [getRepositoryPath] and [initialization].

    Then the facts, and last the properties of the operations.

    Python [str] values are modelled by their UTF-8 byte strings, so that
    [str.encode()] is the identity; every [str] of a run is taken to have
    such an encoding (no file name with a lone surrogate).  A regular file
    is either [File c], whose bytes [c] are UTF-8 text (what
    [open(..., encoding = "utf-8")] decodes, and what it writes), or
    [Binary b], whose bytes are not valid UTF-8: reading it raises
    [UnicodeDecodeError].  A Python [set] is a [gset]; iterating over it is
    [elements], one order among those Python may choose.
    [main] (the command line), [getTime] (the clock, a parameter [now] of
    [commit]) and the logger set-up of [__init__] are not part of the
    embedding: [easyGit_at] is the object [__init__] builds once
    [getRepositoryPath] has found the repository, and [Scenario.fs0] is the
    tree [initialization] creates. *)

From Stdlib Require Import ZArith Ascii.
From stdpp Require Import base gmap strings list.

Local Open Scope Z_scope.

(** ** Python string and list builtins *)

Module PyStr.

Definition LF : ascii := "010"%char.
Definition CR : ascii := "013"%char.

(** [c in s] for a single character. *)
Fixpoint has_char (c : ascii) (s : string) : bool :=
  match s with
  | "" => false
  | String a r => bool_decide (a = c) || has_char c r
  end.

(** [str.startswith]. *)
Fixpoint startswith (p s : string) : bool :=
  match p, s with
  | "", _ => true
  | String a p', String b s' => bool_decide (a = b) && startswith p' s'
  | String _ _, "" => false
  end.

(** [needle in hay] for strings: the substring test. *)
Fixpoint contains (needle hay : string) : bool :=
  startswith needle hay ||
  match hay with
  | "" => false
  | String _ r => contains needle r
  end.

(** [str.endswith] for a single character. *)
Fixpoint endswith_char (c : ascii) (s : string) : bool :=
  match s with
  | "" => false
  | String a "" => bool_decide (a = c)
  | String _ r => endswith_char c r
  end.

(** [s.lstrip("\n")], [s.rstrip("\n")] and [s.strip("\n")]. *)
Fixpoint lstrip (c : ascii) (s : string) : string :=
  match s with
  | "" => ""
  | String a r => if bool_decide (a = c) then lstrip c r else s
  end.

Fixpoint rstrip (c : ascii) (s : string) : string :=
  match s with
  | "" => ""
  | String a r =>
      let r' := rstrip c r in
      if bool_decide (a = c) && bool_decide (r' = "") then "" else String a r'
  end.

Definition strip (c : ascii) (s : string) : string := rstrip c (lstrip c s).

(** Text-mode input with the default [newline=None]: every ["\r\n"] and
    every lone ["\r"] is read as ["\n"]. *)
Fixpoint universal_newlines (s : string) : string :=
  match s with
  | "" => ""
  | String a r =>
      if bool_decide (a = CR) then
        match r with
        | String b r' =>
            if bool_decide (b = LF) then universal_newlines r
            else String LF (universal_newlines r)
        | "" => String LF ""
        end
      else String a (universal_newlines r)
  end.

(** [io.readlines()]: the lines of a text, each with its terminator; the
    last one has none when the text does not end in a line break. *)
Fixpoint readlines (s : string) : list string :=
  match s with
  | "" => []
  | String a r =>
      if bool_decide (a = LF) then String LF "" :: readlines r
      else match readlines r with
           | [] => [String a ""]
           | l :: ls => String a l :: ls
           end
  end.

(** [io.readline()]: the first line, or [""] at end of file. *)
Definition readline (s : string) : string :=
  match readlines s with
  | [] => ""
  | l :: _ => l
  end.

(** [s.split(sep)] for a non-empty separator: the pieces between the
    non-overlapping occurrences of [sep], scanned from the left.  [skip]
    counts the characters of a matched separator still to be dropped. *)
Fixpoint split_go (sep : string) (skip : nat) (s : string) : list string :=
  match s with
  | "" => [""]
  | String a r =>
      match skip with
      | S k => split_go sep k r
      | O =>
          if startswith sep s
          then "" :: split_go sep (String.length sep - 1) r
          else match split_go sep O r with
               | [] => [String a ""]
               | h :: t => String a h :: t
               end
      end
  end.

Definition split (sep s : string) : list string := split_go sep O s.

(** ["\n".join(l)] and the like. *)
Fixpoint join (sep : string) (l : list string) : string :=
  match l with
  | [] => ""
  | [x] => x
  | x :: r => x +:+ sep +:+ join sep r
  end.

(** [l.index(x, start)]: the position of the first element equal to [x] at
    or after [start]; [None] stands for the [ValueError]. *)
Fixpoint index_from (x : string) (l : list string) (start pos : nat) : option nat :=
  match l with
  | [] => None
  | y :: r =>
      if bool_decide (start ≤ pos)%nat && bool_decide (y = x) then Some pos
      else index_from x r start (S pos)
  end.

Definition index (x : string) (l : list string) (start : nat) : option nat :=
  index_from x l start O.

(** [l[-1]] of a list, with a default for the empty list. *)
Definition last_or (d : string) (l : list string) : string := List.last l d.

End PyStr.

(** ** [os.path] on POSIX *)

Module PosixPath.
Import PyStr.

Definition sep : string := "/".
Definition slash : ascii := "/"%char.

(** [os.path.join(a, b)]. *)
Definition join (a b : string) : string :=
  if startswith sep b then b
  else if bool_decide (a = "") || endswith_char slash a then a +:+ b
  else a +:+ sep +:+ b.

(** [(p[:i], p[i:])] for [i = p.rfind("/") + 1]. *)
Fixpoint rsplit (p : string) : string * string :=
  match p with
  | "" => ("", "")
  | String a r =>
      match rsplit r with
      | ("", t) => if bool_decide (a = slash) then (sep, t) else ("", String a t)
      | (h, t) => (String a h, t)
      end
  end.

Fixpoint all_slashes (s : string) : bool :=
  match s with
  | "" => true
  | String a r => bool_decide (a = slash) && all_slashes r
  end.

(** [os.path.split(p)]. *)
Definition split (p : string) : string * string :=
  let '(head, tail) := rsplit p in
  if negb (bool_decide (head = "")) && negb (all_slashes head)
  then (rstrip slash head, tail)
  else (head, tail).

Definition dirname (p : string) : string := fst (split p).
Definition basename (p : string) : string := snd (split p).

(** The loop of [os.path.normpath] over the components; [new_comps] is kept
    with its last element first. *)
Fixpoint normpath_comps (initial_slashes : nat) (comps new_comps : list string)
  : list string :=
  match comps with
  | [] => rev new_comps
  | comp :: rest =>
      if bool_decide (comp = "") || bool_decide (comp = ".")
      then normpath_comps initial_slashes rest new_comps
      else if negb (bool_decide (comp = ".."))
              || (bool_decide (initial_slashes = O) && bool_decide (new_comps = []))
              || (match new_comps with
                  | top :: _ => bool_decide (top = "..")
                  | [] => false
                  end)
      then normpath_comps initial_slashes rest (comp :: new_comps)
      else normpath_comps initial_slashes rest (tail new_comps)
  end.

(** [os.path.normpath(path)]. *)
Definition normpath (path : string) : string :=
  if bool_decide (path = "") then "."
  else
    let initial_slashes :=
      if startswith "/" path then
        if startswith "//" path && negb (startswith "///" path) then 2%nat else 1%nat
      else O in
    let comps := normpath_comps initial_slashes (PyStr.split sep path) [] in
    let path' := PyStr.join sep comps in
    let path'' :=
      match initial_slashes with
      | O => path'
      | 1%nat => "/" +:+ path'
      | _ => "//" +:+ path'
      end in
    if bool_decide (path'' = "") then "." else path''.

(** [os.path.abspath(path)] evaluated in the working directory [cwd]. *)
Definition abspath (cwd path : string) : string :=
  normpath (if startswith sep path then path else join cwd path).

End PosixPath.

(** ** [hashlib.sha1]

  SHA-1 as in FIPS 180-4, on 32-bit words held in [Z]. *)

Module Sha1.

Definition mask32 (x : Z) : Z := Z.land x 4294967295.
Definition add32 (x y : Z) : Z := mask32 (x + y).
Definition rotl (n : Z) (x : Z) : Z :=
  mask32 (Z.lor (Z.shiftl x n) (Z.shiftr x (32 - n))).
Definition not32 (x : Z) : Z := Z.lxor x 4294967295.

Definition byte_of_ascii (a : ascii) : Z := Z.of_N (N_of_ascii a).

Fixpoint bytes_of_string (s : string) : list Z :=
  match s with
  | "" => []
  | String a r => byte_of_ascii a :: bytes_of_string r
  end.

(** Big-endian bytes of [x], [n] of them. *)
Fixpoint be_bytes (n : nat) (x : Z) : list Z :=
  match n with
  | O => []
  | S k => Z.land (Z.shiftr x (8 * Z.of_nat k)) 255 :: be_bytes k x
  end.

(** The message followed by [0x80], zero bytes up to 56 modulo 64, and the
    bit length on 8 bytes. *)
Definition pad (msg : list Z) : list Z :=
  let len := Z.of_nat (length msg) in
  let zeros := Z.to_nat ((55 - len) mod 64) in
  msg ++ [128] ++ replicate zeros 0 ++ be_bytes 8 (8 * len).

Fixpoint words_of_bytes (l : list Z) : list Z :=
  match l with
  | a :: b :: c :: d :: r =>
      Z.lor (Z.shiftl a 24) (Z.lor (Z.shiftl b 16) (Z.lor (Z.shiftl c 8) d))
      :: words_of_bytes r
  | _ => []
  end.

(** The message schedule, most recent word first: [rev_w] holds
    [w(t-1), w(t-2), ...]. *)
Fixpoint schedule (n : nat) (rev_w : list Z) : list Z :=
  match n with
  | O => rev_w
  | S k =>
      let w i := nth i rev_w 0 in
      schedule k (rotl 1 (Z.lxor (Z.lxor (w 2%nat) (w 7%nat))
                                 (Z.lxor (w 13%nat) (w 15%nat))) :: rev_w)
  end.

Definition state : Type := Z * Z * Z * Z * Z.

Definition round (t : nat) (st : state) (w : Z) : state :=
  let '(a, b, c, d, e) := st in
  let '(f, k) :=
    if bool_decide (t < 20)%nat
    then (Z.lor (Z.land b c) (Z.land (not32 b) d), 1518500249)
    else if bool_decide (t < 40)%nat
    then (Z.lxor (Z.lxor b c) d, 1859775393)
    else if bool_decide (t < 60)%nat
    then (Z.lor (Z.lor (Z.land b c) (Z.land b d)) (Z.land c d), 2400959708)
    else (Z.lxor (Z.lxor b c) d, 3395469782) in
  (add32 (add32 (add32 (add32 (rotl 5 a) f) e) k) w, a, rotl 30 b, c, d).

Fixpoint rounds (t : nat) (ws : list Z) (st : state) : state :=
  match ws with
  | [] => st
  | w :: r => rounds (S t) r (round t st w)
  end.

Definition compress (h : state) (block : list Z) : state :=
  let ws := rev (schedule 64 (rev (words_of_bytes block))) in
  let '(h0, h1, h2, h3, h4) := h in
  let '(a, b, c, d, e) := rounds O ws h in
  (add32 h0 a, add32 h1 b, add32 h2 c, add32 h3 d, add32 h4 e).

Fixpoint blocks (n : nat) (l : list Z) (h : state) : state :=
  match n with
  | O => h
  | S k =>
      match l with
      | [] => h
      | _ => blocks k (drop 64 l) (compress h (take 64 l))
      end
  end.

Definition initial : state :=
  (1732584193, 4023233417, 2562383102, 271733878, 3285377520).

Definition digest (s : string) : state :=
  let m := pad (bytes_of_string s) in
  blocks (length m) m initial.

Definition hexchars : list ascii :=
  ["0"; "1"; "2"; "3"; "4"; "5"; "6"; "7"; "8"; "9"; "a"; "b"; "c"; "d"; "e"; "f"]%char.

Definition hexdigit (x : Z) : ascii :=
  nth (Z.to_nat (Z.land x 15)) hexchars "0"%char.

(** The 8 lower-case hexadecimal digits of a 32-bit word, [rest] after them. *)
Definition hex32 (x : Z) (rest : string) : string :=
  String (hexdigit (Z.shiftr x 28)) (String (hexdigit (Z.shiftr x 24))
  (String (hexdigit (Z.shiftr x 20)) (String (hexdigit (Z.shiftr x 16))
  (String (hexdigit (Z.shiftr x 12)) (String (hexdigit (Z.shiftr x 8))
  (String (hexdigit (Z.shiftr x 4)) (String (hexdigit x) rest))))))).

Definition hexdigest (h : state) : string :=
  let '(h0, h1, h2, h3, h4) := h in
  hex32 h0 (hex32 h1 (hex32 h2 (hex32 h3 (hex32 h4 "")))).

End Sha1.

(** [SHA1(target)] of the source: [hashlib.sha1(target.encode()).hexdigest()]. *)
Definition SHA1 (target : string) : string := Sha1.hexdigest (Sha1.digest target).

(** ** The file system, the logger and exceptions *)

Module OS.
Import PyStr.

(** A path names a regular file or a directory.  Every file of the
    program is opened with [encoding = "utf-8"], so a regular file comes in
    two kinds: [File content], whose bytes are the UTF-8 encoding of a text
    (the bytes [content]; text mode can decode them), and [Binary bytes],
    whose bytes are not valid UTF-8 (text mode cannot decode them).  The
    kind is given with the file and not computed from the bytes: what is
    proved of a [File] is proved of every content the decoder accepts, and
    what is proved of a [Binary] of every content it refuses. *)
Inductive node : Type :=
| File (content : string)
| Dir
| Binary (bytes : string).

Global Instance node_eq_dec : EqDecision node.
Proof. solve_decision. Defined.

Inductive level : Type := DEBUG | INFO | WARNING | ERROR.

Global Instance level_eq_dec : EqDecision level.
Proof. solve_decision. Defined.

(** The exceptions the program can let escape. *)
Inductive exn : Type :=
| FileNotFoundError
| FileExistsError
| IsADirectoryError
| NotADirectoryError
| ValueError
| TypeError
| IndexError
| UnicodeDecodeError.

Global Instance exn_eq_dec : EqDecision exn.
Proof. solve_decision. Defined.

(** What the program can observe and change: the files, the calls made on
    [self.logger] (level and text; the ["[<time>] "] prefix of each message
    is left out) and the values given to [print]. *)
#[projections(primitive)] Record world : Type := World {
  files : gmap string node;
  logged : list (level * string);
  printed : list (list string)
}.

Inductive outcome (A : Type) : Type :=
| Ok (a : A)
| Raise (e : exn).
Global Arguments Ok {A} a.
Global Arguments Raise {A} e.

(** Computations that read and change the world and may raise. *)
Definition M (A : Type) : Type := world → outcome A * world.

Definition ret {A} (a : A) : M A := λ w, (Ok a, w).
Definition raise {A} (e : exn) : M A := λ w, (Raise e, w).
Definition bind {A B} (c : M A) (k : A → M B) : M B :=
  λ w, match c w with
       | (Ok a, w') => k a w'
       | (Raise e, w') => (Raise e, w')
       end.

Definition get_files : M (gmap string node) := λ w, (Ok (files w), w).
Definition set_files (fs : gmap string node) : M unit :=
  λ w, (Ok (), World fs (logged w) (printed w)).

(** [self.logger.<level>(msg)]. *)
Definition log (l : level) (msg : string) : M unit :=
  λ w, (Ok (), World (files w) (logged w ++ [(l, msg)]) (printed w)).

(** [print(v)] of a list of strings. *)
Definition print (v : list string) : M unit :=
  λ w, (Ok (), World (files w) (logged w) (printed w ++ [v])).

End OS.

Notation "'let*' x ':=' c 'in' k" := (OS.bind c (λ x, k))
(at level 10, x binder, c at level 100, k at level 200, only parsing).
Notation "c ';;' k" := (OS.bind c (λ _, k))
(at level 100, k at level 200, right associativity, only parsing).

(** Paths are looked up as the strings the program builds with
    [os.path.join] and [os.path.abspath]; two spellings of one path (a
    trailing slash, a ["."] component) are two keys. *)

Module FS.
Import PyStr OS.

Definition exists_ (fs : gmap string node) (p : string) : bool :=
  bool_decide (is_Some (fs !! p)).
Definition isfile (fs : gmap string node) (p : string) : bool :=
  match fs !! p with Some (File _) | Some (Binary _) => true | _ => false end.
Definition isdir (fs : gmap string node) (p : string) : bool :=
  bool_decide (fs !! p = Some Dir).

(** [os.path.exists], [os.path.isfile], [os.path.isdir]. *)
Definition path_exists (p : string) : M bool :=
  let* fs := get_files in ret (exists_ fs p).

(** [open(p, "r")]: the file must exist and be a regular file. *)
Definition open_r (p : string) : M unit :=
  let* fs := get_files in
  match fs !! p with
  | Some (File _) | Some (Binary _) => ret ()
  | Some Dir => raise IsADirectoryError
  | None => raise FileNotFoundError
  end.

(** [io.read()] of a file opened in text mode with [encoding = "utf-8"]:
    the bytes are decoded, which raises [UnicodeDecodeError] when they are
    not valid UTF-8, and the line ends are translated. *)
Definition read (p : string) : M string :=
  let* fs := get_files in
  match fs !! p with
  | Some (File c) => ret (universal_newlines c)
  | Some (Binary _) => raise UnicodeDecodeError
  | Some Dir => raise IsADirectoryError
  | None => raise FileNotFoundError
  end.

(** [open(p, "w")]: creates the file or truncates it (whatever bytes it
    held, it is then the empty text); the directory that is to hold it must
    exist. *)
Definition open_w (p : string) : M unit :=
  let* fs := get_files in
  match fs !! p with
  | Some Dir => raise IsADirectoryError
  | _ =>
      match fs !! PosixPath.dirname p with
      | Some Dir => set_files (<[p := File ""]> fs)
      | Some (File _) | Some (Binary _) => raise NotADirectoryError
      | None => raise FileNotFoundError
      end
  end.

(** [io.write(s)] on a file opened for writing: [s] goes after what was
    written since the file was opened.  The program writes only to files it
    has just opened with [open_w], which hold text; bytes that are not valid
    UTF-8 stay so when text is put after them. *)
Definition write (p : string) (s : string) : M unit :=
  let* fs := get_files in
  match fs !! p with
  | Some (File c) => set_files (<[p := File (c +:+ s)]> fs)
  | Some (Binary b) => set_files (<[p := Binary (b +:+ s)]> fs)
  | Some Dir => raise IsADirectoryError
  | None => raise FileNotFoundError
  end.

(** [os.remove(p)]. *)
Definition remove (p : string) : M unit :=
  let* fs := get_files in
  match fs !! p with
  | Some (File _) | Some (Binary _) => set_files (delete p fs)
  | Some Dir => raise IsADirectoryError
  | None => raise FileNotFoundError
  end.

(** [os.mkdir(p)]. *)
Definition mkdir (p : string) : M unit :=
  let* fs := get_files in
  match fs !! p with
  | Some _ => raise FileExistsError
  | None =>
      match fs !! PosixPath.dirname p with
      | Some Dir => set_files (<[p := Dir]> fs)
      | Some (File _) | Some (Binary _) => raise NotADirectoryError
      | None => raise FileNotFoundError
      end
  end.

(** [os.makedirs(name, exist_ok = True)]: the missing ancestors are made
    first, then [name] itself; an [OSError] of the final [mkdir] is dropped
    when [name] is a directory.  [n] bounds the number of ancestors, which
    the length of [name] does. *)
Definition mkdir_exist_ok (name : string) : M unit :=
  λ w, match mkdir name w with
       | (Raise e, w') => if isdir (files w') name then (Ok (), w') else (Raise e, w')
       | r => r
       end.

Definition pass_FileExistsError (c : M unit) : M unit :=
  λ w, match c w with
       | (Raise FileExistsError, w') => (Ok (), w')
       | r => r
       end.

Fixpoint makedirs_go (n : nat) (name : string) : M unit :=
  let '(head, tail) := PosixPath.split name in
  let '(head, tail) :=
    if bool_decide (tail = "") then PosixPath.split head else (head, tail) in
  let* fs := get_files in
  if negb (bool_decide (head = "")) && negb (bool_decide (tail = ""))
     && negb (exists_ fs head)
  then
    match n with
    | S k =>
        pass_FileExistsError (makedirs_go k head) ;;
        if bool_decide (tail = ".") then ret () else mkdir_exist_ok name
    | O => mkdir_exist_ok name
    end
  else mkdir_exist_ok name.

Definition makedirs (name : string) : M unit :=
  makedirs_go (String.length name) name.

(** [os.listdir(d)]: the names of the entries whose directory is [d]. *)
Definition listdir (fs : gmap string node) (d : string) : list string :=
  omap (λ p, if bool_decide (PosixPath.dirname p = d)
                && negb (bool_decide (PosixPath.basename p = ""))
             then Some (PosixPath.basename p) else None)
       (elements (dom fs)).

End FS.

(** ** The class [easyGit] *)

Module EasyGit.
Import PyStr OS FS.

(** The attributes [__init__] sets.  [logger] and [config] are the
    [logged] component of the world. *)
Record easyGit : Type := {
  currentPath : string;
  repoPath : string;
  projectFolderPath : string;
  commitFolderPath : string;
  changeFolderPath : string;
  logFile : string;
  headFile : string
}.

(** The object [__init__] builds in the working directory [cwd] once
    [getRepositoryPath] has found the repository of the project folder
    [root], which it returns as [os.path.join(root, ".easygit")]. *)
Definition easyGit_at (root cwd : string) : easyGit :=
  let repo := PosixPath.join root ".easygit" in
  {| currentPath := cwd;
     repoPath := repo;
     projectFolderPath := PosixPath.dirname repo;
     commitFolderPath := PosixPath.join repo "commit";
     changeFolderPath := PosixPath.join repo "changes";
     logFile := PosixPath.join (PosixPath.join repo "log") "log.log";
     headFile := PosixPath.join (PosixPath.join repo "commit") "HEAD" |}.

Definition nl : string := String LF "".

(** [for x in l: body(x)]. *)
Fixpoint for_each {A} (l : list A) (body : A → M unit) : M unit :=
  match l with
  | [] => ret ()
  | x :: r => body x ;; for_each r body
  end.

(** [convertToPath(targetPath)] for a [str] argument. *)
Definition convertToPath (cwd targetPath : string) : M (option string) :=
  let p := PosixPath.abspath cwd targetPath in
  let* found := path_exists p in
  if found then ret (Some p) else ret None.

(** The loop [for path in os.listdir(__targetFolderPath__)] of the nested
    [getAllChildFiles]; [recurse] is the recursive call. *)
Fixpoint getAllChildFiles_loop (fs : gmap string node) (recurse : string → M (list string))
    (targetFolderPath : string) (names : list string) (filePaths : list string)
  : M (list string) :=
  match names with
  | [] => ret filePaths
  | path :: rest =>
      let item := PosixPath.join targetFolderPath path in
      if isfile fs item then
        log DEBUG ("File located: " +:+ item) ;;
        getAllChildFiles_loop fs recurse targetFolderPath rest (filePaths ++ [item])
      else if isdir fs item
              && negb (bool_decide (item = PosixPath.join targetFolderPath ".easygit"))
      then
        let* sub := recurse item in
        getAllChildFiles_loop fs recurse targetFolderPath rest (filePaths ++ sub)
      else getAllChildFiles_loop fs recurse targetFolderPath rest filePaths
  end.

(** The nested [getAllChildFiles]; [n] bounds the depth of the descent. *)
Fixpoint getAllChildFiles_go (n : nat) (targetFolderPath : string) : M (list string) :=
  let* fs := get_files in
  getAllChildFiles_loop fs
    (match n with
     | S k => getAllChildFiles_go k
     | O => λ _, ret []
     end)
    targetFolderPath (listdir fs targetFolderPath) [].

(** A directory is longer than the one that holds it, so no descent is
    deeper than the longest path of the file system. *)
Definition longest (fs : gmap string node) : nat :=
  foldr (λ p m, Nat.max (String.length p) m) O (elements (dom fs)).

Definition getAllChildFiles (targetFolderPath : string) : M (list string) :=
  let* fs := get_files in
  getAllChildFiles_go (S (longest fs)) targetFolderPath.

(** The loop [for filename in targetFilenames] of [add] and [remove];
    [verb] is ["Added"] or ["Removed"]. *)
Fixpoint resolve_each (verb : string) (cwd : string) (targetFilenames : list string)
    (filePaths : list string) : M (list string) :=
  match targetFilenames with
  | [] => ret filePaths
  | filename :: rest =>
      let* currentFilePath := convertToPath cwd filename in
      match currentFilePath with
      | None =>
          log WARNING "Cannot find file: None, ignoring..." ;;
          resolve_each verb cwd rest filePaths
      | Some p =>
          log DEBUG (verb +:+ " file: " +:+ p) ;;
          resolve_each verb cwd rest (filePaths ++ [p])
      end
  end.

(** The block under [# Get path(s)]. *)
Definition get_paths (verb : string) (self : easyGit) (targetFilenames : list string)
  : M (list string) :=
  if bool_decide ("." ∈ targetFilenames)
  then getAllChildFiles (currentPath self)
  else resolve_each verb (currentPath self) targetFilenames [].

Definition stagingFilePath (self : easyGit) : string :=
  PosixPath.join (repoPath self) "stagingCache".

(** [s.add(f.strip("\n"))] for every [f] of [io.readlines()]. *)
Definition add_lines (s : gset string) (content : string) : gset string :=
  foldl (λ acc f, acc ∪ {[strip LF f]}) s (readlines content).

(** The body of the writing loop of [add]. *)
Definition write_staged (stagingFilePath f : string) : M unit :=
  if contains ".easygit" f then ret ()
  else write stagingFilePath (f +:+ nl).

(** [add(self, targetFilenames)]. *)
Definition add (self : easyGit) (targetFilenames : list string) : M unit :=
  log DEBUG "function add executed" ;;
  let* filePaths := get_paths "Added" self targetFilenames in
  let stagingFilePath := stagingFilePath self in
  let* found := path_exists stagingFilePath in
  let* mergedFilePaths :=
    if found then
      let* content := read stagingFilePath in
      ret (add_lines (list_to_set filePaths) content)
    else ret (list_to_set filePaths) in
  open_w stagingFilePath ;;
  for_each (elements mergedFilePaths) (write_staged stagingFilePath).

(** The loop [for f in filePaths: originalFilePaths.remove(f)] with its
    [except KeyError]. *)
Fixpoint remove_each (filePaths : list string) (originalFilePaths : gset string)
  : M (gset string) :=
  match filePaths with
  | [] => ret originalFilePaths
  | f :: rest =>
      if bool_decide (f ∈ originalFilePaths)
      then remove_each rest (originalFilePaths ∖ {[f]})
      else
        log WARNING ("File isn't included in staging area: " +:+ f) ;;
        remove_each rest originalFilePaths
  end.

(** [remove(self, targetFilenames)]. *)
Definition remove (self : easyGit) (targetFilenames : list string) : M unit :=
  log DEBUG "function remove executed" ;;
  let stagingFilePath := stagingFilePath self in
  let* found := path_exists stagingFilePath in
  if negb found then log ERROR "staging file not found"
  else
    let* filePaths := get_paths "Removed" self targetFilenames in
    let* content := read stagingFilePath in
    let* originalFilePaths := remove_each filePaths (add_lines ∅ content) in
    if bool_decide (size originalFilePaths ≠ O) then
      open_w stagingFilePath ;;
      for_each (elements originalFilePaths) (λ f, write stagingFilePath (f +:+ nl))
    else FS.remove stagingFilePath.

(** The characters of a string, as the one-character strings that iterating
    over a [str] yields. *)
Fixpoint chars (s : string) : list string :=
  match s with
  | "" => []
  | String a r => String a "" :: chars r
  end.

(** The body of the loop [for f in targetFilePaths] of [commit]. *)
Definition commit_file (self : easyGit) (currentCommitSHA commitIO f : string) : M unit :=
  let* content := read f in
  let fileSHA := SHA1 (f +:+ content) in
  let fileChangeIO :=
    PosixPath.join (PosixPath.join (changeFolderPath self) currentCommitSHA) fileSHA in
  open_w fileChangeIO ;;
  write fileChangeIO content ;;
  write commitIO (f +:+ ":::" +:+ fileSHA +:+ nl).

(** [commit(self, message)]; [now] is what [getTime()] returns when the
    digest of the commit is computed. *)
Definition commit (self : easyGit) (message : list string) (now : string) : M unit :=
  log DEBUG "function commit executed" ;;
  let stagingFilePath := stagingFilePath self in
  let* found := path_exists stagingFilePath in
  if negb found then log ERROR "staging file not found"
  else
    let* staged := read stagingFilePath in
    let targetFilePaths := add_lines ∅ staged in
    let* lastCommitSHA := read (headFile self) in
    let currentCommitSHA := SHA1 (now +:+ PyStr.join "" (chars stagingFilePath)) in
    open_w (headFile self) ;;
    write (headFile self) currentCommitSHA ;;
    mkdir (PosixPath.join (changeFolderPath self) currentCommitSHA) ;;
    let commitIO := PosixPath.join (commitFolderPath self) currentCommitSHA in
    open_w commitIO ;;
    write commitIO ("HEAD:" +:+ lastCommitSHA +:+ nl) ;;
    write commitIO ("Commitment Message:" +:+ nl +:+ "=====" +:+ nl
                    +:+ PyStr.join nl message +:+ nl +:+ "=====" +:+ nl) ;;
    for_each (elements targetFilePaths) (commit_file self currentCommitSHA commitIO).

(** The target of [restore] and [search] when none is given: the content of
    [HEAD]; [None] when the method reports and returns. *)
Definition head_target (self : easyGit) : M (option string) :=
  let* head := read (headFile self) in
  let targetCommitSHA := strip LF head in
  if bool_decide (targetCommitSHA = "") then
    log ERROR "There's no any recorded commitment, exiting..." ;;
    ret None
  else ret (Some targetCommitSHA).

(** The body of the loop [for fileSet in content[startIndex::]] of
    [restore]; the unpacking of [fileSet.split(":::")] into two names raises
    [ValueError] unless there are two pieces. *)
Definition restore_file (self : easyGit) (targetCommitSHA fileSet : string) : M unit :=
  print (split ":::" fileSet) ;;
  match split ":::" fileSet with
  | [filePath; fileSHA] =>
      makedirs (PosixPath.dirname filePath) ;;
      let originalFileIO :=
        PosixPath.join (PosixPath.join (changeFolderPath self) targetCommitSHA) fileSHA in
      open_r originalFileIO ;;
      open_w filePath ;;
      let* original := read originalFileIO in
      write filePath original
  | _ => raise ValueError
  end.

(** [restore(self, _targetCommitSHA)]. *)
Definition restore (self : easyGit) (_targetCommitSHA : option string) : M unit :=
  log DEBUG "function restore executed" ;;
  let* target :=
    match _targetCommitSHA with
    | None => head_target self
    | Some t => ret (Some t)
    end in
  match target with
  | None => ret ()
  | Some targetCommitSHA =>
      let targetCommitSHAFile := PosixPath.join (commitFolderPath self) targetCommitSHA in
      let* found := path_exists targetCommitSHAFile in
      if negb found then log ERROR "Target commitment not found, exiting..."
      else
        let* text := read targetCommitSHAFile in
        let content := strip LF <$> readlines text in
        match index "=====" content O with
        | None => raise ValueError
        | Some topIndex =>
            match index "=====" content (topIndex + 1) with
            | None => raise ValueError
            | Some second =>
                let startIndex := (topIndex + second)%nat in
                for_each (drop startIndex content) (restore_file self targetCommitSHA)
            end
        end
  end.

(** The call [self.search(targetSHA, depth, maxDepth)] for a given
    [targetSHA], with [n] the number of levels [maxDepth - depth] still
    allowed: [n = 0] is the case [depth >= maxDepth]. *)
Fixpoint search_from (self : easyGit) (n : nat) (targetSHA : string)
  : M (option (list string)) :=
  match n with
  | O => ret None
  | S k =>
      let targetSHAFile := PosixPath.join (commitFolderPath self) targetSHA in
      let* found := path_exists targetSHAFile in
      if negb found then
        log ERROR "Target commit doesn't exist, exiting..." ;;
        ret None
      else
        let* text := read targetSHAFile in
        let lastCommitSHA := last_or "" (split ":" (strip LF (readline text))) in
        let* recursion :=
          if negb (bool_decide (lastCommitSHA = ""))
          then search_from self k lastCommitSHA
          else ret None in
        match recursion with
        | None => ret (Some [targetSHA])
        | Some older => ret (Some (targetSHA :: older))
        end
  end.

(** [search(self, targetSHA, depth, maxDepth)]. *)
Definition search (self : easyGit) (targetSHA : option string) (depth maxDepth : Z)
  : M (option (list string)) :=
  if bool_decide (depth >= maxDepth) then ret None
  else
    match targetSHA with
    | None =>
        let* target := head_target self in
        match target with
        | None => ret None
        | Some targetCommitSHA =>
            search_from self (Z.to_nat (maxDepth - 0)) targetCommitSHA
        end
    | Some t => search_from self (Z.to_nat (maxDepth - depth)) t
    end.

(** [status(self, targetSHA, maxDepth)]: [result[0]] raises on [None] and
    on an empty list. *)
Definition status (self : easyGit) (targetSHA : option string) (maxDepth : Z) : M unit :=
  log DEBUG "function status executed" ;;
  let* result := search self targetSHA 0 maxDepth in
  match result with
  | None => raise TypeError
  | Some [] => raise IndexError
  | Some (first :: rest) =>
      log INFO (first +:+ " <- HEAD") ;;
      if bool_decide (1 < length (first :: rest))%nat
      then for_each rest (λ sha, log INFO sha)
      else ret ()
  end.

End EasyGit.

(** ** Notions used to state the properties *)

Module Spec.
Import PyStr OS FS EasyGit.

(** A line as [readlines] yields it: a text without line feed, then maybe
    one line feed. *)
Definition is_line (l : string) : Prop :=
  ∃ a, has_char LF a = false ∧ (l = a ∨ l = a +:+ String LF "").

(** The text [f1 "\n" f2 "\n" ...] that the writing loops produce. *)
Fixpoint entries (l : list string) : string :=
  match l with
  | [] => ""
  | f :: r => f +:+ String LF "" +:+ entries r
  end.

(** Lower-case hexadecimal digits, of which digests are made. *)
Definition is_hex (c : ascii) : bool := bool_decide (c ∈ Sha1.hexchars).

Fixpoint all_hex (s : string) : bool :=
  match s with
  | "" => true
  | String a r => is_hex a && all_hex r
  end.

(** What [join] puts between its arguments. *)
Definition sep_of (a : string) : string :=
  if bool_decide (a = "") || endswith_char PosixPath.slash a then "" else "/".

(** The world with other files. *)
Definition with_files (w : world) (fs : gmap string node) : world :=
  World fs (logged w) (printed w).

(** What the loop over [targetFilenames] collects. *)
Definition resolved_names (fs : gmap string node) (cwd : string) (names : list string)
  : list string :=
  omap (λ n, let p := PosixPath.abspath cwd n in
             if exists_ fs p then Some p else None) names.

(** What [getAllChildFiles_go] returns. *)
Fixpoint walk (n : nat) (fs : gmap string node) (d : string) : list string :=
  listdir fs d ≫= (λ name,
    let item := PosixPath.join d name in
    if isfile fs item then [item]
    else if isdir fs item && negb (bool_decide (item = PosixPath.join d ".easygit"))
    then match n with
         | S k => walk k fs item
         | O => []
         end
    else []).

(** The resolved input paths of [add] and [remove]: what the block under
    [# Get path(s)] assigns to [filePaths]. *)
Definition paths_of (self : easyGit) (fs : gmap string node) (targetFilenames : list string)
  : list string :=
  if bool_decide ("." ∈ targetFilenames)
  then walk (S (longest fs)) fs (currentPath self)
  else resolved_names fs (currentPath self) targetFilenames.

(** A path that one line of the staging file can hold. *)
Definition single_line (p : string) : Prop :=
  has_char LF p = false ∧ has_char CR p = false.

(** The lines of the staging file, as [add], [remove] and [commit] read
    them. *)
Definition staged_lines (self : easyGit) (fs : gmap string node) : option (list string) :=
  match fs !! stagingFilePath self with
  | Some (File c) => Some (strip LF <$> readlines (universal_newlines c))
  | _ => None
  end.

(** The persisted staging set: [None] when there is no staging file to
    read. *)
Definition staged (self : easyGit) (fs : gmap string node) : option (gset string) :=
  match fs !! stagingFilePath self with
  | Some (File c) => Some (add_lines ∅ (universal_newlines c))
  | _ => None
  end.

(** The set [add] merges: the resolved paths and the persisted ones. *)
Definition merged (self : easyGit) (fs : gmap string node) (targetFilenames : list string)
  : gset string :=
  list_to_set (paths_of self fs targetFilenames) ∪ default ∅ (staged self fs).

(** Where [commit] writes for the digest [d]: the record, the blob
    directory, and the blob named [x]. *)
Definition record_path (self : easyGit) (d : string) : string :=
  PosixPath.join (commitFolderPath self) d.
Definition blob_dir (self : easyGit) (d : string) : string :=
  PosixPath.join (changeFolderPath self) d.
Definition blob_path (self : easyGit) (d x : string) : string :=
  PosixPath.join (PosixPath.join (changeFolderPath self) d) x.

(** The first two writes of [commit] into the record. *)
Definition record_header (lastCommitSHA : string) (message : list string) : string :=
  ("HEAD:" +:+ lastCommitSHA +:+ nl)
  +:+ ("Commitment Message:" +:+ nl +:+ "=====" +:+ nl
       +:+ PyStr.join nl message +:+ nl +:+ "=====" +:+ nl).

(** [p] is the directory [dir] or lies under it. *)
Definition under (dir p : string) : bool :=
  bool_decide (p = dir) || startswith (dir +:+ "/") p.

(** The parent field of the commit record named [d], as [search] reads it. *)
Definition parent_of (self : easyGit) (fs : gmap string node) (d : string) : option string :=
  match fs !! PosixPath.join (commitFolderPath self) d with
  | Some (File c) =>
      Some (last_or "" (split ":" (strip LF (readline (universal_newlines c)))))
  | _ => None
  end.

(** Every digest of [ds] names a record whose parent field is the next
    digest of [ds]. *)
Fixpoint linked (self : easyGit) (fs : gmap string node) (ds : list string) : Prop :=
  match ds with
  | [] => True
  | d :: rest =>
      match rest with
      | [] => is_Some (parent_of self fs d)
      | d' :: _ => parent_of self fs d = Some d' ∧ d' ≠ "" ∧ linked self fs rest
      end
  end.

(** The text a program reads from [p]. *)
Definition text_of (fs : gmap string node) (p : string) : option string :=
  match fs !! p with
  | Some (File c) => Some (universal_newlines c)
  | _ => None
  end.

(** The text of [p], and the line [commit] writes for the staged path [f]
    when it reads that text. *)
Definition content_of (fs : gmap string node) (p : string) : string :=
  default "" (text_of fs p).
Definition digest_of (fs : gmap string node) (f : string) : string :=
  SHA1 (f +:+ content_of fs f).
Definition association (fs : gmap string node) (f : string) : string :=
  f +:+ ":::" +:+ digest_of fs f +:+ nl.

Fixpoint concat_all (l : list string) : string :=
  match l with
  | [] => ""
  | x :: r => x +:+ concat_all r
  end.

(** A name: not empty, no slash. *)
Definition is_name (d : string) : Prop := d ≠ "" ∧ has_char PosixPath.slash d = false.

(** The world after [c]. *)
Definition exec {A} (c : M A) (w : world) : world := snd (c w).

End Spec.

(** ** A project with two files *)

Module Scenario.
Import PyStr OS FS EasyGit Spec.

Definition self : easyGit := easyGit_at "/proj" "/proj".

(** The tree [initialization()] leaves in [/proj], and two files. *)
Definition fs0 : gmap string node :=
  list_to_map
    [("/", Dir); ("/proj", Dir); ("/proj/.easygit", Dir);
     ("/proj/.easygit/changes", Dir); ("/proj/.easygit/commit", Dir);
     ("/proj/.easygit/log", Dir);
     ("/proj/.easygit/config.ini", File "[LOG]");
     ("/proj/.easygit/commit/HEAD", File "");
     ("/proj/.easygit/log/log.log", File "");
     ("/proj/a.txt", File "hello"); ("/proj/b.txt", File "world")].

Definition w0 : world := World fs0 [] [].

Definition t1 : string := "20240101 10-00-00".
Definition t2 : string := "20240101 10-00-07".
Definition t3 : string := "20240101 10-01-30".

(** Both files staged. *)
Definition staged_ab : world := exec (add self ["a.txt"; "b.txt"]) w0.

(** Both files staged and committed with the message ["first"]. *)
Definition committed : world := exec (commit self ["first"] t1) staged_ab.

(** Then both files deleted from disk. *)
Definition deleted : world :=
  exec (FS.remove "/proj/a.txt" ;; FS.remove "/proj/b.txt") committed.

(** Then [restore()]. *)
Definition restored : world := exec (restore self None) deleted.

(** Two and three commits in a row. *)
Definition committed2 : world := exec (commit self ["second"] t2) committed.
Definition committed3 : world := exec (commit self ["third"] t3) committed2.

Definition d1 : string := SHA1 (t1 +:+ stagingFilePath self).
Definition d2 : string := SHA1 (t2 +:+ stagingFilePath self).
Definition d3 : string := SHA1 (t3 +:+ stagingFilePath self).

(** A file whose name has [".easygit"] in it, outside the metadata
    directory. *)
Definition fs_notes : gmap string node :=
  <["/proj/notes.easygit.txt" := File "draft"]> fs0.
Definition w_notes : world := World fs_notes [] [].



End Scenario.


(** ** Notions for the further properties *)

Module Frame.
Import PyStr OS FS EasyGit Spec.

(** Whatever its outcome, [c] leaves alone every path outside [P]. *)
Definition touches_only {A} (P : string → Prop) (c : M A) : Prop :=
  ∀ (w : world) (q : string), ¬ P q → files (snd (c w)) !! q = files w !! q.

(** The paths [commit] writes for the digest [d]. *)
Definition written_by_commit (self : easyGit) (d : string) (q : string) : Prop :=
  q = headFile self ∨ q = blob_dir self d ∨ q = record_path self d
  ∨ ∃ x, q = blob_path self d (SHA1 x).

(** What [commit] does after it has written [HEAD]. *)
Definition commit_tail (self : easyGit) (message : list string) (d lastCommitSHA : string)
    (targetFilePaths : list string) : M unit :=
  mkdir (blob_dir self d) ;;
  open_w (record_path self d) ;;
  write (record_path self d) ("HEAD:" +:+ lastCommitSHA +:+ nl) ;;
  write (record_path self d)
    ("Commitment Message:" +:+ nl +:+ "=====" +:+ nl
     +:+ PyStr.join nl message +:+ nl +:+ "=====" +:+ nl) ;;
  for_each targetFilePaths (commit_file self d (record_path self d)).

(** [p] is met by the walk that starts in the folder [d]: a regular file
    among the entries of [d], or met from a directory entry of [d] other
    than [.easygit]. *)
Inductive reaches (fs : gmap string node) : string → string → Prop :=
| reaches_file (d name : string) :
    name ∈ listdir fs d →
    isfile fs (PosixPath.join d name) = true →
    reaches fs d (PosixPath.join d name)
| reaches_dir (d name p : string) :
    name ∈ listdir fs d →
    isfile fs (PosixPath.join d name) = false →
    isdir fs (PosixPath.join d name) = true →
    PosixPath.join d name ≠ PosixPath.join d ".easygit" →
    reaches fs (PosixPath.join d name) p →
    reaches fs d p.




End Frame.

(** ** Finding and creating a repository *)

Module Setup.
Import PyStr OS FS EasyGit.

(** [print(s)] of a [str]: the value is recorded as the list [[s]]; the
    functions below print no list. *)
Definition print_str (s : string) : M unit := print [s].

(** [convertToPath(targetPath)] when [targetPath] may be [None], which is
    neither a [PathLike] nor a [str]. *)
Definition convertToPath_opt (cwd : string) (targetPath : option string)
  : M (option string) :=
  match targetPath with
  | Some t => convertToPath cwd t
  | None => raise TypeError
  end.

(** [getRepositoryPath(targetPath)]; [n] bounds the number of recursive
    calls.  [os.path.exists(None)] raises [TypeError]. *)
Fixpoint getRepositoryPath_go (n : nat) (cwd : string) (targetPath : option string)
  : M (option string) :=
  let* currentFolder := convertToPath_opt cwd targetPath in
  match currentFolder with
  | None => raise TypeError
  | Some currentFolder =>
      let* found := path_exists currentFolder in
      if negb found then ret None
      else
        let repoPath := PosixPath.join currentFolder ".easygit" in
        let* fs := get_files in
        if isdir fs repoPath then convertToPath cwd repoPath
        else if bool_decide (currentFolder = PosixPath.dirname currentFolder)
        then ret None
        else match n with
             | S k => getRepositoryPath_go k cwd (Some (PosixPath.dirname currentFolder))
             | O => ret None
             end
  end.

(** Every call but the first is on a shorter path than the one before, so
    the length of the first folder bounds their number (lemma
    [SetupFacts.go_enough]: a larger bound gives the same result). *)
Definition getRepositoryPath (cwd : string) (targetPath : option string)
  : M (option string) :=
  getRepositoryPath_go
    (match targetPath with
     | Some t => String.length (PosixPath.abspath cwd t)
     | None => O
     end)
    cwd targetPath.

(** What [config.write] puts in [config.ini]: the section, the option (its
    name in lower case) and the comment line kept as an option without
    value. *)
Definition config_text : string :=
  "[LOG]" +:+ nl +:+ "logginglevel = debug" +:+ nl
  +:+ "; {debug, info, warning, error, critical}" +:+ nl +:+ nl.

(** [initialization()] in the working directory [cwd]. *)
Definition initialization (cwd : string) : M unit :=
  let* targetRepoPath := convertToPath cwd cwd in
  match targetRepoPath with
  | None => print_str "Target path is not viable, exiting..."
  | Some targetRepoPath =>
      let* found := getRepositoryPath cwd (Some targetRepoPath) in
      match found with
      | Some _ =>
          print_str ("Could not create repository, "
                     +:+ "the target path is already under a repository, exiting...")
      | None =>
          let repoFolderPath := PosixPath.join targetRepoPath ".easygit" in
          let changesFolderPath := PosixPath.join repoFolderPath "changes" in
          let commitFolderPath := PosixPath.join repoFolderPath "commit" in
          let logFolderPath := PosixPath.join repoFolderPath "log" in
          for_each [repoFolderPath; changesFolderPath; commitFolderPath; logFolderPath]
                   mkdir ;;
          let configFile := PosixPath.join repoFolderPath "config.ini" in
          open_w configFile ;;
          write configFile config_text ;;
          for_each [PosixPath.join commitFolderPath "HEAD";
                    PosixPath.join logFolderPath "log.log"]
                   open_w
      end
  end.

(** The files once [initialization] has made the repository of the folder
    [cwd]. *)
Definition init_files (cwd : string) (fs : gmap string node) : gmap string node :=
  let repoFolderPath := PosixPath.join cwd ".easygit" in
  let changesFolderPath := PosixPath.join repoFolderPath "changes" in
  let commitFolderPath := PosixPath.join repoFolderPath "commit" in
  let logFolderPath := PosixPath.join repoFolderPath "log" in
  <[PosixPath.join logFolderPath "log.log" := File ""]>
    (<[PosixPath.join commitFolderPath "HEAD" := File ""]>
       (<[PosixPath.join repoFolderPath "config.ini" := File config_text]>
          (<[logFolderPath := Dir]>
             (<[commitFolderPath := Dir]>
                (<[changesFolderPath := Dir]>
                   (<[repoFolderPath := Dir]> fs)))))).

(** The folders [getRepositoryPath] visits one after the other. *)
Fixpoint climbs (cwd : string) (chain : list string) : Prop :=
  match chain with
  | p :: rest =>
      match rest with
      | q :: _ =>
          p ≠ PosixPath.dirname p ∧ q = PosixPath.abspath cwd (PosixPath.dirname p)
          ∧ climbs cwd rest
      | [] => True
      end
  | [] => True
  end.

(** A project folder without repository. *)
Definition fs_fresh : gmap string node :=
  list_to_map [("/", Dir); ("/proj", Dir); ("/proj/a.txt", File "hello")].
Definition w_fresh : world := World fs_fresh [] [].

End Setup.
(** * Facts *)

(** ** Strings *)

Module PyStrFacts.
Import PyStr Spec.

Lemma str_app_cons (a : ascii) (s t : string) :
  String a s +:+ t = String a (s +:+ t).
Proof. reflexivity. Qed.

Lemma str_app_nil_l (s : string) : "" +:+ s = s.
Proof. reflexivity. Qed.

Lemma str_app_nil_r (s : string) : s +:+ "" = s.
Proof. induction s as [|a s IH]; [done|]. by rewrite str_app_cons, IH. Qed.

Lemma str_app_assoc (s t u : string) : (s +:+ t) +:+ u = s +:+ t +:+ u.
Proof. induction s as [|a s IH]; [done|]. by rewrite !str_app_cons, IH. Qed.

Lemma str_length_app (s t : string) :
  String.length (s +:+ t) = (String.length s + String.length t)%nat.
Proof.
  induction s as [|a s IH]; [done|]. rewrite str_app_cons. simpl. by rewrite IH.
Qed.

Lemma has_char_app (c : ascii) (s t : string) :
  has_char c (s +:+ t) = has_char c s || has_char c t.
Proof.
  induction s as [|a s IH]; [done|].
  rewrite str_app_cons. simpl. rewrite IH. by rewrite orb_assoc.
Qed.

Lemma startswith_app (n b : string) : startswith n (n +:+ b) = true.
Proof.
  induction n as [|a n IH]; [done|].
  rewrite str_app_cons. simpl. rewrite IH. by rewrite bool_decide_eq_true_2.
Qed.

Lemma contains_here (n s : string) : startswith n s = true → contains n s = true.
Proof. intros H. destruct s; simpl in *; by rewrite H. Qed.

(** A string that has [n] somewhere in it. *)
Lemma contains_app (n a b : string) : contains n (a +:+ n +:+ b) = true.
Proof.
  induction a as [|c a IH].
  - rewrite str_app_nil_l. apply contains_here, startswith_app.
  - rewrite str_app_cons. simpl. rewrite IH. apply orb_true_r.
Qed.

Lemma contains_app_r (n a b : string) : contains n b = true → contains n (a +:+ b) = true.
Proof.
  intros H. induction a as [|c a IH]; [done|].
  rewrite str_app_cons. simpl. rewrite IH. apply orb_true_r.
Qed.

Lemma startswith_contains (n p s : string) :
  contains n p = true → startswith p s = true → contains n s = true.
Proof.
  revert s. induction p as [|a p IH]; intros s Hc Hs.
  - destruct n; simpl in Hc; [|done]. destruct s; done.
  - destruct s as [|b s]; [done|]. simpl in Hs.
    apply andb_true_iff in Hs as [Hab Hs]. apply bool_decide_eq_true in Hab as <-.
    simpl in Hc. apply orb_true_iff in Hc as [Hc|Hc].
    + apply contains_here.
      clear IH. revert p s a Hc Hs. induction n as [|x n IHn]; intros p s a Hc Hs; [done|].
      simpl in Hc. apply andb_true_iff in Hc as [Hx Hc]. simpl. rewrite Hx. simpl.
      destruct n as [|y n]; [done|].
      destruct p as [|a' p]; [done|]. destruct s as [|b' s]; [done|].
      simpl in Hs. apply andb_true_iff in Hs as [Hab' Hs].
      apply bool_decide_eq_true in Hab' as <-.
      by apply (IHn p s a').
    + simpl. rewrite (IH s Hc Hs). apply orb_true_r.
Qed.

Lemma endswith_char_app (c : ascii) (s : string) (a : ascii) (t : string) :
  endswith_char c (s +:+ String a t) = endswith_char c (String a t).
Proof.
  induction s as [|b s IH]; [done|].
  rewrite str_app_cons. change (endswith_char c (String b ?r)) with
    (match r with "" => bool_decide (b = c) | _ => endswith_char c r end).
  destruct (s +:+ String a t) eqn:E; [|done].
  destruct s; done.
Qed.

(** *** Line breaks *)

Lemma universal_newlines_app (a b : string) :
  has_char CR a = false → universal_newlines (a +:+ b) = a +:+ universal_newlines b.
Proof.
  induction a as [|c a IH]; [done|]. simpl. intros H.
  apply orb_false_iff in H as [Hc Ha]. rewrite ?str_app_cons. simpl.
  rewrite Hc. by rewrite IH.
Qed.

Lemma universal_newlines_id (a : string) :
  has_char CR a = false → universal_newlines a = a.
Proof.
  intros H. rewrite <- (str_app_nil_r a) at 1.
  rewrite universal_newlines_app by done. apply str_app_nil_r.
Qed.

Lemma universal_newlines_no_CR (s : string) : has_char CR (universal_newlines s) = false.
Proof.
  induction s as [|a s IH]; [done|]. simpl.
  destruct (bool_decide (a = CR)) eqn:E.
  - destruct s as [|b s]; [done|].
    destruct (bool_decide (b = LF)); [done|].
    cbn [has_char]. by rewrite IH.
  - cbn [has_char]. by rewrite E, IH.
Qed.

Lemma readlines_line (a r : string) :
  has_char LF a = false →
  readlines (a +:+ String LF r) = (a +:+ String LF "") :: readlines r.
Proof.
  induction a as [|c a IH]; [done|]. simpl. intros H.
  apply orb_false_iff in H as [Hc Ha]. rewrite ?str_app_cons. simpl.
  rewrite Hc. by rewrite IH.
Qed.

Lemma rstrip_line (a : string) :
  has_char LF a = false → rstrip LF (a +:+ String LF "") = a.
Proof.
  induction a as [|c a IH]; [done|]. simpl. intros H.
  apply orb_false_iff in H as [Hc Ha]. rewrite ?str_app_cons. simpl.
  rewrite IH by done. by rewrite Hc.
Qed.

Lemma lstrip_no (c : ascii) (a : string) :
  match a with String b _ => b ≠ c | "" => True end → lstrip c a = a.
Proof. destruct a as [|b a]; [done|]. simpl. intros H. by rewrite bool_decide_eq_false_2. Qed.

Lemma strip_line (a : string) :
  has_char LF a = false → strip LF (a +:+ String LF "") = a.
Proof.
  intros H. unfold strip. destruct a as [|c a]; [done|].
  simpl in H. apply orb_false_iff in H as [Hc Ha].
  rewrite ?str_app_cons. simpl lstrip. rewrite Hc. rewrite <- str_app_cons.
  apply rstrip_line. simpl. by rewrite Hc, Ha.
Qed.

Lemma rstrip_no_LF (a : string) : has_char LF a = false → rstrip LF a = a.
Proof.
  induction a as [|c a IH]; [done|]. simpl. intros H.
  apply orb_false_iff in H as [Hc Ha]. rewrite IH by done. by rewrite Hc.
Qed.

Lemma strip_no_LF (a : string) : has_char LF a = false → strip LF a = a.
Proof.
  intros H. unfold strip. destruct a as [|c a]; [done|].
  pose proof H as H'. simpl in H. apply orb_false_iff in H as [Hc Ha].
  simpl lstrip. rewrite Hc. by apply rstrip_no_LF.
Qed.


Lemma readlines_shape (s : string) : Forall is_line (readlines s).
Proof.
  induction s as [|c s IH]; [constructor|]. simpl.
  destruct (bool_decide (c = LF)) eqn:E.
  - constructor; [|done]. exists "". split; [done|]. by right.
  - destruct (readlines s) as [|l ls]; constructor.
    + exists (String c ""). split; [simpl; by rewrite E|]. by left.
    + constructor.
    + apply Forall_cons in IH as [(a & Ha & Hl) _].
      exists (String c a). split; [simpl; by rewrite E, Ha|].
      destruct Hl as [->| ->]; [by left|by right].
    + by apply Forall_cons in IH as [_ ?].
Qed.

Lemma strip_is_line (l : string) : is_line l → has_char LF (strip LF l) = false.
Proof.
  intros (a & Ha & [->| ->]); [by rewrite strip_no_LF|by rewrite strip_line].
Qed.

Lemma has_char_rstrip (c d : ascii) (s : string) :
  has_char c s = false → has_char c (rstrip d s) = false.
Proof.
  induction s as [|a s IH]; [done|]. simpl. intros H.
  apply orb_false_iff in H as [Ha Hs].
  destruct (bool_decide (a = d) && bool_decide (rstrip d s = "")); [done|].
  cbn [has_char]. by rewrite Ha, IH.
Qed.

Lemma has_char_lstrip (c d : ascii) (s : string) :
  has_char c s = false → has_char c (lstrip d s) = false.
Proof.
  induction s as [|a s IH]; [done|]. simpl. intros H.
  apply orb_false_iff in H as [Ha Hs].
  destruct (bool_decide (a = d)); [by apply IH|]. cbn [has_char]. by rewrite Ha, Hs.
Qed.

Lemma has_char_strip (c d : ascii) (s : string) :
  has_char c s = false → has_char c (strip d s) = false.
Proof. intros H. by apply has_char_rstrip, has_char_lstrip. Qed.

Lemma readlines_chars (c : ascii) (s : string) :
  has_char c s = false → Forall (λ l, has_char c l = false) (readlines s).
Proof.
  induction s as [|a s IH]; [constructor|]. simpl. intros H.
  apply orb_false_iff in H as [Ha Hs]. specialize (IH Hs).
  destruct (bool_decide (a = LF)) eqn:E.
  - constructor; [|done]. apply bool_decide_eq_true in E as <-.
    cbn [has_char]. by rewrite Ha.
  - destruct (readlines s) as [|l ls]; constructor.
    + cbn [has_char]. by rewrite Ha.
    + constructor.
    + apply Forall_cons in IH as [Hl _]. cbn [has_char]. by rewrite Ha, Hl.
    + by apply Forall_cons in IH as [_ ?].
Qed.

Lemma readlines_entries (l : list string) :
  Forall (λ f, has_char LF f = false) l →
  strip LF <$> readlines (entries l) = l.
Proof.
  induction 1 as [|f l Hf Hl IH]; [done|]. simpl.
  rewrite str_app_cons, str_app_nil_l, readlines_line by done.
  rewrite fmap_cons, strip_line by done. by rewrite IH.
Qed.

Lemma has_char_entries (c : ascii) (l : list string) :
  c ≠ LF → Forall (λ f, has_char c f = false) l → has_char c (entries l) = false.
Proof.
  intros Hc. induction 1 as [|f l Hf Hl IH]; [done|]. simpl.
  rewrite !has_char_app, Hf, IH. simpl. by rewrite bool_decide_eq_false_2.
Qed.

(** *** [split] *)

Lemma split_go_no_char (c : ascii) (s : string) :
  has_char c s = false → split_go (String c "") O s = [s].
Proof.
  induction s as [|a s IH]; [done|]. intros H. simpl in H.
  apply orb_false_iff in H as [Ha Hs]. simpl.
  rewrite bool_decide_eq_false_2.
  2:{ intros ->. by rewrite bool_decide_eq_true_2 in Ha. }
  simpl. by rewrite IH.
Qed.

Lemma universal_newlines_cons (a : ascii) (r : string) :
  a ≠ CR → universal_newlines (String a r) = String a (universal_newlines r).
Proof. intros H. cbn [universal_newlines]. by rewrite bool_decide_eq_false_2. Qed.

Lemma split_go_cons_ne (c a : ascii) (r : string) :
  a ≠ c →
  split_go (String c "") O (String a r) =
  match split_go (String c "") O r with
  | [] => [String a ""]
  | h :: t => String a h :: t
  end.
Proof.
  intros H. cbn [split_go startswith].
  rewrite bool_decide_eq_false_2 by (intros E; by apply H). reflexivity.
Qed.

Lemma split_go_cons_eq (c : ascii) (r : string) :
  split_go (String c "") O (String c r) = "" :: split_go (String c "") O r.
Proof.
  cbn [split_go startswith]. rewrite bool_decide_eq_true_2 by done. reflexivity.
Qed.

Lemma split_HEAD (h : string) :
  has_char ":" h = false → split ":" ("HEAD:" +:+ h) = ["HEAD"; h].
Proof.
  intros H. unfold split. rewrite !str_app_cons, str_app_nil_l.
  rewrite !split_go_cons_ne by done.
  rewrite split_go_cons_eq. by rewrite (split_go_no_char _ _ H).
Qed.

(** A one-character string per character, joined back. *)
Lemma join_chars (s : string) : PyStr.join "" (EasyGit.chars s) = s.
Proof.
  induction s as [|a s IH]; [done|]. simpl.
  destruct (EasyGit.chars s) eqn:E.
  - destruct s; [done|discriminate].
  - rewrite IH. by rewrite str_app_nil_l.
Qed.

End PyStrFacts.

(** ** Digests *)

Module Sha1Facts.
Import PyStr Spec PyStrFacts.

Lemma hexdigit_is_hex (x : Z) : is_hex (Sha1.hexdigit x) = true.
Proof.
  unfold Sha1.hexdigit. generalize (Z.to_nat (Z.land x 15)). intros n.
  do 16 (destruct n as [|n]; [reflexivity|]). by destruct n.
Qed.

Lemma hex32_hex (x : Z) (rest : string) :
  all_hex (Sha1.hex32 x rest) = all_hex rest.
Proof. unfold Sha1.hex32. cbn [all_hex]. by rewrite !hexdigit_is_hex. Qed.

Lemma SHA1_hex (s : string) : all_hex (SHA1 s) = true.
Proof.
  unfold SHA1, Sha1.hexdigest. destruct (Sha1.digest s) as [[[[h0 h1] h2] h3] h4].
  by rewrite !hex32_hex.
Qed.

Lemma SHA1_length (s : string) : String.length (SHA1 s) = 40%nat.
Proof.
  unfold SHA1, Sha1.hexdigest. by destruct (Sha1.digest s) as [[[[h0 h1] h2] h3] h4].
Qed.

Lemma all_hex_has_char (c : ascii) (s : string) :
  is_hex c = false → all_hex s = true → has_char c s = false.
Proof.
  intros Hc. induction s as [|a s IH]; [done|]. cbn [all_hex has_char].
  intros [Ha Hs]%andb_true_iff. rewrite IH by done.
  rewrite bool_decide_eq_false_2; [done|]. intros ->. congruence.
Qed.

Lemma SHA1_has_char (c : ascii) (s : string) :
  is_hex c = false → has_char c (SHA1 s) = false.
Proof. intros Hc. apply all_hex_has_char, SHA1_hex. done. Qed.

Lemma SHA1_nonempty (s : string) : SHA1 s ≠ "".
Proof. intros H. pose proof (SHA1_length s) as L. by rewrite H in L. Qed.

Lemma SHA1_not_HEAD (s : string) : SHA1 s ≠ "HEAD".
Proof. intros H. pose proof (SHA1_length s) as L. by rewrite H in L. Qed.

End Sha1Facts.

(** ** Paths *)

Module PathFacts.
Import PyStr Spec PyStrFacts PosixPath.

Lemma startswith_slash (b : string) :
  startswith sep b = false ↔ match b with String c _ => c ≠ slash | "" => True end.
Proof.
  destruct b as [|c b]; [done|]. unfold sep. cbn [startswith].
  rewrite andb_true_r. rewrite bool_decide_eq_false. split; intros H ?; by apply H.
Qed.

Lemma has_char_startswith (b : string) :
  has_char slash b = false → startswith sep b = false.
Proof.
  intros H. apply startswith_slash. destruct b as [|c b]; [done|].
  cbn [has_char] in H. apply orb_false_iff in H as [H _].
  by apply bool_decide_eq_false in H.
Qed.

Lemma join_relative (a b : string) :
  startswith sep b = false → join a b = a +:+ sep_of a +:+ b.
Proof.
  intros H. unfold join, sep_of. rewrite H.
  by destruct (bool_decide (a = "") || endswith_char slash a).
Qed.

Lemma join_inj (a b b' : string) :
  startswith sep b = false → startswith sep b' = false →
  join a b = join a b' → b = b'.
Proof.
  intros Hb Hb'. rewrite !join_relative by done.
  intros H. by repeat apply String.app_inj in H.
Qed.

Lemma endswith_has_char (c : ascii) (s : string) :
  endswith_char c s = true → has_char c s = true.
Proof.
  induction s as [|a s IH]; [done|].
  change (endswith_char c (String a s)) with
    (match s with "" => bool_decide (a = c) | _ => endswith_char c s end).
  cbn [has_char]. destruct s as [|b s].
  - intros ->. done.
  - intros H. rewrite IH by done. apply orb_true_r.
Qed.

(** After a name that is not empty and has no slash, [join] puts a slash. *)
Lemma sep_of_app_name (a n : string) :
  n ≠ "" → has_char slash n = false → sep_of (a +:+ n) = "/".
Proof.
  intros Hn Hs. unfold sep_of. destruct n as [|c n]; [done|].
  rewrite endswith_char_app.
  destruct (endswith_char slash (String c n)) eqn:E.
  { apply endswith_has_char in E. congruence. }
  rewrite bool_decide_eq_false_2; [done|].
  destruct a; done.
Qed.

Lemma join_name (a n b : string) :
  n ≠ "" → has_char slash n = false → startswith sep b = false →
  join (a +:+ n) b = a +:+ n +:+ "/" +:+ b.
Proof.
  intros Hn Hs Hb. rewrite join_relative by done.
  rewrite sep_of_app_name by done. by rewrite str_app_assoc.
Qed.

Lemma length_join (a b : string) :
  b ≠ "" → startswith sep b = false → (String.length a < String.length (join a b))%nat.
Proof.
  intros Hb Hs. rewrite join_relative by done. rewrite !str_length_app.
  destruct b; [done|]. simpl. lia.
Qed.

End PathFacts.

(** ** The monad and the file system *)

Module OSFacts.
Import PyStr OS FS Spec.

Lemma bind_eq {A B} (c : M A) (k : A → M B) (w : world) :
  bind c k w = match c w with
               | (Ok a, w') => k a w'
               | (Raise e, w') => (Raise e, w')
               end.
Proof. reflexivity. Qed.

Lemma bind_ok {A B} (c : M A) (k : A → M B) (w w' : world) (a : A) :
  c w = (Ok a, w') → bind c k w = k a w'.
Proof. intros H. by rewrite bind_eq, H. Qed.

Lemma bind_raise {A B} (c : M A) (k : A → M B) (w w' : world) (e : exn) :
  c w = (Raise e, w') → bind c k w = (Raise e, w').
Proof. intros H. by rewrite bind_eq, H. Qed.

Lemma bind_inv_ok {A B} (c : M A) (k : A → M B) (w w2 : world) (b : B) :
  bind c k w = (Ok b, w2) → ∃ a w1, c w = (Ok a, w1) ∧ k a w1 = (Ok b, w2).
Proof.
  rewrite bind_eq. destruct (c w) as [[a|e] w1]; [|done]. intros H. by exists a, w1.
Qed.

Lemma log_eq (l : level) (msg : string) (w : world) :
  log l msg w = (Ok (), World (files w) (logged w ++ [(l, msg)]) (printed w)).
Proof. reflexivity. Qed.

Lemma path_exists_eq (p : string) (w : world) :
  path_exists p w = (Ok (exists_ (files w) p), w).
Proof. reflexivity. Qed.

Lemma exists_None (fs : gmap string node) (p : string) :
  fs !! p = None → exists_ fs p = false.
Proof.
  intros H. unfold exists_. rewrite H. apply bool_decide_eq_false_2. by intros [? ?].
Qed.

Lemma exists_Some (fs : gmap string node) (p : string) (x : node) :
  fs !! p = Some x → exists_ fs p = true.
Proof. intros H. unfold exists_. rewrite H. by apply bool_decide_eq_true_2. Qed.

Lemma read_eq (p : string) (w : world) :
  read p w = match files w !! p with
             | Some (File c) => (Ok (universal_newlines c), w)
             | Some (Binary _) => (Raise UnicodeDecodeError, w)
             | Some Dir => (Raise IsADirectoryError, w)
             | None => (Raise FileNotFoundError, w)
             end.
Proof. unfold read. rewrite bind_eq. simpl. by destruct (files w !! p) as [[]|]. Qed.

Lemma read_file (p c : string) (w : world) :
  files w !! p = Some (File c) → read p w = (Ok (universal_newlines c), w).
Proof. intros H. by rewrite read_eq, H. Qed.

Lemma open_w_eq (p : string) (w : world) :
  open_w p w =
  match files w !! p with
  | Some Dir => (Raise IsADirectoryError, w)
  | _ => match files w !! PosixPath.dirname p with
         | Some Dir => (Ok (), with_files w (<[p := File ""]> (files w)))
         | Some (File _) | Some (Binary _) => (Raise NotADirectoryError, w)
         | None => (Raise FileNotFoundError, w)
         end
  end.
Proof.
  unfold open_w. rewrite bind_eq. simpl.
  destruct (files w !! p) as [[]|];
    by destruct (files w !! PosixPath.dirname p) as [[]|].
Qed.

Lemma write_eq (p s : string) (w : world) :
  write p s w = match files w !! p with
                | Some (File c) => (Ok (), with_files w (<[p := File (c +:+ s)]> (files w)))
                | Some (Binary b) => (Ok (), with_files w (<[p := Binary (b +:+ s)]> (files w)))
                | Some Dir => (Raise IsADirectoryError, w)
                | None => (Raise FileNotFoundError, w)
                end.
Proof. unfold write. rewrite bind_eq. simpl. by destruct (files w !! p) as [[]|]. Qed.

Lemma remove_eq (p : string) (w : world) :
  FS.remove p w = match files w !! p with
                  | Some (File _) | Some (Binary _) => (Ok (), with_files w (delete p (files w)))
                  | Some Dir => (Raise IsADirectoryError, w)
                  | None => (Raise FileNotFoundError, w)
                  end.
Proof. unfold FS.remove. rewrite bind_eq. simpl. by destruct (files w !! p) as [[]|]. Qed.

Lemma mkdir_eq (p : string) (w : world) :
  mkdir p w =
  match files w !! p with
  | Some _ => (Raise FileExistsError, w)
  | None => match files w !! PosixPath.dirname p with
            | Some Dir => (Ok (), with_files w (<[p := Dir]> (files w)))
            | Some (File _) | Some (Binary _) => (Raise NotADirectoryError, w)
            | None => (Raise FileNotFoundError, w)
            end
  end.
Proof.
  unfold mkdir. rewrite bind_eq. simpl.
  destruct (files w !! p) as [[]|]; [done..|].
  by destruct (files w !! PosixPath.dirname p) as [[]|].
Qed.

End OSFacts.

(** ** The history chain *)

Module SearchFacts.
Import PyStr OS FS EasyGit Spec.
Import PyStrFacts OSFacts.

(** One level of [search] on a record that exists. *)
Lemma search_from_step (self : easyGit) (k : nat) (d c : string) (w : world) :
  files w !! PosixPath.join (commitFolderPath self) d = Some (File c) →
  search_from self (S k) d w =
    let p := last_or "" (split ":" (strip LF (readline (universal_newlines c)))) in
    match (if negb (bool_decide (p = "")) then search_from self k p w else (Ok None, w)) with
    | (Ok None, w') => (Ok (Some [d]), w')
    | (Ok (Some older), w') => (Ok (Some (d :: older)), w')
    | (Raise e, w') => (Raise e, w')
    end.
Proof.
  intros H. cbn [search_from]. cbv zeta.
  rewrite bind_eq, path_exists_eq. cbv beta iota.
  rewrite (exists_Some _ _ _ H). cbn [negb].
  rewrite bind_eq, (read_file _ _ _ H). cbv beta iota.
  rewrite bind_eq.
  destruct (negb (bool_decide (_ = ""))).
  - by destruct (search_from self k _ w) as [[[older|]|e] w'].
  - reflexivity.
Qed.

Lemma search_from_missing (self : easyGit) (k : nat) (d : string) (w : world) :
  files w !! PosixPath.join (commitFolderPath self) d = None →
  search_from self (S k) d w =
    (Ok None, World (files w)
                (logged w ++ [(ERROR, "Target commit doesn't exist, exiting...")])
                (printed w)).
Proof.
  intros H. cbn [search_from]. cbv zeta.
  rewrite bind_eq, path_exists_eq. cbv beta iota.
  by rewrite (exists_None _ _ H).
Qed.

(** [search] does not return an empty list. *)
Lemma search_from_nonempty (self : easyGit) (n : nat) (d : string) (w w' : world) :
  search_from self n d w ≠ (Ok (Some []), w').
Proof.
  destruct n as [|k]; [done|]. cbn [search_from]. cbv zeta.
  rewrite bind_eq, path_exists_eq. cbv beta iota.
  destruct (negb (exists_ (files w) _)); [done|].
  rewrite bind_eq. destruct (read _ w) as [[text|e] w1]; [|done].
  rewrite bind_eq.
  destruct (if negb _ then _ else _) as [[[older|]|e] w2]; done.
Qed.

(** Along a chain of records [search] returns the first [n] digests, and
    changes nothing: it stops at the depth cap, or at a record without
    parent. *)
Lemma search_from_chain (self : easyGit) (w : world) (ds : list string) :
  linked self (files w) ds →
  ∀ n d, head ds = Some d → (1 ≤ n)%nat →
    (n ≤ length ds)%nat ∨ parent_of self (files w) (List.last ds "") = Some "" →
    search_from self n d w = (Ok (Some (take n ds)), w).
Proof.
  induction ds as [|d0 rest IH]; intros Hl n d Hd Hn Hstop; [done|].
  injection Hd as ->. destruct n as [|k]; [lia|].
  destruct rest as [|d' rest'].
  - destruct Hl as [p Hp]. unfold parent_of in Hp.
    destruct (files w !! _) as [[c| |?]|] eqn:Hc; [|done..].
    rewrite (search_from_step _ _ _ _ _ Hc). cbv zeta.
    injection Hp as Hp. rewrite Hp.
    destruct Hstop as [Hk|Hroot].
    + assert (k = O) as -> by (simpl in Hk; lia).
      destruct (negb (bool_decide (p = ""))); reflexivity.
    + simpl in Hroot. unfold parent_of in Hroot. rewrite Hc in Hroot.
      injection Hroot as Hroot. rewrite Hroot in Hp. subst p.
      rewrite bool_decide_eq_true_2 by done. cbn [negb]. by destruct k.
  - destruct Hl as (Hp & Hne & Hl). unfold parent_of in Hp.
    destruct (files w !! _) as [[c| |?]|] eqn:Hc; [|done..].
    rewrite (search_from_step _ _ _ _ _ Hc). cbv zeta.
    injection Hp as Hp. rewrite Hp.
    rewrite bool_decide_eq_false_2 by done. cbn [negb].
    destruct k as [|k'].
    + reflexivity.
    + rewrite (IH Hl (S k') d'); [done|done|lia|].
      destruct Hstop as [Hk|Hroot]; [left; simpl in *; lia|by right].
Qed.

(** [search] along a chain, from its first digest or from [HEAD]. *)
Lemma search_chain (self : easyGit) (w : world) (ds : list string) (d : string)
    (targetSHA : option string) (maxDepth : Z) :
  head ds = Some d →
  linked self (files w) ds →
  match targetSHA with
  | None => ∃ h, files w !! headFile self = Some (File h)
                 ∧ strip LF (universal_newlines h) = d ∧ d ≠ ""
  | Some t => t = d
  end →
  0 < maxDepth →
  maxDepth <= Z.of_nat (length ds)
    ∨ parent_of self (files w) (List.last ds "") = Some "" →
  search self targetSHA 0 maxDepth w = (Ok (Some (take (Z.to_nat maxDepth) ds)), w).
Proof.
  intros Hd Hl Ht Hpos Hstop.
  assert (Hgo : ∀ x, search_from self (Z.to_nat (maxDepth - x + x)) d w
                     = (Ok (Some (take (Z.to_nat maxDepth) ds)), w)).
  { intros x. replace (maxDepth - x + x) with maxDepth by lia.
    apply search_from_chain; [done|done|lia|].
    destruct Hstop as [H|H]; [left; lia|by right]. }
  unfold search. rewrite bool_decide_eq_false_2 by lia.
  destruct targetSHA as [t|].
  - subst t. specialize (Hgo 0). by rewrite Z.add_0_r in Hgo.
  - destruct Ht as (h & Hh & Hs & Hne).
    rewrite bind_eq. unfold head_target.
    rewrite bind_eq, (read_file _ _ _ Hh). cbv beta iota zeta.
    rewrite Hs, bool_decide_eq_false_2 by done.
    unfold ret at 1. cbv beta iota.
    specialize (Hgo 0). by rewrite Z.add_0_r in Hgo.
Qed.

End SearchFacts.

(** ** [status] *)

Module StatusFacts.
Import PyStr OS FS EasyGit Spec.
Import PyStrFacts OSFacts SearchFacts.

Lemma for_each_log (l : list string) (w : world) :
  ∃ lg, for_each l (λ sha, log INFO sha) w = (Ok (), World (files w) lg (printed w)).
Proof.
  revert w. induction l as [|x l IH]; intros w; [by exists (logged w)|].
  cbn [for_each]. rewrite bind_eq, log_eq. cbv beta iota.
  destruct (IH (World (files w) (logged w ++ [(INFO, x)]) (printed w))) as [lg ->].
  by exists lg.
Qed.

(** [status] after its first log call, by the result of [search]. *)
Lemma status_eq (self : easyGit) (targetSHA : option string) (maxDepth : Z) (w : world) :
  status self targetSHA maxDepth w =
  match search self targetSHA 0 maxDepth (exec (log DEBUG "function status executed") w) with
  | (Ok None, w') => (Raise TypeError, w')
  | (Ok (Some []), w') => (Raise IndexError, w')
  | (Ok (Some (first :: rest)), w') =>
      (log INFO (first +:+ " <- HEAD") ;;
       if bool_decide (1 < length (first :: rest))%nat
       then for_each rest (λ sha, log INFO sha) else ret ()) w'
  | (Raise e, w') => (Raise e, w')
  end.
Proof.
  unfold status. rewrite bind_eq, log_eq. cbv beta iota.
  rewrite bind_eq. unfold exec. rewrite log_eq. cbn [snd].
  by destruct (search _ _ _ _ _) as [[[[|first rest]|]|e] w'].
Qed.

Lemma search_none (self : easyGit) (targetSHA : option string) (maxDepth : Z) (w : world) :
  match targetSHA with
  | None => ∃ h, files w !! headFile self = Some (File h)
                 ∧ strip LF (universal_newlines h) = ""
  | Some t => files w !! PosixPath.join (commitFolderPath self) t = None
  end →
  ∃ lg, search self targetSHA 0 maxDepth w = (Ok None, World (files w) lg (printed w)).
Proof.
  intros H. unfold search. destruct (bool_decide (0 >= maxDepth)) eqn:E.
  { by exists (logged w). }
  apply bool_decide_eq_false in E.
  destruct targetSHA as [t|].
  - destruct (Z.to_nat (maxDepth - 0)) as [|k] eqn:En; [lia|].
    rewrite (search_from_missing _ _ _ _ H). by eexists.
  - destruct H as (h & Hh & Hs).
    rewrite bind_eq. unfold head_target.
    rewrite bind_eq, (read_file _ _ _ Hh). cbv beta iota zeta.
    rewrite Hs, bool_decide_eq_true_2 by done.
    rewrite bind_eq, log_eq. cbv beta iota. unfold ret. by eexists.
Qed.

End StatusFacts.

(** ** The staging set *)

Module StagingFacts.
Import PyStr OS FS EasyGit Spec.
Import PyStrFacts PathFacts OSFacts.

Lemma add_lines_eq (s : gset string) (c : string) :
  add_lines s c = s ∪ list_to_set (strip LF <$> readlines c).
Proof.
  unfold add_lines. generalize (readlines c). intros l. revert s.
  induction l as [|x l IH]; intros s; simpl.
  - by rewrite (right_id_L ∅ (∪)).
  - rewrite IH. by rewrite (assoc_L (∪)).
Qed.

(** *** Resolving the arguments *)

Lemma resolve_each_eq (verb cwd : string) (names acc : list string) (w : world) :
  ∃ lg, resolve_each verb cwd names acc w =
        (Ok (acc ++ resolved_names (files w) cwd names), World (files w) lg (printed w)).
Proof.
  revert acc w. induction names as [|n names IH]; intros acc w.
  - exists (logged w). cbn. by rewrite app_nil_r.
  - cbn [resolve_each]. rewrite bind_eq. unfold convertToPath at 1. cbv zeta.
    rewrite bind_eq, path_exists_eq. cbv beta iota.
    unfold resolved_names. cbn [omap list_omap]. cbv zeta.
    fold (resolved_names (files w) cwd names).
    destruct (exists_ (files w) (PosixPath.abspath cwd n)); unfold ret at 1; cbv beta iota.
    + rewrite bind_eq, log_eq. cbv beta iota.
      edestruct IH as [lg ->]. exists lg. cbn [files printed].
      by rewrite <- (assoc_L (++)).
    + rewrite bind_eq, log_eq. cbv beta iota.
      edestruct IH as [lg ->]. by exists lg.
Qed.

Lemma getAllChildFiles_loop_eq (fs : gmap string node) (recurse : string → M (list string))
    (f : string → list string) (d : string) :
  (∀ item w, files w = fs →
     ∃ lg, recurse item w = (Ok (f item), World fs lg (printed w))) →
  ∀ names acc w, files w = fs →
    ∃ lg, getAllChildFiles_loop fs recurse d names acc w =
          (Ok (acc ++ (names ≫= λ name,
                  let item := PosixPath.join d name in
                  if isfile fs item then [item]
                  else if isdir fs item
                          && negb (bool_decide (item = PosixPath.join d ".easygit"))
                  then f item else [])),
           World fs lg (printed w)).
Proof.
  intros Hrec. induction names as [|name names IH]; intros acc w Hw.
  - exists (logged w). cbn. rewrite app_nil_r. by rewrite <- Hw.
  - cbn [getAllChildFiles_loop]. cbv zeta. rewrite bind_cons. cbv zeta.
    destruct (isfile fs (PosixPath.join d name)).
    + rewrite bind_eq, log_eq. cbv beta iota.
      edestruct (IH (acc ++ [PosixPath.join d name])) as [lg ->]; [by cbn|].
      exists lg. cbn [printed]. by rewrite <- (assoc_L (++)).
    + destruct (isdir fs _ && negb _).
      * rewrite bind_eq. destruct (Hrec (PosixPath.join d name) w Hw) as [lg1 ->].
        cbv beta iota.
        edestruct (IH (acc ++ f (PosixPath.join d name))) as [lg ->]; [by cbn|].
        exists lg. cbn [printed]. by rewrite <- (assoc_L (++)).
      * destruct (IH acc w Hw) as [lg ->]. by exists lg.
Qed.

Lemma getAllChildFiles_go_eq (n : nat) (d : string) (w : world) :
  ∃ lg, getAllChildFiles_go n d w = (Ok (walk n (files w) d), World (files w) lg (printed w)).
Proof.
  revert d w. induction n as [|k IH]; intros d w.
  - cbn [getAllChildFiles_go]. rewrite bind_eq. cbn [get_files]. cbv beta iota.
    edestruct (getAllChildFiles_loop_eq (files w) (λ _, ret []) (λ _, []) d) as [lg ->];
      [|reflexivity|by exists lg].
    intros item w' Hw'. exists (logged w'). unfold ret. by rewrite <- Hw'.
  - cbn [getAllChildFiles_go]. rewrite bind_eq. cbn [get_files]. cbv beta iota.
    edestruct (getAllChildFiles_loop_eq (files w) (getAllChildFiles_go k)
                 (walk k (files w)) d) as [lg ->]; [|reflexivity|by exists lg].
    intros item w' Hw'. destruct (IH item w') as [lg ->]. exists lg. by rewrite Hw'.
Qed.

Lemma get_paths_eq (verb : string) (self : easyGit) (targets : list string) (w : world) :
  ∃ lg, get_paths verb self targets w =
        (Ok (paths_of self (files w) targets), World (files w) lg (printed w)).
Proof.
  unfold get_paths, paths_of. destruct (bool_decide ("." ∈ targets)).
  - unfold getAllChildFiles. rewrite bind_eq. cbn [get_files]. cbv beta iota.
    apply getAllChildFiles_go_eq.
  - destruct (resolve_each_eq verb (currentPath self) targets [] w) as [lg ->].
    by exists lg.
Qed.

(** The resolved paths exist. *)
Lemma walk_exists (n : nat) (fs : gmap string node) (d p : string) :
  p ∈ walk n fs d → is_Some (fs !! p).
Proof.
  revert d. induction n as [|k IH]; intros d; cbn [walk];
    intros (name & Hp & _)%list_elem_of_bind; cbv zeta in Hp.
  - unfold isfile in Hp. destruct (fs !! PosixPath.join d name) as [[c| |?]|] eqn:E.
    + apply list_elem_of_singleton in Hp as ->. by rewrite E.
    + destruct (isdir fs _ && negb _); by apply elem_of_nil in Hp.
    + apply list_elem_of_singleton in Hp as ->. by rewrite E.
    + destruct (isdir fs _ && negb _); by apply elem_of_nil in Hp.
  - unfold isfile in Hp. destruct (fs !! PosixPath.join d name) as [[c| |?]|] eqn:E.
    + apply list_elem_of_singleton in Hp as ->. by rewrite E.
    + destruct (isdir fs _ && negb _); [by eapply IH|by apply elem_of_nil in Hp].
    + apply list_elem_of_singleton in Hp as ->. by rewrite E.
    + destruct (isdir fs _ && negb _); [by eapply IH|by apply elem_of_nil in Hp].
Qed.

Lemma resolved_names_exists (fs : gmap string node) (cwd : string) (names : list string)
    (p : string) :
  p ∈ resolved_names fs cwd names → is_Some (fs !! p).
Proof.
  unfold resolved_names. intros (n & _ & Hn)%list_elem_of_omap. cbv zeta in Hn.
  destruct (exists_ fs (PosixPath.abspath cwd n)) eqn:E; [|done].
  injection Hn as <-. unfold exists_ in E. by apply bool_decide_eq_true in E.
Qed.

Lemma paths_of_exists (self : easyGit) (fs : gmap string node) (targets : list string)
    (p : string) :
  p ∈ paths_of self fs targets → is_Some (fs !! p).
Proof.
  unfold paths_of. destruct (bool_decide ("." ∈ targets)).
  - apply walk_exists.
  - apply resolved_names_exists.
Qed.

(** *** More files, more resolved paths *)

Lemma isfile_mono (fs fs' : gmap string node) (p : string) :
  fs ⊆ fs' → isfile fs p = true → isfile fs' p = true.
Proof.
  intros Hsub. unfold isfile. destruct (fs !! p) as [[c| |b]|] eqn:E; [|done| |done];
    intros _; by rewrite (lookup_weaken _ _ _ _ E Hsub).
Qed.

Lemma isdir_mono (fs fs' : gmap string node) (p : string) :
  fs ⊆ fs' → isdir fs p = true → isdir fs' p = true.
Proof.
  intros Hsub. unfold isdir. intros E%bool_decide_eq_true.
  apply bool_decide_eq_true_2. by apply (lookup_weaken _ _ _ _ E Hsub).
Qed.

Lemma isdir_not_isfile (fs : gmap string node) (p : string) :
  isdir fs p = true → isfile fs p = false.
Proof. unfold isdir, isfile. intros E%bool_decide_eq_true. by rewrite E. Qed.

Lemma listdir_mono (fs fs' : gmap string node) (d name : string) :
  fs ⊆ fs' → name ∈ listdir fs d → name ∈ listdir fs' d.
Proof.
  intros Hsub. unfold listdir. rewrite !list_elem_of_omap.
  intros (p & Hp & Hn). exists p. split; [|done].
  apply elem_of_elements. apply elem_of_elements in Hp.
  apply elem_of_dom. apply elem_of_dom in Hp as [x Hx].
  exists x. by apply (lookup_weaken _ _ _ _ Hx Hsub).
Qed.

Lemma walk_mono (fs fs' : gmap string node) :
  fs ⊆ fs' → ∀ n m d p, (n ≤ m)%nat → p ∈ walk n fs d → p ∈ walk m fs' d.
Proof.
  intros Hsub. induction n as [|k IH]; intros m d p Hnm; cbn [walk];
    intros (name & Hp & Hname)%list_elem_of_bind; cbv zeta in Hp.
  - destruct (isfile fs (PosixPath.join d name)) eqn:Ef.
    + destruct m; cbn [walk]; apply list_elem_of_bind; exists name;
        (split; [|by eapply listdir_mono]); cbv zeta;
        by rewrite (isfile_mono _ _ _ Hsub Ef).
    + destruct (isdir fs _ && negb _); by apply elem_of_nil in Hp.
  - destruct (isfile fs (PosixPath.join d name)) eqn:Ef.
    + destruct m; cbn [walk]; apply list_elem_of_bind; exists name;
        (split; [|by eapply listdir_mono]); cbv zeta;
        by rewrite (isfile_mono _ _ _ Hsub Ef).
    + destruct (isdir fs _ && negb _) eqn:Ed; [|by apply elem_of_nil in Hp].
      apply andb_true_iff in Ed as [Ed1 Ed2].
      destruct m as [|m']; [lia|]. cbn [walk]. apply list_elem_of_bind. exists name.
      split; [|by eapply listdir_mono]. cbv zeta.
      rewrite (isdir_not_isfile _ _ (isdir_mono _ _ _ Hsub Ed1)).
      rewrite (isdir_mono _ _ _ Hsub Ed1), Ed2. cbn [andb].
      apply IH; [lia|done].
Qed.

Lemma longest_ge (fs : gmap string node) (p : string) :
  is_Some (fs !! p) → (String.length p ≤ longest fs)%nat.
Proof.
  intros Hp%elem_of_dom%elem_of_elements. unfold longest.
  induction (elements (dom fs)) as [|q l IH]; [by apply elem_of_nil in Hp|].
  cbn [foldr]. apply elem_of_cons in Hp as [->|Hp]; [lia|].
  specialize (IH Hp). lia.
Qed.





(** *** Writing and reading the staging file *)

(** The writing loop of [add]: the kept paths, one per line, after what the
    file holds. *)
Lemma write_staged_loop (p : string) (l : list string) :
  ∀ (c : string) (w : world),
    files w !! p = Some (File c) →
    for_each l (write_staged p) w =
      (Ok (), with_files w
                (<[p := File (c +:+ entries (filter (λ f, contains ".easygit" f = false) l))]>
                   (files w))).
Proof.
  induction l as [|f l IH]; intros c w Hc.
  - cbn. rewrite str_app_nil_r. unfold with_files. by rewrite insert_id.
  - cbn [for_each]. rewrite bind_eq. unfold write_staged at 1.
    rewrite filter_cons. destruct (contains ".easygit" f) eqn:E.
    + rewrite decide_False by done. unfold ret at 1. cbv beta iota. by apply IH.
    + rewrite decide_True by done. rewrite write_eq, Hc. cbv beta iota.
      rewrite (IH (c +:+ f +:+ nl)); [|cbn; apply lookup_insert_eq].
      unfold with_files. cbn [files logged printed].
      rewrite insert_insert_eq. cbn [entries]. unfold nl.
      by rewrite !str_app_assoc.
Qed.

(** The writing loop of [remove]. *)
Lemma write_lines_loop (p : string) (l : list string) :
  ∀ (c : string) (w : world),
    files w !! p = Some (File c) →
    for_each l (λ f, write p (f +:+ nl)) w =
      (Ok (), with_files w (<[p := File (c +:+ entries l)]> (files w))).
Proof.
  induction l as [|f l IH]; intros c w Hc.
  - cbn. rewrite str_app_nil_r. unfold with_files. by rewrite insert_id.
  - cbn [for_each]. rewrite bind_eq. rewrite write_eq, Hc. cbv beta iota.
    rewrite (IH (c +:+ f +:+ nl)); [|cbn; apply lookup_insert_eq].
    unfold with_files. cbn [files logged printed].
    rewrite insert_insert_eq. cbn [entries]. unfold nl.
    by rewrite !str_app_assoc.
Qed.

(** Reading back what the loops wrote. *)
Lemma read_entries (l : list string) :
  Forall (λ f, has_char LF f = false ∧ has_char CR f = false) l →
  strip LF <$> readlines (universal_newlines (entries l)) = l.
Proof.
  intros H. rewrite universal_newlines_id.
  - apply readlines_entries. eapply Forall_impl; [exact H|]. by intros f [? ?].
  - apply has_char_entries; [done|]. eapply Forall_impl; [exact H|]. by intros f [? ?].
Qed.

(** The lines of any text file have no line break in them. *)
Lemma lines_single (c : string) :
  Forall (λ f, has_char LF f = false ∧ has_char CR f = false)
         (strip LF <$> readlines (universal_newlines c)).
Proof.
  apply Forall_fmap. pose proof (readlines_shape (universal_newlines c)) as Hs.
  pose proof (readlines_chars CR _ (universal_newlines_no_CR c)) as Hc.
  induction Hs as [|l ls Hl Hls IH]; [constructor|].
  apply Forall_cons in Hc as [Hcl Hcls]. constructor; [|by apply IH].
  split; [by apply strip_is_line|by apply has_char_strip].
Qed.

Lemma staged_of_lines (self : easyGit) (fs : gmap string node) :
  staged self fs = list_to_set <$> staged_lines self fs.
Proof.
  unfold staged, staged_lines. destruct (fs !! stagingFilePath self) as [[c| |?]|]; [|done..].
  cbn. f_equal. rewrite add_lines_eq. by rewrite (left_id_L ∅ (∪)).
Qed.

Lemma list_to_set_filter_elements (P : string → Prop) `{!∀ x, Decision (P x)}
    (X : gset string) :
  list_to_set (filter P (elements X)) = filter P X.
Proof.
  apply set_eq. intros x.
  rewrite elem_of_list_to_set, list_elem_of_filter, elem_of_elements, elem_of_filter.
  done.
Qed.

(** *** [add] and [remove] as functions of the files *)

Lemma merged_eq (self : easyGit) (fs : gmap string node) (targets : list string) (c : string) :
  fs !! stagingFilePath self = Some (File c) →
  add_lines (list_to_set (paths_of self fs targets)) (universal_newlines c)
  = merged self fs targets.
Proof.
  intros H. unfold merged, staged. rewrite H. cbn [default].
  rewrite !add_lines_eq. by rewrite (left_id_L ∅ (∪)).
Qed.

Lemma merged_absent (self : easyGit) (fs : gmap string node) (targets : list string) :
  fs !! stagingFilePath self = None →
  list_to_set (paths_of self fs targets) = merged self fs targets.
Proof.
  intros H. unfold merged, staged. rewrite H. cbn [default].
  by rewrite (right_id_L ∅ (∪)).
Qed.

Lemma add_eq (self : easyGit) (targets : list string) (w : world) :
  files w !! PosixPath.dirname (stagingFilePath self) = Some Dir →
  files w !! stagingFilePath self ≠ Some Dir →
  (∀ b, files w !! stagingFilePath self ≠ Some (Binary b)) →
  ∃ lg, add self targets w =
    (Ok (), World (<[stagingFilePath self :=
                      File (entries (filter (λ f, contains ".easygit" f = false)
                                            (elements (merged self (files w) targets))))]>
                     (files w)) lg (printed w)).
Proof.
  intros Hdir Hnd Hnb. unfold add.
  rewrite bind_eq, log_eq. cbv beta iota.
  rewrite bind_eq. edestruct get_paths_eq as [lg ->]. cbv beta iota zeta.
  cbn [files]. set (w1 := World (files w) lg (printed w)).
  rewrite bind_eq, path_exists_eq. cbv beta iota. cbn [files w1].
  assert (Hopen : ∀ w2, files w2 = files w →
            open_w (stagingFilePath self) w2
            = (Ok (), with_files w2 (<[stagingFilePath self := File ""]> (files w)))).
  { intros w2 Hw2. rewrite open_w_eq, Hw2, Hdir.
    by destruct (files w !! stagingFilePath self) as [[c| |?]|]. }
  destruct (files w !! stagingFilePath self) as [[c| |b]|] eqn:E;
    [|done|by destruct (Hnb b)|].
  - rewrite (exists_Some _ _ _ E). rewrite bind_eq, bind_eq.
    rewrite read_eq. cbn [files w1]. rewrite E. cbv beta iota.
    unfold ret at 1. cbv beta iota.
    rewrite (merged_eq _ _ _ _ E).
    rewrite bind_eq, Hopen by done. cbv beta iota.
    rewrite (write_staged_loop _ _ ""); [|cbn; apply lookup_insert_eq].
    exists lg. unfold with_files. cbn [files logged printed w1].
    by rewrite insert_insert_eq, str_app_nil_l.
  - rewrite (exists_None _ _ E). rewrite bind_eq. unfold ret at 1. cbv beta iota.
    rewrite (merged_absent _ _ _ E).
    rewrite bind_eq, Hopen by done. cbv beta iota.
    rewrite (write_staged_loop _ _ ""); [|cbn; apply lookup_insert_eq].
    exists lg. unfold with_files. cbn [files logged printed w1].
    by rewrite insert_insert_eq, str_app_nil_l.
Qed.

(** A staging file that is not text: [add] raises when it reads it, before
    it writes. *)
Lemma add_binary (self : easyGit) (targets : list string) (w : world) (b : string) :
  files w !! stagingFilePath self = Some (Binary b) →
  ∃ lg, add self targets w = (Raise UnicodeDecodeError, World (files w) lg (printed w)).
Proof.
  intros E. unfold add.
  rewrite bind_eq, log_eq. cbv beta iota.
  rewrite bind_eq. edestruct get_paths_eq as [lg ->]. cbv beta iota zeta.
  cbn [files]. rewrite bind_eq, path_exists_eq. cbv beta iota. cbn [files].
  rewrite (exists_Some _ _ _ E). rewrite bind_eq, bind_eq.
  rewrite read_eq. cbn [files]. rewrite E. cbv beta iota.
  by exists lg.
Qed.

(** What [add] persists, read back. *)
Lemma staged_lines_written (self : easyGit) (fs : gmap string node) (l : list string) :
  Forall (λ f, has_char LF f = false ∧ has_char CR f = false) l →
  staged_lines self (<[stagingFilePath self := File (entries l)]> fs) = Some l.
Proof.
  intros H. unfold staged_lines. rewrite lookup_insert_eq. by rewrite read_entries.
Qed.

Lemma merged_single (self : easyGit) (fs : gmap string node) (targets : list string) :
  Forall (λ f, has_char LF f = false ∧ has_char CR f = false) (paths_of self fs targets) →
  Forall (λ f, has_char LF f = false ∧ has_char CR f = false)
         (elements (merged self fs targets)).
Proof.
  intros H. apply Forall_forall. intros x Hx%elem_of_elements.
  unfold merged in Hx. apply elem_of_union in Hx as [Hx|Hx].
  - apply elem_of_list_to_set in Hx. by eapply Forall_forall in H.
  - unfold staged in Hx. destruct (fs !! stagingFilePath self) as [[c| |?]|];
      cbn [default] in Hx; [|by apply elem_of_empty in Hx..].
    rewrite add_lines_eq, (left_id_L ∅ (∪)) in Hx. apply elem_of_list_to_set in Hx.
    pose proof (lines_single c) as Hl. by eapply Forall_forall in Hl.
Qed.

Lemma remove_each_eq (l : list string) :
  ∀ (S : gset string) (w : world),
    ∃ lg, remove_each l S w = (Ok (S ∖ list_to_set l), World (files w) lg (printed w)).
Proof.
  induction l as [|f l IH]; intros S w.
  - exists (logged w). cbn. by rewrite difference_empty_L.
  - cbn [remove_each]. destruct (bool_decide (f ∈ S)) eqn:E.
    + destruct (IH (S ∖ {[f]}) w) as [lg ->]. exists lg. do 2 f_equal.
      cbn [list_to_set foldr]. apply set_eq. intros x.
      rewrite !elem_of_difference, elem_of_union. tauto.
    + apply bool_decide_eq_false in E.
      rewrite bind_eq, log_eq. cbv beta iota.
      edestruct IH as [lg ->]. exists lg. cbn [files printed]. do 2 f_equal.
      cbn [list_to_set foldr]. apply set_eq. intros x.
      rewrite !elem_of_difference, elem_of_union, elem_of_singleton.
      split; [|tauto]. intros [Hx Hl]. split; [done|]. intros [->|?]; tauto.
Qed.

(** The set [remove] is left with. *)
Lemma remove_staged_eq (self : easyGit) (targets : list string) (w : world) (c : string) :
  files w !! stagingFilePath self = Some (File c) →
  let left := add_lines ∅ (universal_newlines c)
              ∖ list_to_set (paths_of self (files w) targets) in
  (size left = O →
   ∃ lg, remove self targets w
         = (Ok (), World (delete (stagingFilePath self) (files w)) lg (printed w)))
  ∧ (size left ≠ O →
     files w !! PosixPath.dirname (stagingFilePath self) = Some Dir →
     ∃ lg, remove self targets w
           = (Ok (), World (<[stagingFilePath self := File (entries (elements left))]> (files w))
                       lg (printed w))).
Proof.
  intros Hc left.
  assert (Hrun : ∃ lg, remove self targets w =
            (if bool_decide (size left ≠ O) then
               open_w (stagingFilePath self) ;;
               for_each (elements left) (λ f, write (stagingFilePath self) (f +:+ nl))
             else FS.remove (stagingFilePath self)) (World (files w) lg (printed w))).
  { unfold remove. rewrite bind_eq, log_eq. cbv beta iota zeta.
    rewrite bind_eq, path_exists_eq. cbv beta iota. cbn [files].
    rewrite (exists_Some _ _ _ Hc). cbn [negb].
    rewrite bind_eq. edestruct get_paths_eq as [lg1 ->]. cbv beta iota. cbn [files printed].
    rewrite bind_eq, read_eq. cbn [files]. rewrite Hc. cbv beta iota.
    rewrite bind_eq. edestruct remove_each_eq as [lg2 ->]. cbv beta iota.
    cbn [files printed]. by exists lg2. }
  destruct Hrun as [lg ->]. split.
  - intros Hz. rewrite bool_decide_eq_false_2 by (intros ?; done).
    rewrite OSFacts.remove_eq. cbn [files]. rewrite Hc. by exists lg.
  - intros Hnz Hdir. rewrite bool_decide_eq_true_2 by done.
    rewrite bind_eq, open_w_eq. cbn [files]. rewrite Hc, Hdir. cbv beta iota.
    rewrite (write_lines_loop _ _ ""); [|cbn; apply lookup_insert_eq].
    exists lg. unfold with_files. cbn [files logged printed].
    by rewrite insert_insert_eq, str_app_nil_l.
Qed.

(** *** The metadata directory *)

Lemma repoPath_at (root cwd : string) :
  repoPath (easyGit_at root cwd) = (root +:+ sep_of root) +:+ ".easygit".
Proof. cbn [repoPath easyGit_at]. rewrite join_relative by done. by rewrite str_app_assoc. Qed.

Lemma under_repo_contains (root cwd p : string) :
  under (repoPath (easyGit_at root cwd)) p = true → contains ".easygit" p = true.
Proof.
  unfold under. rewrite repoPath_at. intros [H|H]%orb_true_iff.
  - apply bool_decide_eq_true in H as ->.
    rewrite <- (str_app_nil_r ".easygit"). apply contains_app.
  - eapply startswith_contains; [|exact H].
    rewrite str_app_assoc. apply contains_app.
Qed.

Lemma filter_single (l : list string) :
  Forall single_line l → Forall single_line (filter (λ f, contains ".easygit" f = false) l).
Proof.
  intros H. apply Forall_forall. intros x [_ Hx]%list_elem_of_filter.
  by eapply Forall_forall in H.
Qed.


End StagingFacts.

(** ** The depth bound of [getAllChildFiles] *)

Module WalkFacts.
Import PyStr OS FS EasyGit Spec.
Import PyStrFacts PathFacts OSFacts StagingFacts.
Import PosixPath.

Lemma rsplit_tail_no_slash (p : string) : has_char slash (snd (rsplit p)) = false.
Proof.
  induction p as [|a p IH]; [done|]. cbn [rsplit].
  destruct (rsplit p) as [h t]. cbn [snd] in IH.
  destruct h as [|b h]; [|done].
  destruct (bool_decide (a = slash)) eqn:E; [done|].
  cbn [snd has_char]. by rewrite E, IH.
Qed.

Lemma basename_no_slash (p : string) : has_char slash (basename p) = false.
Proof.
  unfold basename, split. pose proof (rsplit_tail_no_slash p) as H.
  destruct (rsplit p) as [h t]. cbn [snd] in H.
  by destruct (negb (bool_decide (h = "")) && negb (all_slashes h)).
Qed.

(** An entry of a directory is longer than the directory. *)
Lemma listdir_longer (fs : gmap string node) (d name : string) :
  name ∈ listdir fs d → (String.length d < String.length (join d name))%nat.
Proof.
  unfold listdir. intros (p & _ & Hp)%list_elem_of_omap.
  destruct (bool_decide (dirname p = d) && negb (bool_decide (basename p = ""))) eqn:E;
    [|done].
  injection Hp as <-. apply andb_true_iff in E as [_ E].
  apply negb_true_iff, bool_decide_eq_false in E.
  apply length_join; [done|]. apply has_char_startswith, basename_no_slash.
Qed.

(** The bound on the depth is never reached: one more level changes
    nothing. *)
Lemma walk_fuel (fs : gmap string node) :
  ∀ n d, (longest fs < String.length d + n)%nat → walk (S n) fs d = walk n fs d.
Proof.
  induction n as [|k IH]; intros d Hd.
  - cbn [walk]. apply Forall_bind_ext, Forall_forall. intros name Hname. cbv zeta.
    destruct (isfile fs (join d name)); [done|].
    destruct (isdir fs (join d name) && _) eqn:E; [|done].
    apply andb_true_iff in E as [E _]. unfold isdir in E. apply bool_decide_eq_true in E.
    pose proof (longest_ge fs (join d name) (mk_is_Some _ _ E)).
    pose proof (listdir_longer fs d name Hname). lia.
  - change (walk (S (S k)) fs d) with
      (listdir fs d ≫= (λ name,
         let item := join d name in
         if isfile fs item then [item]
         else if isdir fs item && negb (bool_decide (item = join d ".easygit"))
         then walk (S k) fs item else [])).
    change (walk (S k) fs d) with
      (listdir fs d ≫= (λ name,
         let item := join d name in
         if isfile fs item then [item]
         else if isdir fs item && negb (bool_decide (item = join d ".easygit"))
         then walk k fs item else [])).
    apply Forall_bind_ext, Forall_forall. intros name Hname. cbv zeta.
    destruct (isfile fs (join d name)); [done|].
    destruct (isdir fs (join d name) && _); [|done].
    apply IH. pose proof (listdir_longer fs d name Hname). lia.
Qed.

(** So [getAllChildFiles] returns what any deeper bound would. *)
Lemma walk_enough (fs : gmap string node) (d : string) (k : nat) :
  walk (S (longest fs) + k) fs d = walk (S (longest fs)) fs d.
Proof.
  induction k as [|k IH]; [by rewrite Nat.add_0_r|].
  rewrite Nat.add_succ_r, <- IH. apply walk_fuel. lia.
Qed.

End WalkFacts.

(** ** The layout of the repository *)

Module LayoutFacts.
Import PyStr OS FS EasyGit Spec.
Import PyStrFacts Sha1Facts PathFacts OSFacts StagingFacts.

Lemma SHA1_is_name (s : string) : is_name (SHA1 s).
Proof. split; [apply SHA1_nonempty|by apply SHA1_has_char]. Qed.

Lemma is_name_relative (d : string) : is_name d → startswith PosixPath.sep d = false.
Proof. intros [_ H]. by apply has_char_startswith. Qed.

Section layout.
Variables root cwd : string.
Local Abbreviation self := (easyGit_at root cwd).
Local Abbreviation R := (repoPath self).

Lemma R_eq : R = (root +:+ sep_of root) +:+ ".easygit".
Proof. apply repoPath_at. Qed.

Lemma join_R (b : string) :
  startswith PosixPath.sep b = false → PosixPath.join R b = R +:+ "/" +:+ b.
Proof. intros Hb. rewrite R_eq. rewrite join_name by done. by rewrite !str_app_assoc. Qed.

Lemma stagingFilePath_at : stagingFilePath self = R +:+ "/stagingCache".
Proof. unfold stagingFilePath. by rewrite (join_R "stagingCache"). Qed.

Lemma commitFolderPath_at : commitFolderPath self = (R +:+ "/") +:+ "commit".
Proof.
  change (commitFolderPath self) with (PosixPath.join R "commit").
  rewrite join_R by done. by rewrite str_app_assoc.
Qed.

Lemma changeFolderPath_at : changeFolderPath self = (R +:+ "/") +:+ "changes".
Proof.
  change (changeFolderPath self) with (PosixPath.join R "changes").
  rewrite join_R by done. by rewrite str_app_assoc.
Qed.

Lemma headFile_at : headFile self = R +:+ "/commit/HEAD".
Proof.
  change (headFile self) with (PosixPath.join (PosixPath.join R "commit") "HEAD").
  rewrite (join_R "commit") by done.
  rewrite <- (str_app_assoc R "/" "commit").
  rewrite join_name by done. by rewrite !str_app_assoc.
Qed.

Lemma record_path_at (d : string) :
  startswith PosixPath.sep d = false → record_path self d = R +:+ "/commit/" +:+ d.
Proof.
  intros Hd. unfold record_path. rewrite commitFolderPath_at.
  rewrite join_name by done. by rewrite !str_app_assoc.
Qed.

Lemma blob_dir_at (d : string) :
  startswith PosixPath.sep d = false → blob_dir self d = R +:+ "/changes/" +:+ d.
Proof.
  intros Hd. unfold blob_dir. rewrite changeFolderPath_at.
  rewrite join_name by done. by rewrite !str_app_assoc.
Qed.

Lemma blob_path_at (d x : string) :
  is_name d → startswith PosixPath.sep x = false →
  blob_path self d x = R +:+ "/changes/" +:+ d +:+ "/" +:+ x.
Proof.
  intros [Hd1 Hd2] Hx. unfold blob_path. rewrite changeFolderPath_at.
  rewrite (join_name _ "changes") by (done || by apply has_char_startswith).
  rewrite <- !str_app_assoc. rewrite join_name by done.
  by rewrite !str_app_assoc.
Qed.

(** Everything under the repository has [".easygit"] in its path. *)
Lemma contains_R (s : string) : contains ".easygit" (R +:+ s) = true.
Proof. rewrite R_eq, str_app_assoc. apply contains_app. Qed.

End layout.

(** Two paths with the same front differ when their ends differ. *)
Ltac same_front H :=
  apply String.app_inj in H; cbv [String.append] in H.

Section distinct.
Variables root cwd : string.
Local Abbreviation self := (easyGit_at root cwd).

Lemma record_path_inj (d d' : string) :
  is_name d → is_name d' → record_path self d = record_path self d' → d = d'.
Proof.
  intros Hd Hd'. rewrite !record_path_at by (by apply is_name_relative).
  intros H. by do 2 apply String.app_inj in H.
Qed.

Lemma blob_dir_inj (d d' : string) :
  is_name d → is_name d' → blob_dir self d = blob_dir self d' → d = d'.
Proof.
  intros Hd Hd'. rewrite !blob_dir_at by (by apply is_name_relative).
  intros H. by do 2 apply String.app_inj in H.
Qed.

Lemma blob_path_inj (d x x' : string) :
  is_name d → is_name x → is_name x' →
  blob_path self d x = blob_path self d x' → x = x'.
Proof.
  intros Hd Hx Hx'. rewrite !blob_path_at by (done || by apply is_name_relative).
  intros H. by do 4 apply String.app_inj in H.
Qed.

Lemma record_not_head (d : string) :
  is_name d → d ≠ "HEAD" → record_path self d ≠ headFile self.
Proof.
  intros Hd Hne. rewrite record_path_at, headFile_at by (by apply is_name_relative).
  intros H. apply String.app_inj in H.
  change "/commit/HEAD" with ("/commit/" +:+ "HEAD") in H.
  by apply String.app_inj in H.
Qed.

Lemma record_not_blob_dir (d d' : string) :
  is_name d → is_name d' → record_path self d ≠ blob_dir self d'.
Proof.
  intros Hd Hd'. rewrite record_path_at, blob_dir_at by (by apply is_name_relative).
  intros H. same_front H. discriminate.
Qed.

Lemma record_not_blob (d d' x : string) :
  is_name d → is_name d' → is_name x → record_path self d ≠ blob_path self d' x.
Proof.
  intros Hd Hd' Hx.
  rewrite record_path_at, blob_path_at by (done || by apply is_name_relative).
  intros H. same_front H. discriminate.
Qed.

Lemma head_not_blob_dir (d : string) : is_name d → headFile self ≠ blob_dir self d.
Proof.
  intros Hd. rewrite headFile_at, blob_dir_at by (by apply is_name_relative).
  intros H. same_front H. discriminate.
Qed.

Lemma head_not_blob (d x : string) :
  is_name d → is_name x → headFile self ≠ blob_path self d x.
Proof.
  intros Hd Hx. rewrite headFile_at, blob_path_at by (done || by apply is_name_relative).
  intros H. same_front H. discriminate.
Qed.

Lemma blob_dir_not_blob (d d' x : string) :
  is_name d → is_name d' → is_name x → blob_dir self d ≠ blob_path self d' x.
Proof.
  intros Hd Hd' Hx.
  rewrite blob_dir_at, blob_path_at by (done || by apply is_name_relative).
  intros H. do 2 apply String.app_inj in H.
  destruct Hd as [_ Hd]. rewrite H in Hd. rewrite !has_char_app in Hd.
  cbn in Hd. by rewrite orb_true_r in Hd.
Qed.

Lemma staging_not_head : stagingFilePath self ≠ headFile self.
Proof. rewrite stagingFilePath_at, headFile_at. intros H. same_front H. discriminate. Qed.

Lemma staging_not_record (d : string) : is_name d → stagingFilePath self ≠ record_path self d.
Proof.
  intros Hd. rewrite stagingFilePath_at, record_path_at by (by apply is_name_relative).
  intros H. same_front H. discriminate.
Qed.

Lemma staging_not_blob_dir (d : string) : is_name d → stagingFilePath self ≠ blob_dir self d.
Proof.
  intros Hd. rewrite stagingFilePath_at, blob_dir_at by (by apply is_name_relative).
  intros H. same_front H. discriminate.
Qed.

Lemma staging_not_blob (d x : string) :
  is_name d → is_name x → stagingFilePath self ≠ blob_path self d x.
Proof.
  intros Hd Hx.
  rewrite stagingFilePath_at, blob_path_at by (done || by apply is_name_relative).
  intros H. same_front H. discriminate.
Qed.

(** A path without [".easygit"] in it is none of the paths [commit] writes. *)
Lemma outside_not_head (f : string) : contains ".easygit" f = false → f ≠ headFile self.
Proof. intros Hf ->. rewrite headFile_at in Hf. by rewrite contains_R in Hf. Qed.

Lemma outside_not_record (f d : string) :
  is_name d → contains ".easygit" f = false → f ≠ record_path self d.
Proof.
  intros Hd Hf ->. rewrite record_path_at in Hf by (by apply is_name_relative).
  by rewrite contains_R in Hf.
Qed.

Lemma outside_not_blob_dir (f d : string) :
  is_name d → contains ".easygit" f = false → f ≠ blob_dir self d.
Proof.
  intros Hd Hf ->. rewrite blob_dir_at in Hf by (by apply is_name_relative).
  by rewrite contains_R in Hf.
Qed.

Lemma outside_not_blob (f d x : string) :
  is_name d → is_name x → contains ".easygit" f = false → f ≠ blob_path self d x.
Proof.
  intros Hd Hx Hf ->.
  rewrite blob_path_at in Hf by (done || by apply is_name_relative).
  by rewrite contains_R in Hf.
Qed.

End distinct.

End LayoutFacts.

(** ** [commit] *)

Module CommitFacts.
Import PyStr OS FS EasyGit Spec.
Import PyStrFacts Sha1Facts PathFacts OSFacts StagingFacts LayoutFacts.

(** The parent field of a record that starts with the header of [commit]. *)
Lemma parent_of_header (h : string) (message : list string) (more : string) :
  has_char CR h = false → has_char LF h = false → has_char ":" h = false →
  last_or "" (split ":" (strip LF (readline
    (universal_newlines (record_header h message +:+ more))))) = h.
Proof.
  intros Hcr Hlf Hcolon. unfold record_header, nl.
  rewrite !str_app_assoc.
  rewrite <- (str_app_assoc "HEAD:" h).
  rewrite universal_newlines_app.
  2:{ rewrite has_char_app, Hcr. reflexivity. }
  change (String LF "" +:+ ?x) with (String LF x).
  rewrite universal_newlines_cons by done.
  unfold readline. rewrite readlines_line.
  2:{ rewrite has_char_app, Hlf. reflexivity. }
  rewrite strip_line.
  2:{ rewrite has_char_app, Hlf. reflexivity. }
  by rewrite split_HEAD.
Qed.

Ltac raised := cbv beta iota; intros ?; discriminate.

(** [open(p, "w")] and one [write]. *)
Lemma create_inv {A} (p s : string) (k : M A) (w w' : world) (a : A) :
  (open_w p ;; write p s ;; k) w = (Ok a, w') →
  k (with_files w (<[p := File s]> (files w))) = (Ok a, w').
Proof.
  rewrite bind_eq, open_w_eq.
  assert (Hgo : (write p s ;; k) (with_files w (<[p := File ""]> (files w))) = (Ok a, w') →
                k (with_files w (<[p := File s]> (files w))) = (Ok a, w')).
  { rewrite bind_eq, write_eq. cbn [files with_files]. rewrite lookup_insert_eq.
    cbv beta iota. unfold with_files. cbn [files logged printed].
    by rewrite insert_insert_eq, str_app_nil_l. }
  destruct (files w !! p) as [[c| |?]|];
    destruct (files w !! PosixPath.dirname p) as [[cd| |?]|]; try raised; exact Hgo.
Qed.

(** One turn of the loop of [commit]. *)
Lemma commit_file_inv (self : easyGit) (d rec f : string) (w w' : world) :
  (∃ c, files w !! rec = Some (File c)) →
  commit_file self d rec f w = (Ok (), w') →
  ∃ cf c,
    files w !! f = Some (File cf)
    ∧ <[blob_path self d (SHA1 (f +:+ universal_newlines cf)) :=
          File (universal_newlines cf)]> (files w) !! rec = Some (File c)
    ∧ w' = with_files w
             (<[rec := File (c +:+ (f +:+ ":::" +:+ SHA1 (f +:+ universal_newlines cf) +:+ nl))]>
                (<[blob_path self d (SHA1 (f +:+ universal_newlines cf)) :=
                     File (universal_newlines cf)]> (files w))).
Proof.
  intros [c0 Hc0]. unfold commit_file. rewrite bind_eq, read_eq.
  destruct (files w !! f) as [[cf| |?]|]; [|raised..].
  cbv beta iota zeta. fold (blob_path self d (SHA1 (f +:+ universal_newlines cf))).
  intros H%create_inv. rewrite write_eq in H. cbn [files with_files] in H.
  assert (Hr : ∃ c, <[blob_path self d (SHA1 (f +:+ universal_newlines cf)) :=
                        File (universal_newlines cf)]> (files w) !! rec = Some (File c)).
  { destruct (decide (blob_path self d (SHA1 (f +:+ universal_newlines cf)) = rec))
      as [->|Hne].
    - rewrite lookup_insert_eq. by eexists.
    - rewrite lookup_insert_ne by done. by eexists. }
  destruct Hr as [c Hr]. rewrite Hr in H.
  injection H as <-. by exists cf, c.
Qed.

(** The loop of [commit] extends the record and writes blobs of the commit,
    nothing else. *)
Lemma commit_loop_frame (self : easyGit) (d rec : string) (l : list string) :
  (∀ x, is_name x → rec ≠ blob_path self d x) →
  ∀ (w w' : world) (c : string),
    for_each l (commit_file self d rec) w = (Ok (), w') →
    files w !! rec = Some (File c) →
    ∃ more, files w' !! rec = Some (File (c +:+ more))
      ∧ ∀ q, q ≠ rec → (∀ x, is_name x → q ≠ blob_path self d x) →
             files w' !! q = files w !! q.
Proof.
  intros Hrec. induction l as [|f l IH]; intros w w' c Hrun Hc.
  - cbn in Hrun. injection Hrun as <-. exists "". by rewrite str_app_nil_r.
  - cbn [for_each] in Hrun. apply bind_inv_ok in Hrun as ([] & w1 & Hf & Hrun).
    apply commit_file_inv in Hf as (cf & c0 & Hcf & Hc0 & ->); [|by exists c].
    rewrite lookup_insert_ne in Hc0 by (intros E; eapply Hrec; [apply SHA1_is_name|done]).
    rewrite Hc in Hc0. injection Hc0 as <-.
    destruct (IH _ _ (c +:+ f +:+ ":::" +:+ SHA1 (f +:+ universal_newlines cf) +:+ nl) Hrun)
      as (more & Hmore & Hframe).
    { cbn. apply lookup_insert_eq. }
    eexists. split.
    + rewrite Hmore. by rewrite str_app_assoc.
    + intros q Hq Hqb. rewrite Hframe by done. cbn.
      rewrite lookup_insert_ne by done.
      rewrite lookup_insert_ne; [done|]. intros E. eapply Hqb; [apply SHA1_is_name|done].
Qed.

(** [commit] on a staging file that exists, up to its loop. *)
Lemma commit_inv (self : easyGit) (message : list string) (now s : string) (w w' : world) :
  files w !! stagingFilePath self = Some (File s) →
  commit self message now w = (Ok (), w') →
  let d := SHA1 (now +:+ stagingFilePath self) in
  ∃ h lg,
    files w !! headFile self = Some (File h)
    ∧ <[headFile self := File d]> (files w) !! blob_dir self d = None
    ∧ for_each (elements (add_lines ∅ (universal_newlines s)))
        (commit_file self d (record_path self d))
        (World (<[record_path self d := File (record_header (universal_newlines h) message)]>
                  (<[blob_dir self d := Dir]> (<[headFile self := File d]> (files w))))
               lg (printed w))
      = (Ok (), w').
Proof.
  intros Hs. unfold commit. rewrite join_chars.
  rewrite bind_eq, log_eq. cbv beta iota zeta.
  rewrite bind_eq, path_exists_eq. cbv beta iota. cbn [files].
  rewrite (exists_Some _ _ _ Hs). cbn [negb].
  rewrite bind_eq, read_eq. cbn [files]. rewrite Hs. cbv beta iota.
  rewrite bind_eq, read_eq. cbn [files].
  destruct (files w !! headFile self) as [[h| |?]|]; [|raised..].
  cbv beta iota.
  intros H%create_inv. unfold with_files in H. cbn [files logged printed] in H.
  rewrite bind_eq, mkdir_eq in H. cbn [files] in H.
  fold (blob_dir self (SHA1 (now +:+ stagingFilePath self))) in H.
  fold (record_path self (SHA1 (now +:+ stagingFilePath self))) in H.
  destruct (_ !! blob_dir self _) as [x|] eqn:Hb; [done|].
  destruct (_ !! PosixPath.dirname _) as [[cd| |?]|]; [done| |done..].
  cbv beta iota in H. unfold with_files in H. cbn [files logged printed] in H.
  rewrite bind_eq, open_w_eq in H. cbn [files] in H.
  set (fs3 := <[blob_dir self _ := Dir]> _) in *.
  set (rec := record_path self _) in *.
  assert (Hopen : ∃ lg, (write rec ("HEAD:" +:+ universal_newlines h +:+ nl) ;;
                         write rec ("Commitment Message:" +:+ nl +:+ "=====" +:+ nl
                                    +:+ PyStr.join nl message +:+ nl +:+ "=====" +:+ nl) ;;
                         for_each (elements (add_lines ∅ (universal_newlines s)))
                           (commit_file self (SHA1 (now +:+ stagingFilePath self)) rec))
                        (World (<[rec := File ""]> fs3) lg (printed w)) = (Ok (), w')).
  { destruct (fs3 !! rec) as [[c| |?]|];
      destruct (fs3 !! PosixPath.dirname rec) as [[cd| |?]|]; try done;
      cbv beta iota in H; unfold with_files in H; cbn [files logged printed] in H;
      by eexists. }
  clear H. destruct Hopen as [lg H].
  rewrite bind_eq, write_eq in H. cbn [files] in H. rewrite lookup_insert_eq in H.
  cbv beta iota in H. unfold with_files in H. cbn [files logged printed] in H.
  rewrite insert_insert_eq in H.
  rewrite bind_eq, write_eq in H. cbn [files] in H. rewrite lookup_insert_eq in H.
  cbv beta iota in H. unfold with_files in H. cbn [files logged printed] in H.
  rewrite insert_insert_eq, str_app_nil_l in H.
  exists h, lg. split; [done|]. split; [done|]. exact H.
Qed.

Section commit_at.
Variables root cwd : string.
Local Abbreviation self := (easyGit_at root cwd).

(** What a commit that returns leaves behind. *)
Lemma commit_post (message : list string) (now s : string) (w w' : world) :
  files w !! stagingFilePath self = Some (File s) →
  commit self message now w = (Ok (), w') →
  let d := SHA1 (now +:+ stagingFilePath self) in
  ∃ h more,
    files w !! headFile self = Some (File h)
    ∧ files w !! blob_dir self d = None
    ∧ files w' !! headFile self = Some (File d)
    ∧ files w' !! blob_dir self d = Some Dir
    ∧ files w' !! record_path self d
      = Some (File (record_header (universal_newlines h) message +:+ more))
    ∧ ∀ q, q ≠ headFile self → q ≠ blob_dir self d → q ≠ record_path self d →
           (∀ x, is_name x → q ≠ blob_path self d x) →
           files w' !! q = files w !! q.
Proof.
  intros Hs Hrun d. pose proof (SHA1_is_name (now +:+ stagingFilePath self)) as Hd.
  fold d in Hd.
  destruct (commit_inv _ _ _ _ _ _ Hs Hrun) as (h & lg & Hh & Hb & Hloop). fold d in Hb, Hloop.
  edestruct (commit_loop_frame self d (record_path self d)) as (more & Hrec & Hframe);
    [|exact Hloop|cbn; apply lookup_insert_eq|].
  { intros x Hx. by apply record_not_blob. }
  cbn [files] in Hframe.
  exists h, more. split; [done|]. split.
  { rewrite lookup_insert_ne in Hb; [done|]. by apply head_not_blob_dir. }
  split.
  { rewrite Hframe.
    - rewrite lookup_insert_ne by (by apply record_not_head, SHA1_not_HEAD).
      rewrite lookup_insert_ne by (apply not_eq_sym; by apply head_not_blob_dir).
      apply lookup_insert_eq.
    - apply not_eq_sym. by apply record_not_head, SHA1_not_HEAD.
    - intros x Hx. by apply head_not_blob. }
  split.
  { rewrite Hframe.
    - rewrite lookup_insert_ne by (by apply record_not_blob_dir).
      apply lookup_insert_eq.
    - apply not_eq_sym. by apply record_not_blob_dir.
    - intros x Hx. by apply blob_dir_not_blob. }
  split; [exact Hrec|].
  intros q Hq1 Hq2 Hq3 Hq4. rewrite Hframe by done.
  by rewrite !lookup_insert_ne.
Qed.

End commit_at.


Lemma same_files_digest (fs fs' : gmap string node) (f : string) :
  fs' !! f = fs !! f →
  text_of fs' f = text_of fs f ∧ content_of fs' f = content_of fs f
  ∧ digest_of fs' f = digest_of fs f ∧ association fs' f = association fs f.
Proof.
  intros H. unfold association, digest_of, content_of, text_of. by rewrite H.
Qed.

Section commit_loop.
Variables root cwd : string.
Local Abbreviation self := (easyGit_at root cwd).

(** The loop of [commit] when no staged path is one that the loop writes:
    every staged file is read as it was, its line goes to the record, and
    its blob holds the text of a staged file with the same digest. *)
Lemma commit_loop_spec (d : string) (l : list string) :
  is_name d →
  ∀ (w w' : world) (c : string),
    for_each l (commit_file self d (record_path self d)) w = (Ok (), w') →
    (∀ f, f ∈ l → f ≠ record_path self d ∧ ∀ x, is_name x → f ≠ blob_path self d x) →
    files w !! record_path self d = Some (File c) →
    (∀ f, f ∈ l → is_Some (text_of (files w) f))
    ∧ files w' !! record_path self d
      = Some (File (c +:+ concat_all (association (files w) <$> l)))
    ∧ (∀ f, f ∈ l →
         ∃ g, g ∈ l ∧ digest_of (files w) g = digest_of (files w) f
              ∧ files w' !! blob_path self d (digest_of (files w) f)
                = Some (File (content_of (files w) g)))
    ∧ (∀ q, q ≠ record_path self d →
            (∀ g, g ∈ l → q ≠ blob_path self d (digest_of (files w) g)) →
            files w' !! q = files w !! q).
Proof.
  intros Hd. induction l as [|f l IH]; intros w w' c Hrun Hout Hc.
  - cbn in Hrun. injection Hrun as <-. cbn. rewrite str_app_nil_r.
    repeat split; [by intros ? ?%elem_of_nil|done|by intros ? ?%elem_of_nil].
  - cbn [for_each] in Hrun. apply bind_inv_ok in Hrun as ([] & w1 & Hf & Hrun).
    apply commit_file_inv in Hf as (cf & c0 & Hcf & Hc0 & ->); [|by exists c].
    assert (Hcontent : content_of (files w) f = universal_newlines cf).
    { unfold content_of, text_of. by rewrite Hcf. }
    assert (Hdigest : SHA1 (f +:+ universal_newlines cf) = digest_of (files w) f).
    { unfold digest_of. by rewrite Hcontent. }
    rewrite Hdigest in Hc0, Hrun. rewrite <- Hcontent in Hc0, Hrun.
    set (blob := blob_path self d (digest_of (files w) f)) in *.
    assert (Hrb : record_path self d ≠ blob).
    { apply record_not_blob; [done..|apply SHA1_is_name]. }
    rewrite lookup_insert_ne in Hc0 by done.
    rewrite Hc in Hc0. injection Hc0 as <-.
    change (f +:+ ":::" +:+ digest_of (files w) f +:+ nl) with (association (files w) f) in Hrun.
    set (fs1 := <[record_path self d := File (c +:+ association (files w) f)]>
                  (<[blob := File (content_of (files w) f)]> (files w))) in *.
    assert (Hsame : ∀ g, g ∈ l → fs1 !! g = files w !! g).
    { intros g Hg. destruct (Hout g) as [Hg1 Hg2]; [by right|].
      unfold fs1. rewrite !lookup_insert_ne; [done|..].
      - intros E. symmetry in E. revert E. apply Hg2, SHA1_is_name.
      - by apply not_eq_sym. }
    destruct (IH (with_files w fs1) w' (c +:+ association (files w) f) Hrun)
      as (Ha & Hb & Hblobs & Hframe).
    { intros g Hg. apply Hout. by right. }
    { cbn. unfold fs1. apply lookup_insert_eq. }
    cbn [files with_files] in Ha, Hb, Hblobs, Hframe.
    assert (Hassoc : association fs1 <$> l = association (files w) <$> l).
    { apply list_fmap_ext. intros i g Hg. apply same_files_digest, Hsame.
      by eapply list_elem_of_lookup_2. }
    split; [|split; [|split]].
    + intros g [->|Hg]%elem_of_cons.
      * unfold text_of. rewrite Hcf. by eexists.
      * destruct (same_files_digest _ _ _ (Hsame g Hg)) as (<- & _). by apply Ha.
    + rewrite Hb, Hassoc. cbn [fmap list_fmap concat_all]. by rewrite str_app_assoc.
    + assert (Hin : ∀ g, g ∈ l →
                ∃ g', g' ∈ f :: l ∧ digest_of (files w) g' = digest_of (files w) g
                      ∧ files w' !! blob_path self d (digest_of (files w) g)
                        = Some (File (content_of (files w) g'))).
      { intros g Hg. destruct (Hblobs g Hg) as (g' & Hg' & Hdg & Hbg).
        destruct (same_files_digest _ _ _ (Hsame g Hg)) as (_ & _ & E1 & _).
        destruct (same_files_digest _ _ _ (Hsame g' Hg')) as (_ & E2 & E3 & _).
        rewrite E1, E3 in Hdg. rewrite E1, E2 in Hbg.
        exists g'. split; [by right|]. by split. }
      intros g [->|Hg]%elem_of_cons; [|by apply Hin].
      destruct (decide (Exists (λ g, digest_of (files w) g = digest_of (files w) f) l))
        as [Hex|Hnex].
      * apply Exists_exists in Hex as (g & Hg & Hdg).
        destruct (Hin g Hg) as (g' & Hg' & Hdg' & Hbg).
        exists g'. split; [done|]. split; [congruence|]. by rewrite <- Hdg.
      * exists f. split; [by left|]. split; [done|].
        rewrite Hframe.
        -- unfold fs1. rewrite lookup_insert_ne by done. apply lookup_insert_eq.
        -- by apply not_eq_sym.
        -- intros g Hg E. apply Hnex. apply Exists_exists. exists g. split; [done|].
           destruct (same_files_digest _ _ _ (Hsame g Hg)) as (_ & _ & E1 & _).
           rewrite E1 in E. symmetry.
           apply (blob_path_inj root cwd d) in E; [done|done|apply SHA1_is_name..].
    + intros q Hq Hqb. rewrite Hframe.
      * unfold fs1. rewrite !lookup_insert_ne; [done|..].
        -- apply not_eq_sym, Hqb. by left.
        -- by apply not_eq_sym.
      * done.
      * intros g Hg. destruct (same_files_digest _ _ _ (Hsame g Hg)) as (_ & _ & -> & _).
        apply Hqb. by right.
Qed.

End commit_loop.


(** The record and the blobs of a commit that returns, when no staged path
    has [".easygit"] in it. *)
Lemma commit_full
    (root cwd : string) (message : list string) (now s : string) (w w' : world) :
  let self := easyGit_at root cwd in
  let d := SHA1 (now +:+ stagingFilePath self) in
  let targetFilePaths := elements (add_lines ∅ (universal_newlines s)) in
  files w !! stagingFilePath self = Some (File s) →
  Forall (λ f, contains ".easygit" f = false) targetFilePaths →
  commit self message now w = (Ok (), w') →
  files w' !! headFile self = Some (File d)
  ∧ files w' !! blob_dir self d = Some Dir
  ∧ (∃ h, files w !! headFile self = Some (File h)
          ∧ files w' !! record_path self d
            = Some (File (record_header (universal_newlines h) message
                          +:+ concat_all ((λ f, f +:+ ":::"
                                                +:+ SHA1 (f +:+ content_of (files w) f)
                                                +:+ nl) <$> targetFilePaths))))
  ∧ Forall (λ f, is_Some (text_of (files w) f)
                 ∧ ∃ g, g ∈ targetFilePaths
                        ∧ SHA1 (g +:+ content_of (files w) g)
                          = SHA1 (f +:+ content_of (files w) f)
                        ∧ files w' !! blob_path self d (SHA1 (f +:+ content_of (files w) f))
                          = Some (File (content_of (files w) g)))
           targetFilePaths.
Proof.
  intros self d l Hs Hout Hrun.
  pose proof (SHA1_is_name (now +:+ stagingFilePath self)) as Hd. fold d in Hd.
  destruct (commit_inv _ _ _ _ _ _ Hs Hrun) as (h & lg & Hh & Hb & Hloop).
  fold d l in Hb, Hloop.
  set (fs6 := <[record_path self d := File (record_header (universal_newlines h) message)]>
                (<[blob_dir self d := Dir]> (<[headFile self := File d]> (files w)))) in *.
  assert (Hsame : ∀ f, f ∈ l → fs6 !! f = files w !! f).
  { intros f Hf. eapply Forall_forall in Hout; [|exact Hf]. unfold fs6.
    rewrite !lookup_insert_ne; [done|..]; apply not_eq_sym.
    - by apply outside_not_head.
    - by apply outside_not_blob_dir.
    - by apply outside_not_record. }
  destruct (commit_loop_spec root cwd d l Hd _ _
              (record_header (universal_newlines h) message) Hloop)
    as (Ha & Hrec & Hblobs & Hframe).
  { intros f Hf. eapply Forall_forall in Hout; [|exact Hf]. split.
    - by apply outside_not_record.
    - intros x Hx. by apply outside_not_blob. }
  { cbn. unfold fs6. apply lookup_insert_eq. }
  cbn [files] in Ha, Hrec, Hblobs, Hframe.
  fold self in Ha, Hrec, Hblobs, Hframe.
  assert (Hblob_ne : ∀ q, (∀ x, is_name x → q ≠ blob_path self d x) →
                          ∀ g, g ∈ l → q ≠ blob_path self d (digest_of fs6 g)).
  { intros q Hq g _. apply Hq, SHA1_is_name. }
  split; [|split; [|split]].
  - rewrite Hframe.
    + unfold fs6. rewrite lookup_insert_ne by (by apply record_not_head, SHA1_not_HEAD).
      rewrite lookup_insert_ne by (apply not_eq_sym; by apply head_not_blob_dir).
      apply lookup_insert_eq.
    + apply not_eq_sym. by apply record_not_head, SHA1_not_HEAD.
    + apply Hblob_ne. intros x Hx. by apply head_not_blob.
  - rewrite Hframe.
    + unfold fs6. rewrite lookup_insert_ne by (by apply record_not_blob_dir).
      apply lookup_insert_eq.
    + apply not_eq_sym. by apply record_not_blob_dir.
    + apply Hblob_ne. intros x Hx. by apply blob_dir_not_blob.
  - exists h. split; [done|]. rewrite Hrec. do 4 f_equal.
    apply list_fmap_ext. intros i f Hf.
    destruct (same_files_digest (files w) fs6 f) as (_ & _ & _ & E);
      [apply Hsame; by eapply list_elem_of_lookup_2|].
    exact E.
  - apply Forall_forall. intros f Hf. split.
    + destruct (same_files_digest _ _ _ (Hsame f Hf)) as (<- & _). by apply Ha.
    + destruct (Hblobs f Hf) as (g & Hg & Hdg & Hbg).
      destruct (same_files_digest _ _ _ (Hsame f Hf)) as (_ & _ & E1 & _).
      destruct (same_files_digest _ _ _ (Hsame g Hg)) as (_ & E2 & E3 & _).
      rewrite E1, E3 in Hdg. rewrite E1, E2 in Hbg.
      exists g. split; [done|]. split; [exact Hdg|exact Hbg].
Qed.


End CommitFacts.

(** ** What a computation may write *)

Module FrameFacts.
Import PyStr OS FS EasyGit Spec Frame.
Import PyStrFacts OSFacts StagingFacts.
Local Open Scope Z_scope.

Lemma touches_ret {A} (P : string → Prop) (a : A) : touches_only P (ret a).
Proof. by intros w q _. Qed.

Lemma touches_raise {A} (P : string → Prop) (e : exn) : touches_only P (raise (A:=A) e).
Proof. by intros w q _. Qed.

Lemma touches_log (P : string → Prop) (l : level) (msg : string) : touches_only P (log l msg).
Proof. by intros w q _. Qed.

Lemma touches_print (P : string → Prop) (v : list string) : touches_only P (print v).
Proof. by intros w q _. Qed.

Lemma touches_bind {A B} (P : string → Prop) (c : M A) (k : A → M B) :
  touches_only P c → (∀ a, touches_only P (k a)) → touches_only P (bind c k).
Proof.
  intros Hc Hk w q Hq. rewrite bind_eq. specialize (Hc w q Hq).
  destruct (c w) as [[a|e] w1]; cbn [snd] in *; [|done].
  by rewrite (Hk a w1 q Hq).
Qed.

Lemma touches_weaken {A} (P Q : string → Prop) (c : M A) :
  (∀ q, P q → Q q) → touches_only P c → touches_only Q c.
Proof. intros HPQ Hc w q Hq. apply Hc. intros HP. by apply Hq, HPQ. Qed.

Lemma touches_for_each {A} (P : string → Prop) (l : list A) (body : A → M unit) :
  (∀ x, x ∈ l → touches_only P (body x)) → touches_only P (for_each l body).
Proof.
  induction l as [|x l IH]; intros Hb; [apply touches_ret|].
  cbn [for_each]. apply touches_bind.
  - apply Hb. by left.
  - intros _. apply IH. intros y Hy. apply Hb. by right.
Qed.

Lemma touches_get_files (P : string → Prop) : touches_only P get_files.
Proof. by intros w q _. Qed.

Lemma touches_path_exists (P : string → Prop) (p : string) : touches_only P (path_exists p).
Proof. by intros w q _. Qed.

Lemma touches_read (P : string → Prop) (p : string) : touches_only P (read p).
Proof. intros w q _. rewrite read_eq. by destruct (files w !! p) as [[]|]. Qed.

Lemma touches_open_r (P : string → Prop) (p : string) : touches_only P (open_r p).
Proof.
  intros w q _. unfold open_r. rewrite bind_eq. cbn [get_files].
  by destruct (files w !! p) as [[]|].
Qed.

Lemma touches_open_w (P : string → Prop) (p : string) : P p → touches_only P (open_w p).
Proof.
  intros Hp w q Hq. rewrite open_w_eq.
  assert (q ≠ p) by (by intros ->).
  destruct (files w !! p) as [[]|];
    destruct (files w !! PosixPath.dirname p) as [[]|]; cbn; try done;
    by rewrite lookup_insert_ne.
Qed.

Lemma touches_write (P : string → Prop) (p s : string) : P p → touches_only P (write p s).
Proof.
  intros Hp w q Hq. rewrite write_eq.
  assert (q ≠ p) by (by intros ->).
  destruct (files w !! p) as [[]|]; cbn; try done; by rewrite lookup_insert_ne.
Qed.

Lemma touches_mkdir (P : string → Prop) (p : string) : P p → touches_only P (mkdir p).
Proof.
  intros Hp w q Hq. rewrite mkdir_eq.
  assert (q ≠ p) by (by intros ->).
  destruct (files w !! p) as [[]|];
    destruct (files w !! PosixPath.dirname p) as [[]|]; cbn; try done;
    by rewrite lookup_insert_ne.
Qed.

Lemma touches_remove (P : string → Prop) (p : string) : P p → touches_only P (FS.remove p).
Proof.
  intros Hp w q Hq. rewrite OSFacts.remove_eq.
  assert (q ≠ p) by (by intros ->).
  destruct (files w !! p) as [[]|]; cbn; try done; by rewrite lookup_delete_ne.
Qed.

(** Computations that only read and log. *)
Lemma touches_get_paths (P : string → Prop) (verb : string) (self : easyGit)
    (targets : list string) :
  touches_only P (get_paths verb self targets).
Proof. intros w q _. by destruct (get_paths_eq verb self targets w) as [lg ->]. Qed.

Lemma touches_remove_each (P : string → Prop) (l : list string) (S : gset string) :
  touches_only P (remove_each l S).
Proof. intros w q _. by destruct (remove_each_eq l S w) as [lg ->]. Qed.

Lemma touches_add (self : easyGit) (targets : list string) :
  touches_only (λ q, q = stagingFilePath self) (add self targets).
Proof.
  unfold add. apply touches_bind; [apply touches_log|]. intros _.
  apply touches_bind; [apply touches_get_paths|]. intros filePaths. cbv zeta.
  apply touches_bind; [apply touches_path_exists|]. intros found.
  apply touches_bind.
  { destruct found; [|apply touches_ret].
    apply touches_bind; [apply touches_read|]. intros c. apply touches_ret. }
  intros mergedFilePaths.
  apply touches_bind; [by apply touches_open_w|]. intros _.
  apply touches_for_each. intros f _. unfold write_staged.
  destruct (contains ".easygit" f); [apply touches_ret|by apply touches_write].
Qed.

Lemma touches_remove_staged (self : easyGit) (targets : list string) :
  touches_only (λ q, q = stagingFilePath self) (EasyGit.remove self targets).
Proof.
  unfold EasyGit.remove. apply touches_bind; [apply touches_log|]. intros _. cbv zeta.
  apply touches_bind; [apply touches_path_exists|]. intros found.
  destruct (negb found); [apply touches_log|].
  apply touches_bind; [apply touches_get_paths|]. intros filePaths.
  apply touches_bind; [apply touches_read|]. intros content.
  apply touches_bind; [apply touches_remove_each|]. intros left.
  destruct (bool_decide (size left ≠ 0%nat)).
  - apply touches_bind; [by apply touches_open_w|]. intros _.
    apply touches_for_each. intros f _. by apply touches_write.
  - by apply touches_remove.
Qed.

Lemma touches_commit_file (self : easyGit) (d f : string) :
  touches_only (written_by_commit self d) (commit_file self d (record_path self d) f).
Proof.
  unfold commit_file. apply touches_bind; [apply touches_read|]. intros content. cbv zeta.
  fold (blob_path self d (SHA1 (f +:+ content))).
  assert (Hb : written_by_commit self d (blob_path self d (SHA1 (f +:+ content)))).
  { do 3 right. by eexists. }
  apply touches_bind; [by apply touches_open_w|]. intros _.
  apply touches_bind; [by apply touches_write|]. intros _.
  apply touches_write. right. right. by left.
Qed.

Lemma touches_commit (self : easyGit) (message : list string) (now : string) :
  touches_only (written_by_commit self (SHA1 (now +:+ stagingFilePath self)))
               (commit self message now).
Proof.
  unfold commit. rewrite join_chars.
  set (d := SHA1 (now +:+ stagingFilePath self)).
  apply touches_bind; [apply touches_log|]. intros _. cbv zeta.
  apply touches_bind; [apply touches_path_exists|]. intros found.
  destruct (negb found); [apply touches_log|].
  apply touches_bind; [apply touches_read|]. intros staged.
  apply touches_bind; [apply touches_read|]. intros lastCommitSHA.
  apply touches_bind; [apply touches_open_w; by left|]. intros _.
  apply touches_bind; [apply touches_write; by left|]. intros _.
  fold (blob_dir self d). fold (record_path self d).
  apply touches_bind; [apply touches_mkdir; right; by left|]. intros _.
  apply touches_bind; [apply touches_open_w; right; right; by left|]. intros _.
  apply touches_bind; [apply touches_write; right; right; by left|]. intros _.
  apply touches_bind; [apply touches_write; right; right; by left|]. intros _.
  apply touches_for_each. intros f _. apply touches_commit_file.
Qed.

Lemma touches_head_target (P : string → Prop) (self : easyGit) :
  touches_only P (head_target self).
Proof.
  unfold head_target. apply touches_bind; [apply touches_read|]. intros head. cbv zeta.
  destruct (bool_decide _); [|apply touches_ret].
  apply touches_bind; [apply touches_log|]. intros _. apply touches_ret.
Qed.

Lemma touches_search_from (P : string → Prop) (self : easyGit) (n : nat) :
  ∀ t, touches_only P (search_from self n t).
Proof.
  induction n as [|k IH]; intros t; [apply touches_ret|].
  cbn [search_from]. cbv zeta.
  apply touches_bind; [apply touches_path_exists|]. intros found.
  destruct (negb found).
  { apply touches_bind; [apply touches_log|]. intros _. apply touches_ret. }
  apply touches_bind; [apply touches_read|]. intros text.
  apply touches_bind.
  { destruct (negb _); [apply IH|apply touches_ret]. }
  intros [older|]; apply touches_ret.
Qed.

Lemma touches_search (P : string → Prop) (self : easyGit) (targetSHA : option string)
    (depth maxDepth : Z) :
  touches_only P (search self targetSHA depth maxDepth).
Proof.
  unfold search. destruct (bool_decide _); [apply touches_ret|].
  destruct targetSHA as [t|]; [apply touches_search_from|].
  apply touches_bind; [apply touches_head_target|].
  intros [t|]; [apply touches_search_from|apply touches_ret].
Qed.

Lemma touches_status (P : string → Prop) (self : easyGit) (targetSHA : option string)
    (maxDepth : Z) :
  touches_only P (status self targetSHA maxDepth).
Proof.
  unfold status. apply touches_bind; [apply touches_log|]. intros _.
  apply touches_bind; [apply touches_search|].
  intros [[|first rest]|]; [apply touches_raise| |apply touches_raise].
  apply touches_bind; [apply touches_log|]. intros _.
  destruct (bool_decide _); [|apply touches_ret].
  apply touches_for_each. intros sha _. apply touches_log.
Qed.

End FrameFacts.

(** ** What [search] returns, what [status] logs *)

Module HistoryFacts.
Import PyStr OS FS EasyGit Spec Frame.
Import PyStrFacts OSFacts SearchFacts StatusFacts FrameFacts.
Local Open Scope Z_scope.

Lemma search_from_files (self : easyGit) (n : nat) (t : string) (w : world) :
  files (snd (search_from self n t w)) = files w.
Proof.
  apply map_eq. intros q. apply (touches_search_from (λ _, False)). by intros [].
Qed.

Lemma head_target_files (self : easyGit) (w : world) :
  files (snd (head_target self w)) = files w.
Proof.
  apply map_eq. intros q. apply (touches_head_target (λ _, False)). by intros [].
Qed.

Lemma search_files (self : easyGit) (targetSHA : option string) (depth maxDepth : Z)
    (w : world) :
  files (snd (search self targetSHA depth maxDepth w)) = files w.
Proof.
  apply map_eq. intros q. apply (touches_search (λ _, False)). by intros [].
Qed.

Lemma search_from_sound (self : easyGit) (n : nat) :
  ∀ (d : string) (w w' : world) (l : list string),
    search_from self n d w = (Ok (Some l), w') →
    head l = Some d ∧ (length l ≤ n)%nat ∧ linked self (files w) l.
Proof.
  induction n as [|k IH]; intros d w w' l Hrun; [discriminate|].
  destruct (files w !! PosixPath.join (commitFolderPath self) d) as [[c| |?]|] eqn:Hrec.
  - rewrite (search_from_step _ _ _ _ _ Hrec) in Hrun. cbv zeta in Hrun.
    set (p := last_or "" (split ":" (strip LF (readline (universal_newlines c))))) in Hrun.
    assert (Hp : parent_of self (files w) d = Some p) by (unfold parent_of; by rewrite Hrec).
    destruct (bool_decide (p = "")) eqn:Hempty; cbn [negb] in Hrun.
    { injection Hrun as <- <-. cbn. split; [done|]. split; [lia|]. by rewrite Hp. }
    apply bool_decide_eq_false in Hempty.
    destruct (search_from self k p w) as [[[older|]|e] w1] eqn:Hrec'; [| |done].
    + injection Hrun as <- <-. destruct (IH _ _ _ _ Hrec') as (Hh & Hlen & Hl).
      split; [done|]. split; [cbn; lia|].
      destruct older as [|d' rest]; [done|]. injection Hh as ->.
      cbn [linked]. by rewrite Hp.
    + injection Hrun as <- <-. cbn. split; [done|]. split; [lia|]. by rewrite Hp.
  - exfalso. revert Hrun. cbn [search_from]. cbv zeta.
    rewrite bind_eq, path_exists_eq. cbv beta iota zeta.
    rewrite (exists_Some _ _ _ Hrec). cbn [negb].
    rewrite bind_eq, read_eq, Hrec. done.
  - exfalso. revert Hrun. cbn [search_from]. cbv zeta.
    rewrite bind_eq, path_exists_eq. cbv beta iota zeta.
    rewrite (exists_Some _ _ _ Hrec). cbn [negb].
    rewrite bind_eq, read_eq, Hrec. done.
  - by rewrite (search_from_missing _ _ _ _ Hrec) in Hrun.
Qed.

Lemma for_each_log_exact (l : list string) :
  ∀ w, for_each l (λ sha, log INFO sha) w
       = (Ok (), World (files w) (logged w ++ ((λ s, (INFO, s)) <$> l)) (printed w)).
Proof.
  induction l as [|x l IH]; intros w.
  - cbn. by rewrite (right_id_L [] (++)).
  - cbn [for_each]. rewrite bind_eq, log_eq. cbv beta iota zeta.
    rewrite IH. cbn [files logged printed fmap list_fmap].
    by rewrite <- (assoc_L (++)).
Qed.

End HistoryFacts.

(** ** [os.makedirs] on a directory that exists *)

Module DirFacts.
Import PyStr PosixPath OS FS Spec.
Import PyStrFacts PathFacts OSFacts.

Lemma rsplit_app (p : string) : p = fst (rsplit p) +:+ snd (rsplit p).
Proof.
  induction p as [|a r IH]; [done|]. cbn [rsplit].
  destruct (rsplit r) as [[|b h] t] eqn:Hr.
  - cbn [fst snd] in IH. rewrite str_app_nil_l in IH. subst r.
    destruct (bool_decide (a = slash)) eqn:Ha; cbn [fst snd].
    + apply bool_decide_eq_true in Ha. subst a. unfold PosixPath.sep.
      by rewrite str_app_cons, str_app_nil_l.
    + by rewrite str_app_nil_l.
  - cbn [fst snd] in *. by rewrite str_app_cons, <- IH.
Qed.

Lemma rsplit_head (p : string) :
  fst (rsplit p) = "" ∨ endswith_char slash (fst (rsplit p)) = true.
Proof.
  induction p as [|a r IH]; [by left|]. cbn [rsplit].
  destruct (rsplit r) as [[|b h] t] eqn:Hr.
  - destruct (bool_decide (a = slash)); [by right|by left].
  - right. cbn [fst] in *. destruct IH as [|IH]; [done|]. exact IH.
Qed.

Lemma rsplit_all_slashes (s : string) : all_slashes s = true → rsplit s = (s, "").
Proof.
  induction s as [|a r IH]; [done|]. cbn [all_slashes rsplit].
  intros [Ha Hr]%andb_true_iff. apply bool_decide_eq_true in Ha. subst a.
  rewrite (IH Hr). destruct r; [done|done].
Qed.

Lemma rsplit_tail_nonempty (s : string) :
  s ≠ "" → endswith_char slash s = false → snd (rsplit s) ≠ "".
Proof.
  intros Hne Hend Ht. pose proof (rsplit_app s) as Happ.
  rewrite Ht, str_app_nil_r in Happ.
  destruct (rsplit_head s) as [H|H]; rewrite <- Happ in H; [done|congruence].
Qed.

Lemma rstrip_nonempty (c : ascii) (s : string) :
  rstrip c s = "" → all_slashes s = true ∨ c ≠ slash.
Proof.
  destruct (decide (c = slash)) as [->|]; [|by right]. left.
  induction s as [|a r IH]; [done|]. cbn [rstrip all_slashes] in *.
  destruct (bool_decide (a = slash)) eqn:Ha; cbn [andb] in *; [|done].
  destruct (bool_decide (rstrip slash r = "")) eqn:Hr; [|done].
  apply bool_decide_eq_true in Hr. by apply IH.
Qed.

Lemma rstrip_end (c : ascii) (s : string) : endswith_char c (rstrip c s) = false.
Proof.
  induction s as [|a r IH]; [done|]. cbn [rstrip].
  destruct (bool_decide (a = c)) eqn:Ha; cbn [andb].
  - destruct (bool_decide (rstrip c r = "")) eqn:Hr; [done|].
    apply bool_decide_eq_false in Hr. cbn [endswith_char].
    destruct (rstrip c r); [done|exact IH].
  - cbn [endswith_char]. destruct (rstrip c r) eqn:Hr; [done|exact IH].
Qed.

Lemma split_snd (p : string) : snd (split p) = snd (rsplit p).
Proof.
  unfold split. destruct (rsplit p) as [h t]. by destruct (negb _ && negb _).
Qed.

Lemma dirname_shape (p : string) :
  all_slashes (dirname p) = true
  ∨ (dirname p ≠ "" ∧ endswith_char slash (dirname p) = false).
Proof.
  unfold dirname, split. destruct (rsplit p) as [h t].
  destruct (negb (bool_decide (h = "")) && negb (all_slashes h)) eqn:Hcase; cbn [fst].
  - right. apply andb_true_iff in Hcase as [Hne Hall].
    apply negb_true_iff in Hne, Hall. split; [|apply rstrip_end].
    intros H. apply rstrip_nonempty in H as [H|H]; [congruence|done].
  - left. apply andb_false_iff in Hcase as [H|H]; apply negb_false_iff in H; [|done].
    apply bool_decide_eq_true in H. by subst h.
Qed.

Lemma split_all_slashes (s : string) : all_slashes s = true → split s = (s, "").
Proof.
  intros Hall. unfold split. rewrite (rsplit_all_slashes _ Hall).
  by rewrite Hall, andb_false_r.
Qed.

(** A directory name has a last component, unless it is empty or made of
    slashes only. *)
Lemma split_dirname (p : string) :
  basename (dirname p) = "" → split (dirname p) = (dirname p, "").
Proof.
  intros Hb. destruct (dirname_shape p) as [Hall|[Hne Hend]].
  - by apply split_all_slashes.
  - exfalso. apply (rsplit_tail_nonempty _ Hne Hend).
    by rewrite <- split_snd.
Qed.

Lemma mkdir_exist_ok_existing (name : string) (w : world) :
  files w !! name = Some Dir → mkdir_exist_ok name w = (Ok (), w).
Proof.
  intros H. unfold mkdir_exist_ok. rewrite mkdir_eq, H.
  unfold isdir. by rewrite bool_decide_eq_true_2.
Qed.

Lemma makedirs_existing (p : string) (w : world) :
  files w !! dirname p = Some Dir →
  is_Some (files w !! dirname (dirname p)) →
  makedirs (dirname p) w = (Ok (), w).
Proof.
  intros Hdir Hup. unfold makedirs.
  assert (Hgo : ∀ n, makedirs_go n (dirname p) w = (Ok (), w)); [|apply Hgo].
  intros n.
  assert (Hstep : ∀ head tail,
            (if bool_decide (snd (split (dirname p)) = "")
             then split (fst (split (dirname p)))
             else split (dirname p)) = (head, tail) →
            negb (bool_decide (head = "")) && negb (bool_decide (tail = ""))
            && negb (exists_ (files w) head) = false).
  { intros head tail. destruct (bool_decide _) eqn:Ht.
    - apply bool_decide_eq_true in Ht. rewrite (split_dirname p Ht). cbn [fst].
      rewrite (split_dirname p Ht). intros [= <- <-].
      rewrite (bool_decide_eq_true_2 ("" = "")) by done. by rewrite andb_false_r.
    - intros Hs. destruct Hup as [x Hx].
      assert (head = dirname (dirname p)) as -> by (unfold dirname at 1; by rewrite Hs).
      rewrite (exists_Some _ _ _ Hx). by rewrite andb_false_r. }
  destruct n as [|k]; cbn [makedirs_go];
    destruct (split (dirname p)) as [h0 t0] eqn:Hs0; cbn [fst snd] in Hstep;
    destruct (if bool_decide (t0 = "") then split h0 else (h0, t0))
      as [head tail] eqn:Hadj;
    rewrite bind_eq; cbn [get_files]; cbv beta iota zeta;
    (rewrite (Hstep head tail); [by apply mkdir_exist_ok_existing|]);
    by destruct (bool_decide (t0 = "")).
Qed.

Lemma rsplit_name (y m : string) :
  has_char slash m = false → rsplit (y +:+ "/" +:+ m) = (y +:+ "/", m).
Proof.
  intros Hm. induction y as [|a r IH].
  - rewrite !str_app_nil_l. change ("/" +:+ m) with (String slash m). cbn [rsplit].
    assert (Hr : rsplit m = ("", m)).
    { clear -Hm. induction m as [|b m IH]; [done|]. cbn [has_char] in Hm.
      apply orb_false_iff in Hm as [Hb Hm]. cbn [rsplit]. rewrite (IH Hm).
      by rewrite Hb. }
    rewrite Hr. by rewrite bool_decide_eq_true_2.
  - rewrite (str_app_cons a r), (str_app_cons a r). cbn [rsplit]. rewrite IH.
    destruct r; by rewrite ?str_app_cons, ?str_app_nil_l.
Qed.

Lemma rstrip_app_name (c : ascii) (x n : string) :
  n ≠ "" → has_char c n = false → rstrip c (x +:+ n) = x +:+ n.
Proof.
  intros Hne Hn.
  assert (Hn' : rstrip c n = n).
  { clear Hne. induction n as [|b n IH]; [done|]. cbn [has_char] in Hn.
    apply orb_false_iff in Hn as [Hb Hn]. cbn [rstrip]. rewrite Hb. cbn [andb].
    by rewrite (IH Hn). }
  induction x as [|a r IH]; [by rewrite str_app_nil_l|].
  rewrite str_app_cons. cbn [rstrip]. rewrite IH.
  rewrite (bool_decide_eq_false_2 (r +:+ n = "")); [by rewrite andb_false_r|].
  destruct r; [by rewrite str_app_nil_l|by rewrite str_app_cons].
Qed.

Lemma rstrip_app_stripped (c : ascii) (s t : string) :
  rstrip c t = "" → rstrip c (s +:+ t) = rstrip c s.
Proof.
  intros Ht. induction s as [|a r IH]; [by rewrite str_app_nil_l|].
  rewrite str_app_cons. cbn [rstrip]. by rewrite IH.
Qed.

Lemma rstrip_app_slash (x n : string) :
  n ≠ "" → has_char slash n = false → rstrip slash ((x +:+ n) +:+ "/") = x +:+ n.
Proof.
  intros Hne Hn. rewrite rstrip_app_stripped by done. by apply rstrip_app_name.
Qed.

Lemma all_slashes_app_name (x n s : string) :
  n ≠ "" → has_char slash n = false → all_slashes ((x +:+ n) +:+ s) = false.
Proof.
  intros Hne Hn. induction x as [|a r IH].
  - rewrite str_app_nil_l. destruct n as [|b n]; [done|].
    rewrite str_app_cons. cbn [all_slashes has_char] in *.
    apply orb_false_iff in Hn as [Hb _]. by rewrite Hb.
  - rewrite !str_app_cons. cbn [all_slashes]. by rewrite IH, andb_false_r.
Qed.

(** The directory of an entry [m] of the directory [x ++ n]. *)
Lemma dirname_join_name (x n m : string) :
  n ≠ "" → has_char slash n = false → has_char slash m = false →
  dirname (join (x +:+ n) m) = x +:+ n.
Proof.
  intros Hne Hn Hm. rewrite join_name by (done || by apply has_char_startswith).
  rewrite <- str_app_assoc.
  unfold dirname, split. rewrite (rsplit_name (x +:+ n) m Hm).
  rewrite (all_slashes_app_name x n "/" Hne Hn). 
  rewrite (bool_decide_eq_false_2 ((x +:+ n) +:+ "/" = "")).
  - cbn [negb andb fst]. by apply rstrip_app_slash.
  - destruct (x +:+ n); [by rewrite str_app_nil_l|by rewrite str_app_cons].
Qed.

End DirFacts.

(** ** The steps of [restore] *)

Module RestoreFacts.
Import PyStr OS FS EasyGit Spec Frame.
Import PyStrFacts PathFacts OSFacts StagingFacts WalkFacts DirFacts.
Local Open Scope Z_scope.

(** *** [list.index] *)

Lemma index_from_absent (x : string) (l : list string) :
  x ∉ l → ∀ start pos, index_from x l start pos = None.
Proof.
  induction l as [|y l IH]; intros Hx start pos; [done|].
  cbn [index_from]. rewrite (bool_decide_eq_false_2 (y = x)).
  - rewrite andb_false_r. apply IH. intros H. apply Hx. by right.
  - intros ->. apply Hx. by left.
Qed.

Lemma index_from_before (x : string) (pre l : list string) :
  ∀ start pos, (pos + length pre ≤ start)%nat →
    index_from x (pre ++ l) start pos = index_from x l start (pos + length pre).
Proof.
  induction pre as [|y pre IH]; intros start pos Hle.
  - cbn. by rewrite Nat.add_0_r.
  - cbn [app index_from length] in *. rewrite (bool_decide_eq_false_2 (start ≤ pos)%nat) by lia.
    cbn [andb]. rewrite IH by lia. f_equal. lia.
Qed.

Lemma index_from_first (x : string) (pre post : list string) :
  x ∉ pre → ∀ start pos, (start ≤ pos)%nat →
    index_from x (pre ++ x :: post) start pos = Some (pos + length pre)%nat.
Proof.
  induction pre as [|y pre IH]; intros Hx start pos Hle.
  - cbn [app index_from length]. rewrite !bool_decide_eq_true_2 by (done || lia).
    cbn. f_equal. lia.
  - cbn [app index_from length]. rewrite (bool_decide_eq_false_2 (y = x)).
    + rewrite andb_false_r, IH; [f_equal; lia| |lia]. intros H. apply Hx. by right.
    + intros ->. apply Hx. by left.
Qed.

Lemma index_from_found (x : string) (l : list string) :
  ∀ start pos i, index_from x l start pos = Some i →
    ∃ pre post, l = pre ++ x :: post ∧ i = (pos + length pre)%nat.
Proof.
  induction l as [|y l IH]; intros start pos i H; [done|].
  cbn [index_from] in H.
  destruct (bool_decide (start ≤ pos)%nat && bool_decide (y = x)) eqn:Hhere.
  - apply andb_true_iff in Hhere as [_ ->%bool_decide_eq_true].
    injection H as <-. exists [], l. split; [done|]. cbn. lia.
  - destruct (IH _ _ _ H) as (pre & post & -> & ->).
    exists (y :: pre), post. split; [done|]. cbn. lia.
Qed.

(** The number of lines that are the marker. *)
Lemma no_marker (x : string) (l : list string) :
  length (filter (λ y, y = x) l) = 0%nat → x ∉ l.
Proof.
  intros H Hin.
  assert (Hf : x ∈ filter (λ y, y = x) l) by (by apply list_elem_of_filter).
  destruct (filter _ l); [by apply elem_of_nil in Hf|done].
Qed.

Lemma index_twice_fails (x : string) (l : list string) :
  (length (filter (λ y, y = x) l) < 2)%nat →
  match index x l 0 with
  | None => True
  | Some top => index x l (top + 1) = None
  end.
Proof.
  intros Hcount. unfold index.
  destruct (index_from x l 0 0) as [top|] eqn:Htop; [|done].
  destruct (index_from_found _ _ _ _ _ Htop) as (pre & post & -> & ->).
  rewrite filter_app, filter_cons_True, length_app in Hcount by done.
  cbn [length] in Hcount.
  replace (pre ++ x :: post) with ((pre ++ [x]) ++ post) by (by rewrite <- (assoc_L (++))).
  rewrite index_from_before by (rewrite length_app; cbn; lia).
  apply index_from_absent, no_marker. lia.
Qed.

(** Where [restore] starts in a text with the two markers at the positions
    [length pre] and [length pre + 1 + length message]. *)
Lemma restore_start (x : string) (pre message assoc : list string) :
  x ∉ pre → x ∉ message → (1 ≤ length pre)%nat →
  let content := pre ++ x :: message ++ x :: assoc in
  index x content 0 = Some (length pre)
  ∧ index x content (length pre + 1) = Some (length pre + 1 + length message)%nat
  ∧ drop (length pre + (length pre + 1 + length message)) content
    = drop (length pre - 1) assoc.
Proof.
  intros Hpre Hmsg Hone content. split; [|split].
  - unfold index, content. by rewrite index_from_first by (done || lia).
  - unfold index, content.
    replace (pre ++ x :: message ++ x :: assoc)
      with ((pre ++ [x]) ++ message ++ x :: assoc) by (by rewrite <- (assoc_L (++))).
    rewrite index_from_before by (rewrite length_app; cbn; lia).
    rewrite index_from_first; [|done|rewrite length_app; cbn; lia].
    f_equal. rewrite length_app. cbn. lia.
  - unfold content.
    replace (pre ++ x :: message ++ x :: assoc)
      with ((pre ++ x :: message ++ [x]) ++ assoc).
    2:{ rewrite <- (assoc_L (++)). cbn [app]. by rewrite <- (assoc_L (++)). }
    rewrite drop_app_ge; rewrite !length_app; cbn [length]; rewrite ?length_app;
      cbn [length]; [f_equal; lia|lia].
Qed.

(** *** The lines of a record *)

Lemma entries_app (a b : list string) : entries (a ++ b) = entries a +:+ entries b.
Proof.
  induction a as [|f a IH]; [by rewrite str_app_nil_l|].
  cbn [app entries]. by rewrite IH, !str_app_assoc.
Qed.

Lemma join_nl_entries (message : list string) :
  message ≠ [] → PyStr.join nl message +:+ nl = entries message.
Proof.
  induction message as [|x [|y r] IH]; intros Hne; [done| |].
  - cbn [PyStr.join entries]. by rewrite str_app_nil_r.
  - change (PyStr.join nl (x :: y :: r)) with (x +:+ nl +:+ PyStr.join nl (y :: r)).
    change (entries (x :: y :: r)) with (x +:+ nl +:+ entries (y :: r)).
    by rewrite !str_app_assoc, IH.
Qed.

Lemma record_text (h : string) (message assoc : list string) :
  message ≠ [] →
  record_header h message +:+ entries assoc
  = entries (("HEAD:" +:+ h) :: "Commitment Message:" :: "=====" :: message
             ++ "=====" :: assoc).
Proof.
  intros Hne. unfold record_header. cbn [entries]. rewrite entries_app. cbn [entries].
  rewrite <- (join_nl_entries message Hne). fold nl.
  by rewrite !str_app_assoc.
Qed.

(** *** [restore] once the record is found *)

Lemma restore_found (self : easyGit) (d c : string) (w : world) :
  files w !! PosixPath.join (commitFolderPath self) d = Some (File c) →
  restore self (Some d) w =
    let content := strip LF <$> readlines (universal_newlines c) in
    let w1 := exec (log DEBUG "function restore executed") w in
    match index "=====" content 0 with
    | None => (Raise ValueError, w1)
    | Some topIndex =>
        match index "=====" content (topIndex + 1) with
        | None => (Raise ValueError, w1)
        | Some second =>
            for_each (drop (topIndex + second) content) (restore_file self d) w1
        end
    end.
Proof.
  intros Hc. unfold restore, exec.
  rewrite bind_eq, log_eq. cbv beta iota zeta. cbn [snd].
  rewrite bind_eq. cbn [ret]. cbv beta iota zeta.
  rewrite bind_eq, path_exists_eq. cbv beta iota zeta. cbn [files].
  rewrite (exists_Some _ _ _ Hc). cbn [negb].
  rewrite bind_eq, read_eq. cbn [files]. rewrite Hc. cbv beta iota zeta.
  destruct (index "=====" _ 0) as [top|]; [|done].
  by destruct (index "=====" _ (top + 1)).
Qed.

Lemma restore_drop_first (self : easyGit) (d h : string) (message assoc : list string)
    (w : world) :
  files w !! record_path self d = Some (File (record_header h message +:+ entries assoc)) →
  single_line h →
  message ≠ [] → Forall single_line message → "=====" ∉ message →
  Forall single_line assoc →
  restore self (Some d) w
  = for_each (drop 1 assoc) (restore_file self d)
      (exec (log DEBUG "function restore executed") w).
Proof.
  intros Hc [HhL HhC] Hne Hmsg Hmark Hassoc.
  rewrite (restore_found self d _ w Hc). cbv zeta.
  rewrite (record_text h message assoc Hne).
  rewrite read_entries.
  2:{ apply Forall_cons. split.
      { split; rewrite has_char_app; [by rewrite HhL|by rewrite HhC]. }
      repeat (apply Forall_cons; split; [done|]).
      apply Forall_app. split; [done|]. by apply Forall_cons. }
  pose proof (restore_start "=====" ["HEAD:" +:+ h; "Commitment Message:"] message assoc)
    as Hstart.
  cbn [app length] in Hstart.
  destruct Hstart as (H1 & H2 & H3).
  - intros [H|H]%elem_of_cons.
    + apply (f_equal (has_char ":")) in H. rewrite has_char_app in H. done.
    + by apply list_elem_of_singleton in H.
  - done.
  - lia.
  - rewrite H1, H2. by rewrite H3.
Qed.

(** *** One association *)

Lemma split_go_skip (sep : string) (k : nat) (a : ascii) (r : string) :
  split_go sep (S k) (String a r) = split_go sep k r.
Proof. done. Qed.

Lemma split_go_here (sep : string) (a : ascii) (r : string) :
  startswith sep (String a r) = true →
  split_go sep O (String a r) = "" :: split_go sep (String.length sep - 1) r.
Proof. intros H. cbn [split_go]. by rewrite H. Qed.

Lemma split_go_next (sep : string) (a : ascii) (r : string) :
  startswith sep (String a r) = false →
  split_go sep O (String a r) =
  match split_go sep O r with
  | [] => [String a ""]
  | h :: t => String a h :: t
  end.
Proof. intros H. cbn [split_go]. by rewrite H. Qed.

Lemma startswith_first (c : ascii) (sep s : string) :
  has_char c s = false → startswith (String c sep) s = false.
Proof.
  destruct s as [|a r]; [done|]. cbn [has_char startswith].
  intros [H _]%orb_false_iff. apply bool_decide_eq_false in H.
  rewrite (bool_decide_eq_false_2 (c = a)); [done|]. by intros ->.
Qed.

Lemma split_go_without (c : ascii) (sep s : string) :
  has_char c s = false → split_go (String c sep) O s = [s].
Proof.
  induction s as [|a r IH]; intros H; [done|].
  rewrite split_go_next by (by apply startswith_first).
  cbn [has_char] in H. apply orb_false_iff in H as [_ H]. by rewrite IH.
Qed.

Lemma split_association (p x : string) :
  has_char ":" p = false → has_char ":" x = false →
  split ":::" (p +:+ ":::" +:+ x) = [p; x].
Proof.
  intros Hp Hx. unfold split. induction p as [|a r IH].
  - rewrite str_app_nil_l, !str_app_cons, str_app_nil_l.
    rewrite split_go_here by done.
    change (String.length ":::" - 1)%nat with 2%nat.
    rewrite !split_go_skip. by rewrite split_go_without.
  - rewrite str_app_cons. cbn [has_char] in Hp. apply orb_false_iff in Hp as [Ha Hp].
    rewrite split_go_next.
    + by rewrite IH.
    + apply bool_decide_eq_false in Ha. cbn [startswith].
      rewrite (bool_decide_eq_false_2 (":"%char = a)); [done|]. by intros <-.
Qed.

Lemma restore_file_replay (self : easyGit) (d p x b : string) (w : world) :
  has_char ":" p = false → has_char ":" x = false →
  files w !! PosixPath.dirname p = Some Dir →
  is_Some (files w !! PosixPath.dirname (PosixPath.dirname p)) →
  files w !! p ≠ Some Dir →
  files w !! blob_path self d x = Some (File b) →
  p ≠ blob_path self d x →
  restore_file self d (p +:+ ":::" +:+ x) w
  = (Ok (), World (<[p := File (universal_newlines b)]> (files w)) (logged w)
              (printed w ++ [[p; x]])).
Proof.
  intros Hp Hx Hdir Hup Hnd Hb Hne. unfold restore_file.
  rewrite (split_association p x Hp Hx).
  rewrite bind_eq. cbn [print]. cbv beta iota zeta.
  set (w1 := World (files w) (logged w) (printed w ++ [[p; x]])).
  rewrite bind_eq, (makedirs_existing p w1 Hdir Hup). cbv beta iota zeta.
  fold (blob_path self d x).
  rewrite bind_eq. unfold open_r. rewrite bind_eq. cbn [get_files files w1].
  rewrite Hb. cbn [ret]. cbv beta iota zeta.
  rewrite bind_eq, open_w_eq. cbn [files w1]. rewrite Hdir.
  assert (Hopen : match files w !! p with
                  | Some Dir => (Raise IsADirectoryError, w1)
                  | _ => (Ok (), with_files w1 (<[p := File ""]> (files w)))
                  end = (Ok (), with_files w1 (<[p := File ""]> (files w)))).
  { by destruct (files w !! p) as [[]|]. }
  rewrite Hopen. cbv beta iota zeta.
  rewrite bind_eq, read_eq. cbn [files with_files].
  rewrite lookup_insert_ne by done. rewrite Hb. cbv beta iota zeta.
  rewrite write_eq. unfold with_files. cbn [files logged printed w1].
  rewrite lookup_insert_eq.
  by rewrite insert_insert_eq, str_app_nil_l.
Qed.

End RestoreFacts.

(** ** The run of [commit] *)

Module CommitRunFacts.
Import PyStr OS FS EasyGit Spec Frame.
Import PyStrFacts Sha1Facts PathFacts OSFacts StagingFacts LayoutFacts CommitFacts.
Import FrameFacts DirFacts.
Local Open Scope Z_scope.

Section dirs.
Variables root cwd : string.
Local Abbreviation self := (easyGit_at root cwd).

Lemma dirname_staging : PosixPath.dirname (stagingFilePath self) = repoPath self.
Proof.
  unfold stagingFilePath. rewrite (R_eq root cwd). by apply dirname_join_name.
Qed.

Lemma dirname_commitFolder : PosixPath.dirname (commitFolderPath self) = repoPath self.
Proof.
  change (commitFolderPath self) with (PosixPath.join (repoPath self) "commit").
  rewrite (R_eq root cwd). by apply dirname_join_name.
Qed.

Lemma dirname_changeFolder : PosixPath.dirname (changeFolderPath self) = repoPath self.
Proof.
  change (changeFolderPath self) with (PosixPath.join (repoPath self) "changes").
  rewrite (R_eq root cwd). by apply dirname_join_name.
Qed.

Lemma dirname_head : PosixPath.dirname (headFile self) = commitFolderPath self.
Proof.
  change (headFile self) with (PosixPath.join (commitFolderPath self) "HEAD").
  rewrite (commitFolderPath_at root cwd). by apply dirname_join_name.
Qed.

Lemma dirname_record (d : string) :
  is_name d → PosixPath.dirname (record_path self d) = commitFolderPath self.
Proof.
  intros [Hne Hd]. unfold record_path.
  rewrite (commitFolderPath_at root cwd). by apply dirname_join_name.
Qed.

Lemma dirname_blob_dir (d : string) :
  is_name d → PosixPath.dirname (blob_dir self d) = changeFolderPath self.
Proof.
  intros [Hne Hd]. unfold blob_dir.
  rewrite (changeFolderPath_at root cwd). by apply dirname_join_name.
Qed.

Lemma dirname_blob (d x : string) :
  is_name d → is_name x → PosixPath.dirname (blob_path self d x) = blob_dir self d.
Proof.
  intros [Hne Hd] [Hnx Hx]. unfold blob_path, blob_dir.
  rewrite (changeFolderPath_at root cwd).
  rewrite (join_name _ "changes" d) by (done || by apply has_char_startswith).
  rewrite <- !str_app_assoc. by apply dirname_join_name.
Qed.

End dirs.

Lemma commit_enter (self : easyGit) (message : list string) (now s h : string) (w : world) :
  files w !! stagingFilePath self = Some (File s) →
  files w !! headFile self = Some (File h) →
  files w !! PosixPath.dirname (headFile self) = Some Dir →
  let d := SHA1 (now +:+ stagingFilePath self) in
  commit self message now w
  = commit_tail self message d (universal_newlines h)
      (elements (add_lines ∅ (universal_newlines s)))
      (World (<[headFile self := File d]> (files w))
             (logged w ++ [(DEBUG, "function commit executed")]) (printed w)).
Proof.
  intros Hs Hh Hdir d. unfold commit. rewrite join_chars. fold d.
  rewrite bind_eq, log_eq. cbv beta iota zeta.
  rewrite bind_eq, path_exists_eq. cbv beta iota zeta. cbn [files].
  rewrite (exists_Some _ _ _ Hs). cbn [negb].
  rewrite bind_eq, read_eq. cbn [files]. rewrite Hs. cbv beta iota zeta.
  rewrite bind_eq, read_eq. cbn [files]. rewrite Hh. cbv beta iota zeta.
  rewrite bind_eq, open_w_eq. cbn [files]. rewrite Hh, Hdir. cbv beta iota zeta.
  rewrite bind_eq, write_eq. unfold with_files. cbn [files logged printed].
  rewrite lookup_insert_eq. cbv beta iota zeta. cbn [files logged printed].
  rewrite insert_insert_eq, str_app_nil_l. reflexivity.
Qed.

Lemma touches_commit_tail (self : easyGit) (message : list string) (d h : string)
    (l : list string) :
  touches_only (λ q, q = blob_dir self d ∨ q = record_path self d
                     ∨ ∃ x, q = blob_path self d (SHA1 x))
               (commit_tail self message d h l).
Proof.
  unfold commit_tail.
  apply touches_bind; [apply touches_mkdir; by left|]. intros _.
  apply touches_bind; [apply touches_open_w; right; by left|]. intros _.
  apply touches_bind; [apply touches_write; right; by left|]. intros _.
  apply touches_bind; [apply touches_write; right; by left|]. intros _.
  apply touches_for_each. intros f _.
  unfold commit_file. apply touches_bind; [apply touches_read|]. intros content. cbv zeta.
  fold (blob_path self d (SHA1 (f +:+ content))).
  assert (Hb : blob_path self d (SHA1 (f +:+ content)) = blob_dir self d
               ∨ blob_path self d (SHA1 (f +:+ content)) = record_path self d
               ∨ ∃ x, blob_path self d (SHA1 (f +:+ content)) = blob_path self d (SHA1 x)).
  { do 2 right. by eexists. }
  apply touches_bind; [by apply touches_open_w|]. intros _.
  apply touches_bind; [by apply touches_write|]. intros _.
  apply touches_write. right. by left.
Qed.

Lemma open_w_ok (p : string) (w : world) :
  files w !! p ≠ Some Dir →
  files w !! PosixPath.dirname p = Some Dir →
  open_w p w = (Ok (), with_files w (<[p := File ""]> (files w))).
Proof.
  intros Hp Hdir. rewrite open_w_eq, Hdir. by destruct (files w !! p) as [[]|].
Qed.

Section run.
Variables root cwd : string.
Local Abbreviation self := (easyGit_at root cwd).

Lemma head_kept (message : list string) (d h : string) (l : list string) (w : world) :
  is_name d → d ≠ "HEAD" →
  files (snd (commit_tail self message d h l w)) !! headFile self
  = files w !! headFile self.
Proof.
  intros Hd Hne. apply (touches_commit_tail self message d h l).
  intros [H|[H|[x H]]].
  - by apply (head_not_blob_dir root cwd) in H.
  - symmetry in H. by apply (record_not_head root cwd) in H.
  - apply (head_not_blob root cwd) in H; [done|done|apply SHA1_is_name].
Qed.

Lemma commit_file_ok (d f cf c : string) (w : world) :
  is_name d →
  files w !! f = Some (File cf) →
  contains ".easygit" f = false →
  files w !! record_path self d = Some (File c) →
  files w !! blob_dir self d = Some Dir →
  files w !! blob_path self d (SHA1 (f +:+ universal_newlines cf)) ≠ Some Dir →
  commit_file self d (record_path self d) f w
  = (Ok (), with_files w
       (<[record_path self d :=
            File (c +:+ (f +:+ ":::" +:+ SHA1 (f +:+ universal_newlines cf) +:+ nl))]>
          (<[blob_path self d (SHA1 (f +:+ universal_newlines cf)) :=
               File (universal_newlines cf)]> (files w)))).
Proof.
  intros Hd Hf Hout Hrec Hdir Hblob. unfold commit_file.
  rewrite bind_eq, read_eq, Hf. cbv beta iota zeta.
  set (x := SHA1 (f +:+ universal_newlines cf)) in *.
  fold (blob_path self d x).
  assert (Hx : is_name x) by apply SHA1_is_name.
  rewrite bind_eq, open_w_eq, (dirname_blob root cwd d x Hd Hx), Hdir.
  assert (Hopen : match files w !! blob_path self d x with
                  | Some Dir => (Raise IsADirectoryError, w)
                  | _ => (Ok (), with_files w (<[blob_path self d x := File ""]> (files w)))
                  end = (Ok (), with_files w (<[blob_path self d x := File ""]> (files w)))).
  { by destruct (files w !! blob_path self d x) as [[]|]. }
  rewrite Hopen. cbv beta iota zeta.
  rewrite bind_eq, write_eq. unfold with_files. cbn [files logged printed].
  rewrite lookup_insert_eq. cbv beta iota zeta. cbn [files logged printed].
  rewrite insert_insert_eq, str_app_nil_l.
  rewrite write_eq. cbn [files logged printed].
  rewrite lookup_insert_ne by (by apply not_eq_sym, (record_not_blob root cwd)).
  by rewrite Hrec.
Qed.

Lemma commit_loop_ok (d : string) (l : list string) :
  is_name d →
  ∀ (w : world) (c : string),
    files w !! record_path self d = Some (File c) →
    files w !! blob_dir self d = Some Dir →
    (∀ x, files w !! blob_path self d (SHA1 x) ≠ Some Dir) →
    (∀ f, f ∈ l → contains ".easygit" f = false ∧ ∃ cf, files w !! f = Some (File cf)) →
    ∃ w', for_each l (commit_file self d (record_path self d)) w = (Ok (), w').
Proof.
  intros Hd. induction l as [|f l IH]; intros w c Hrec Hdir Hblob Hl.
  - by eexists.
  - destruct (Hl f) as [Hout [cf Hf]]; [by left|].
    cbn [for_each]. rewrite bind_eq.
    rewrite (commit_file_ok d f cf c w Hd Hf Hout Hrec Hdir (Hblob _)).
    cbv beta iota zeta.
    set (x := SHA1 (f +:+ universal_newlines cf)).
    assert (Hx : is_name x) by apply SHA1_is_name.
    eapply IH; cbn [with_files files].
    + by rewrite lookup_insert_eq.
    + rewrite lookup_insert_ne by (by apply (record_not_blob_dir root cwd)).
      rewrite lookup_insert_ne
        by (by apply not_eq_sym, (blob_dir_not_blob root cwd)).
      exact Hdir.
    + intros y.
      rewrite lookup_insert_ne
        by (apply (record_not_blob root cwd); [done|done|apply SHA1_is_name]).
      destruct (decide (blob_path self d x = blob_path self d (SHA1 y))) as [<-|Hne].
      * by rewrite lookup_insert_eq.
      * rewrite lookup_insert_ne by done. apply Hblob.
    + intros g Hg. destruct (Hl g) as [Hgo [cg Hcg]]; [by right|].
      split; [done|]. exists cg.
      rewrite lookup_insert_ne
        by (by apply not_eq_sym, (outside_not_record root cwd)).
      rewrite lookup_insert_ne
        by (by apply not_eq_sym, (outside_not_blob root cwd)).
      exact Hcg.
Qed.

Lemma commit_tail_ok (message : list string) (d h : string) (l : list string) (w : world) :
  is_name d →
  files w !! commitFolderPath self = Some Dir →
  files w !! changeFolderPath self = Some Dir →
  files w !! blob_dir self d = None →
  files w !! record_path self d ≠ Some Dir →
  (∀ x, files w !! blob_path self d (SHA1 x) = None) →
  (∀ f, f ∈ l → contains ".easygit" f = false ∧ ∃ cf, files w !! f = Some (File cf)) →
  ∃ w', commit_tail self message d h l w = (Ok (), w').
Proof.
  intros Hd Hcf Hch Hbd Hrec Hblob Hl. unfold commit_tail.
  rewrite bind_eq, mkdir_eq, Hbd, (dirname_blob_dir root cwd d Hd), Hch.
  cbv beta iota zeta.
  rewrite bind_eq, open_w_ok; unfold with_files; cbn [files logged printed].
  2:{ by rewrite lookup_insert_ne
        by (by apply not_eq_sym, (record_not_blob_dir root cwd)). }
  2:{ rewrite (dirname_record root cwd d Hd), lookup_insert_ne; [done|].
      intros H. rewrite <- H, Hbd in Hcf. done. }
  cbv beta iota zeta.
  rewrite bind_eq, write_eq. unfold with_files. cbn [files logged printed].
  rewrite lookup_insert_eq. cbv beta iota zeta.
  rewrite bind_eq, write_eq. cbn [files logged printed].
  rewrite lookup_insert_eq. cbv beta iota zeta.
  eapply (commit_loop_ok d l Hd); unfold with_files; cbn [files].
  - by rewrite lookup_insert_eq.
  - rewrite !lookup_insert_ne by (by apply (record_not_blob_dir root cwd)).
    by rewrite lookup_insert_eq.
  - intros x. rewrite !lookup_insert_ne
      by (apply (record_not_blob root cwd); [done|done|apply SHA1_is_name]).
    rewrite lookup_insert_ne
      by (apply (blob_dir_not_blob root cwd); [done|done|apply SHA1_is_name]).
    by rewrite Hblob.
  - intros f Hf. destruct (Hl f Hf) as [Hout [cf Hcf']]. split; [done|]. exists cf.
    rewrite !lookup_insert_ne by (by apply not_eq_sym, (outside_not_record root cwd)).
    rewrite lookup_insert_ne by (by apply not_eq_sym, (outside_not_blob_dir root cwd)).
    exact Hcf'.
Qed.

Lemma commit_runs (message : list string) (now s h : string) (w : world) :
  let d := SHA1 (now +:+ stagingFilePath self) in
  files w !! stagingFilePath self = Some (File s) →
  files w !! headFile self = Some (File h) →
  files w !! commitFolderPath self = Some Dir →
  files w !! changeFolderPath self = Some Dir →
  files w !! blob_dir self d = None →
  (∀ x, files w !! blob_path self d (SHA1 x) = None) →
  files w !! record_path self d ≠ Some Dir →
  (∀ f, f ∈ elements (add_lines ∅ (universal_newlines s)) →
        contains ".easygit" f = false ∧ ∃ cf, files w !! f = Some (File cf)) →
  ∃ w', commit self message now w = (Ok (), w').
Proof.
  intros d Hs Hh Hcf Hch Hbd Hblob Hrec Hl.
  pose proof (SHA1_is_name (now +:+ stagingFilePath self)) as Hd. fold d in Hd.
  rewrite (commit_enter _ message now s h w Hs Hh) by (by rewrite dirname_head).
  cbv zeta. fold d.
  apply commit_tail_ok; cbn [files]; try done.
  - rewrite lookup_insert_ne; [done|]. intros H. rewrite <- H, Hh in Hcf. done.
  - rewrite lookup_insert_ne; [done|]. intros H. rewrite <- H, Hh in Hch. done.
  - rewrite lookup_insert_ne by (by apply (head_not_blob_dir root cwd)). done.
  - rewrite lookup_insert_ne; [done|].
    apply not_eq_sym, (record_not_head root cwd); [done|apply SHA1_not_HEAD].
  - intros x. rewrite lookup_insert_ne; [done|].
    apply (head_not_blob root cwd); [done|apply SHA1_is_name].
  - intros f Hf. destruct (Hl f Hf) as [Hout [cf Hf']]. split; [done|]. exists cf.
    rewrite lookup_insert_ne; [done|].
    by apply not_eq_sym, (outside_not_head root cwd).
Qed.

End run.

End CommitRunFacts.

(** ** The walk of [getAllChildFiles] *)

Module TreeFacts.
Import PyStr OS FS EasyGit Spec Frame.
Import PyStrFacts PathFacts OSFacts StagingFacts WalkFacts.

Lemma walk_reaches (fs : gmap string node) (n : nat) :
  ∀ d p, p ∈ walk n fs d → reaches fs d p.
Proof.
  induction n as [|k IH]; intros d p; cbn [walk];
    intros (name & Hp & Hname)%list_elem_of_bind; cbv zeta in Hp.
  - destruct (isfile fs (PosixPath.join d name)) eqn:Hf.
    + apply list_elem_of_singleton in Hp as ->. by apply reaches_file.
    + destruct (isdir fs _ && negb _); by apply elem_of_nil in Hp.
  - destruct (isfile fs (PosixPath.join d name)) eqn:Hf.
    + apply list_elem_of_singleton in Hp as ->. by apply reaches_file.
    + destruct (isdir fs (PosixPath.join d name)) eqn:Hd; cbn [andb] in Hp;
        [|by apply elem_of_nil in Hp].
      destruct (bool_decide (PosixPath.join d name = PosixPath.join d ".easygit")) eqn:He;
        cbn [negb] in Hp; [by apply elem_of_nil in Hp|].
      apply bool_decide_eq_false in He.
      eapply reaches_dir; [done..|]. by apply IH.
Qed.

Lemma reaches_walk (fs : gmap string node) (d p : string) :
  reaches fs d p → ∃ n, p ∈ walk n fs d.
Proof.
  induction 1 as [d name Hname Hf|d name p Hname Hf Hd Hne _ [n IH]].
  - exists O. cbn [walk]. apply list_elem_of_bind. exists name. split; [|done].
    cbv zeta. rewrite Hf. by apply list_elem_of_singleton.
  - exists (S n). cbn [walk]. apply list_elem_of_bind. exists name. split; [|done].
    cbv zeta. rewrite Hf, Hd. rewrite bool_decide_eq_false_2 by done. exact IH.
Qed.

Lemma walk_all (fs : gmap string node) (d p : string) (n : nat) :
  p ∈ walk n fs d → p ∈ walk (S (longest fs)) fs d.
Proof.
  intros Hp. rewrite <- (walk_enough fs d n).
  apply (walk_mono fs fs (reflexivity _) n); [lia|done].
Qed.

Lemma walk_iff_reaches (fs : gmap string node) (d p : string) :
  p ∈ walk (S (longest fs)) fs d ↔ reaches fs d p.
Proof.
  split; [apply walk_reaches|].
  intros [n Hn]%reaches_walk. by apply (walk_all fs d p n).
Qed.

Lemma reaches_isfile (fs : gmap string node) (d p : string) :
  reaches fs d p → isfile fs p = true.
Proof. induction 1; done. Qed.

End TreeFacts.

(** ** The loop of [restore] *)

Module ReplayFacts.
Import PyStr OS FS EasyGit Spec Frame.
Import PyStrFacts Sha1Facts PathFacts OSFacts StagingFacts LayoutFacts.
Import DirFacts RestoreFacts.
Local Open Scope Z_scope.

Section loop.
Variables root cwd : string.
Local Abbreviation self := (easyGit_at root cwd).



End loop.






End ReplayFacts.

(** ** [os.path.normpath] and [os.path.dirname] do not lengthen a path *)

Module NormFacts.
Import PyStr PosixPath OS FS Spec.
Import PyStrFacts PathFacts OSFacts DirFacts.

Local Abbreviation wt := (sum_list_with (λ c : string, S (String.length c))).

Lemma split_go_nonempty (sep : string) (k : nat) (s : string) : split_go sep k s ≠ [].
Proof.
  revert k. induction s as [|a r IH]; intros k; [done|].
  cbn [split_go]. destruct k; [|apply IH].
  destruct (startswith sep (String a r)); [done|].
  by destruct (split_go sep 0 r).
Qed.

Lemma split_weight (s : string) : wt (PyStr.split "/" s) = S (String.length s).
Proof.
  unfold PyStr.split. induction s as [|a r IH]; [done|].
  destruct (decide (a = "/"%char)) as [->|Hne].
  - rewrite split_go_cons_eq. cbn [sum_list_with String.length]. by rewrite IH.
  - rewrite split_go_cons_ne by done.
    pose proof (split_go_nonempty "/" 0 r) as Hn.
    destruct (split_go "/" 0 r) as [|h t]; [done|].
    cbn [sum_list_with String.length] in *. lia.
Qed.

Lemma join_length (l : list string) :
  l ≠ [] → S (String.length (PyStr.join "/" l)) = wt l.
Proof.
  induction l as [|x [|y r] IH]; intros Hne; [done| |].
  - cbn. lia.
  - change (PyStr.join "/" (x :: y :: r)) with (x +:+ "/" +:+ PyStr.join "/" (y :: r)).
    rewrite !str_length_app.
    change (wt (x :: y :: r)) with (S (String.length x) + wt (y :: r))%nat.
    rewrite <- IH by done. cbn [String.length]. lia.
Qed.

Lemma wt_rev (l : list string) : wt (rev l) = wt l.
Proof.
  induction l as [|x l IH]; [done|]. cbn [rev]. rewrite sum_list_with_app, IH. cbn. lia.
Qed.

Lemma normpath_comps_weight (i : nat) (comps : list string) :
  ∀ acc, (wt (normpath_comps i comps acc) + length (filter (λ c, c = "") comps)
          ≤ wt comps + wt acc)%nat.
Proof.
  induction comps as [|comp rest IH]; intros acc.
  - cbn [normpath_comps]. rewrite wt_rev. cbn. lia.
  - cbn [normpath_comps].
    destruct (decide (comp = "")) as [->|Hne].
    + rewrite (bool_decide_eq_true_2 ("" = "")) by done. cbn [orb].
      rewrite filter_cons_True by done. specialize (IH acc). cbn [length sum_list_with] in *.
      lia.
    + rewrite (bool_decide_eq_false_2 (comp = "")) by done. cbn [orb].
      rewrite filter_cons_False by done.
      destruct (bool_decide (comp = ".")).
      * specialize (IH acc). cbn [sum_list_with]. lia.
      * match goal with |- context [if ?b then _ else _] => destruct b end.
        -- specialize (IH (comp :: acc)). cbn [sum_list_with] in *. lia.
        -- specialize (IH (tail acc)). assert (wt (tail acc) ≤ wt acc)%nat.
           { destruct acc; cbn; lia. }
           cbn [sum_list_with]. lia.
Qed.

Lemma normpath_length (q : string) :
  startswith "/" q = true → (String.length (normpath q) ≤ String.length q)%nat.
Proof.
  intros Hq. destruct q as [|a r]; [done|].
  cbn [startswith] in Hq. rewrite andb_true_r in Hq.
  apply bool_decide_eq_true in Hq. subst a.
  unfold normpath, sep. rewrite bool_decide_eq_false_2 by done.
  change (startswith "/" (String "/" r)) with true. cbv iota.
  set (i := if startswith "//" (String "/" r) && negb (startswith "///" (String "/" r))
            then 2%nat else 1%nat).
  set (comps := normpath_comps i (PyStr.split "/" (String "/" r)) []).
  pose proof (normpath_comps_weight i (PyStr.split "/" (String "/" r)) []) as Hw.
  fold comps in Hw. rewrite split_weight in Hw. cbn [sum_list_with] in Hw.
  assert (Hi : (i = 1 ∨ i = 2)%nat) by (unfold i; destruct (_ && _); auto).
  assert (HE : (i ≤ length (filter (λ c, c = "") (PyStr.split "/" (String "/" r))))%nat
               ∧ (i ≤ String.length (String "/" r))%nat).
  { unfold i. unfold PyStr.split. rewrite split_go_cons_eq.
    rewrite filter_cons_True by done.
    destruct (startswith "//" (String "/" r) && negb (startswith "///" (String "/" r)))
      eqn:H2; [|cbn; lia].
    apply andb_true_iff in H2 as [H2 _].
    destruct r as [|b r']; [done|]. cbn [startswith] in H2.
    rewrite (bool_decide_eq_true_2 ("/"%char = "/"%char)) in H2 by done.
    cbn [andb] in H2. rewrite andb_true_r in H2. apply bool_decide_eq_true in H2. subst b.
    rewrite split_go_cons_eq, filter_cons_True by done. cbn. lia. }
  destruct HE as [HE Hlen].
  assert (Hj : (i + String.length (PyStr.join "/" comps) ≤ String.length (String "/" r))%nat).
  { destruct (decide (comps = [])) as [->|Hne]; [cbn [PyStr.join String.length] in *; lia|].
    pose proof (join_length comps Hne). lia. }
  destruct Hi as [-> | ->].
  - cbv iota. rewrite bool_decide_eq_false_2 by (by rewrite str_app_cons).
    rewrite str_length_app. cbn [String.length] in *. lia.
  - cbv iota. rewrite bool_decide_eq_false_2 by (by rewrite str_app_cons).
    rewrite str_length_app. cbn [String.length] in *. lia.
Qed.

Lemma normpath_absolute (q : string) :
  startswith "/" q = true → startswith "/" (normpath q) = true.
Proof.
  intros Hq. unfold normpath, sep. destruct q as [|a r]; [done|].
  rewrite bool_decide_eq_false_2 by done. rewrite Hq.
  destruct (startswith "//" (String a r) && negb (startswith "///" (String a r)));
    rewrite bool_decide_eq_false_2 by (by rewrite str_app_cons);
    by rewrite str_app_cons.
Qed.

Lemma rstrip_prefix (c : ascii) (s : string) : ∃ u, s = rstrip c s +:+ u.
Proof.
  induction s as [|a r [u IH]]; [by exists ""|]. cbn [rstrip].
  destruct (bool_decide (a = c) && bool_decide (rstrip c r = "")).
  - exists (String a r). by rewrite str_app_nil_l.
  - exists u. by rewrite str_app_cons, <- IH.
Qed.

Lemma dirname_prefix (p : string) : ∃ u, p = dirname p +:+ u.
Proof.
  unfold dirname, split. pose proof (rsplit_app p) as Hp.
  destruct (rsplit p) as [h t]. cbn [fst snd] in Hp.
  destruct (negb _ && negb _); cbn [fst].
  - destruct (rstrip_prefix slash h) as [u Hu]. exists (u +:+ t).
    by rewrite <- str_app_assoc, <- Hu.
  - by exists t.
Qed.

Lemma dirname_shorter (p : string) :
  p ≠ dirname p → (String.length (dirname p) < String.length p)%nat.
Proof.
  intros Hne. destruct (dirname_prefix p) as [u Hu].
  destruct u as [|a u].
  - rewrite str_app_nil_r in Hu. done.
  - rewrite Hu at 2. rewrite str_length_app. cbn [String.length]. lia.
Qed.

Lemma rsplit_absolute (r : string) :
  ∃ h, fst (rsplit (String "/" r)) = String "/" h.
Proof.
  cbn [rsplit]. destruct (rsplit r) as [[|b h] t]; cbn [fst].
  - rewrite bool_decide_eq_true_2 by done. by exists "".
  - by eexists.
Qed.

Lemma dirname_absolute (p : string) :
  startswith "/" p = true → startswith "/" (dirname p) = true.
Proof.
  intros Hp. destruct p as [|a r]; [done|].
  cbn [startswith] in Hp. rewrite andb_true_r in Hp.
  apply bool_decide_eq_true in Hp. subst a.
  unfold dirname, split. destruct (rsplit_absolute r) as [h Hh].
  destruct (rsplit (String "/" r)) as [h0 t]. cbn [fst] in Hh. subst h0.
  destruct (negb (bool_decide (String "/" h = "")) && negb (all_slashes (String "/" h)))
    eqn:Hc; cbn [fst]; [|done].
  apply andb_true_iff in Hc as [_ Hall]. apply negb_true_iff in Hall.
  cbn [rstrip]. rewrite (bool_decide_eq_true_2 ("/"%char = slash)) by done. cbn [andb].
  destruct (bool_decide (rstrip slash h = "")) eqn:Hr; [|done].
  apply bool_decide_eq_true, rstrip_nonempty in Hr as [Hr|Hr]; [|done].
  cbn [all_slashes] in Hall. rewrite Hr in Hall.
  by rewrite (bool_decide_eq_true_2 ("/"%char = slash)) in Hall.
Qed.

Lemma abspath_absolute (cwd t : string) :
  startswith "/" cwd = true → startswith "/" (abspath cwd t) = true.
Proof.
  intros Hc. unfold abspath. apply normpath_absolute.
  destruct (startswith sep t) eqn:Ht; [exact Ht|].
  unfold join. rewrite Ht. destruct cwd as [|a c]; [done|].
  cbn [startswith] in Hc. rewrite andb_true_r in Hc.
  destruct (bool_decide (String a c = "") || endswith_char slash (String a c));
    rewrite str_app_cons; cbn [startswith]; by rewrite Hc.
Qed.

Lemma abspath_length (cwd q : string) :
  startswith "/" q = true → (String.length (abspath cwd q) ≤ String.length q)%nat.
Proof.
  intros Hq. unfold abspath. change sep with "/". rewrite Hq. by apply normpath_length.
Qed.

(** The folder that [getRepositoryPath] visits after [p] has a shorter
    name. *)
Lemma climb_shorter (cwd p : string) :
  startswith "/" p = true → p ≠ dirname p →
  (String.length (abspath cwd (dirname p)) < String.length p)%nat.
Proof.
  intros Hp Hne. pose proof (dirname_shorter p Hne).
  pose proof (abspath_length cwd (dirname p) (dirname_absolute p Hp)). lia.
Qed.

End NormFacts.

(** ** The climb of [getRepositoryPath] *)

Module SetupFacts.
Import PyStr OS FS EasyGit Spec Frame Setup.
Import PyStrFacts PathFacts OSFacts StagingFacts DirFacts NormFacts.

Lemma convertToPath_eq (cwd t : string) (w : world) :
  convertToPath cwd t w =
    (Ok (if exists_ (files w) (PosixPath.abspath cwd t)
         then Some (PosixPath.abspath cwd t) else None), w).
Proof.
  unfold convertToPath. cbv zeta. rewrite bind_eq, path_exists_eq. cbv beta iota zeta.
  by destruct (exists_ _ _).
Qed.

Lemma go_None (n : nat) (cwd : string) (w : world) :
  getRepositoryPath_go n cwd None w = (Raise TypeError, w).
Proof. by destruct n. Qed.

Lemma go_missing (n : nat) (cwd t : string) (w : world) :
  files w !! PosixPath.abspath cwd t = None →
  getRepositoryPath_go n cwd (Some t) w = (Raise TypeError, w).
Proof.
  intros H. destruct n; cbn [getRepositoryPath_go convertToPath_opt];
    by rewrite bind_eq, convertToPath_eq, (exists_None _ _ H).
Qed.

Lemma go_step (n : nat) (cwd t : string) (w : world) :
  is_Some (files w !! PosixPath.abspath cwd t) →
  getRepositoryPath_go n cwd (Some t) w =
    let currentFolder := PosixPath.abspath cwd t in
    if isdir (files w) (PosixPath.join currentFolder ".easygit")
    then convertToPath cwd (PosixPath.join currentFolder ".easygit") w
    else if bool_decide (currentFolder = PosixPath.dirname currentFolder)
    then (Ok None, w)
    else match n with
         | S k => getRepositoryPath_go k cwd (Some (PosixPath.dirname currentFolder)) w
         | O => (Ok None, w)
         end.
Proof.
  intros [x Hx]. cbv zeta.
  destruct n; cbn [getRepositoryPath_go convertToPath_opt];
    rewrite bind_eq, convertToPath_eq, (exists_Some _ _ _ Hx); cbv beta iota zeta;
    rewrite bind_eq, path_exists_eq, (exists_Some _ _ _ Hx); cbv beta iota zeta;
    cbn [negb]; rewrite bind_eq; cbn [get_files]; cbv beta iota zeta;
    destruct (isdir _ _); [done| |done|]; by destruct (bool_decide _).
Qed.

Section climb.
Variable cwd : string.
Hypothesis cwd_absolute : startswith "/" cwd = true.

Lemma abspath_nonempty (t : string) : (1 ≤ String.length (PosixPath.abspath cwd t))%nat.
Proof.
  pose proof (abspath_absolute cwd t cwd_absolute) as H.
  destruct (PosixPath.abspath cwd t); [done|cbn; lia].
Qed.

(** More calls than the length of the first folder are never made. *)
Lemma go_enough (n : nat) :
  ∀ (m : nat) (t : string) (w : world),
    (String.length (PosixPath.abspath cwd t) ≤ n)%nat →
    (String.length (PosixPath.abspath cwd t) ≤ m)%nat →
    getRepositoryPath_go n cwd (Some t) w = getRepositoryPath_go m cwd (Some t) w.
Proof.
  induction n as [|k IH]; intros m t w Hn Hm.
  { pose proof (abspath_nonempty t). lia. }
  destruct m as [|j]; [pose proof (abspath_nonempty t); lia|].
  destruct (files w !! PosixPath.abspath cwd t) as [x|] eqn:Hx.
  - rewrite !go_step by (by eexists). cbv zeta.
    destruct (isdir _ _); [done|].
    destruct (bool_decide _) eqn:Hroot; [done|]. apply bool_decide_eq_false in Hroot.
    pose proof (climb_shorter cwd _ (abspath_absolute cwd t cwd_absolute) Hroot).
    apply IH; lia.
  - by rewrite !go_missing.
Qed.

Lemma go_found (w : world) (top : string) (above : list string) :
  ∀ (n : nat) (t : string),
    head (above ++ [top]) = Some (PosixPath.abspath cwd t) →
    climbs cwd (above ++ [top]) →
    Forall (λ p, is_Some (files w !! p)) (above ++ [top]) →
    Forall (λ p, isdir (files w) (PosixPath.join p ".easygit") = false) above →
    isdir (files w) (PosixPath.join top ".easygit") = true →
    (String.length (PosixPath.abspath cwd t) ≤ n)%nat →
    getRepositoryPath_go n cwd (Some t) w
    = convertToPath cwd (PosixPath.join top ".easygit") w.
Proof.
  induction above as [|p above IH]; intros n t Hhead Hclimb Hex Hno Htop Hn.
  - cbn in Hhead. injection Hhead as Hhead.
    apply Forall_cons in Hex as [Hex _].
    rewrite go_step by (by rewrite <- Hhead). cbv zeta. by rewrite <- Hhead, Htop.
  - cbn in Hhead. injection Hhead as Hhead.
    change ((p :: above) ++ [top]) with (p :: (above ++ [top])) in *.
    apply Forall_cons in Hex as [Hp Hex]. apply Forall_cons in Hno as [Hnp Hno].
    destruct (above ++ [top]) as [|q rest] eqn:Hrest; [by destruct above|].
    cbn [climbs] in Hclimb. destruct Hclimb as (Hne & Hq & Hclimb).
    rewrite go_step by (by rewrite <- Hhead). cbv zeta. rewrite <- Hhead, Hnp.
    rewrite bool_decide_eq_false_2 by done.
    pose proof (abspath_absolute cwd t cwd_absolute) as Habs. rewrite <- Hhead in Habs.
    pose proof (climb_shorter cwd p Habs Hne) as Hshort.
    destruct n as [|k]; [rewrite <- Hhead in Hn; lia|].
    apply IH; try done.
    + cbn. by rewrite Hq.
    + rewrite <- Hhead in Hn. lia.
Qed.

Lemma go_none (w : world) (top : string) (above : list string) :
  ∀ (n : nat) (t : string),
    head (above ++ [top]) = Some (PosixPath.abspath cwd t) →
    climbs cwd (above ++ [top]) →
    Forall (λ p, is_Some (files w !! p)) (above ++ [top]) →
    Forall (λ p, isdir (files w) (PosixPath.join p ".easygit") = false) (above ++ [top]) →
    top = PosixPath.dirname top →
    (String.length (PosixPath.abspath cwd t) ≤ n)%nat →
    getRepositoryPath_go n cwd (Some t) w = (Ok None, w).
Proof.
  induction above as [|p above IH]; intros n t Hhead Hclimb Hex Hno Htop Hn.
  - cbn in Hhead. injection Hhead as Hhead.
    apply Forall_cons in Hex as [Hex _]. apply Forall_cons in Hno as [Hno _].
    rewrite go_step by (by rewrite <- Hhead). cbv zeta. rewrite <- Hhead, Hno.
    by rewrite bool_decide_eq_true_2.
  - cbn in Hhead. injection Hhead as Hhead.
    change ((p :: above) ++ [top]) with (p :: (above ++ [top])) in *.
    apply Forall_cons in Hex as [Hp Hex]. apply Forall_cons in Hno as [Hnp Hno].
    destruct (above ++ [top]) as [|q rest] eqn:Hrest; [by destruct above|].
    cbn [climbs] in Hclimb. destruct Hclimb as (Hne & Hq & Hclimb).
    rewrite go_step by (by rewrite <- Hhead). cbv zeta. rewrite <- Hhead, Hnp.
    rewrite bool_decide_eq_false_2 by done.
    pose proof (abspath_absolute cwd t cwd_absolute) as Habs. rewrite <- Hhead in Habs.
    pose proof (climb_shorter cwd p Habs Hne) as Hshort.
    destruct n as [|k]; [rewrite <- Hhead in Hn; lia|].
    apply IH; try done.
    + cbn. by rewrite Hq.
    + rewrite <- Hhead in Hn. lia.
Qed.

End climb.

End SetupFacts.

(** ** The run of [initialization] *)

Module InitFacts.
Import PyStr OS FS EasyGit Spec Frame Setup.
Import PyStrFacts PathFacts OSFacts StagingFacts LayoutFacts DirFacts NormFacts.
Import CommitRunFacts SetupFacts.

Lemma mkdir_ok (p : string) (w : world) :
  files w !! p = None →
  files w !! PosixPath.dirname p = Some Dir →
  mkdir p w = (Ok (), with_files w (<[p := Dir]> (files w))).
Proof. intros Hp Hd. by rewrite mkdir_eq, Hp, Hd. Qed.

Lemma startswith_length (p s : string) :
  startswith p s = true → (String.length p ≤ String.length s)%nat.
Proof.
  revert s. induction p as [|a p IH]; intros s H; [cbn; lia|].
  destruct s as [|b s]; [done|]. cbn [startswith] in H.
  apply andb_true_iff in H as [_ H]. specialize (IH s H). cbn. lia.
Qed.

Lemma under_length (dir q : string) :
  under dir q = true → (String.length dir ≤ String.length q)%nat.
Proof.
  unfold under. intros [H|H]%orb_true_iff.
  - apply bool_decide_eq_true in H. by subst.
  - apply startswith_length in H. rewrite str_length_app in H. lia.
Qed.

Section layout.
Variable cwd : string.
Local Abbreviation R := (PosixPath.join cwd ".easygit").

Lemma R_is : R = (cwd +:+ sep_of cwd) +:+ ".easygit".
Proof. apply (R_eq cwd cwd). Qed.

Lemma cwd_outside : under R cwd = false.
Proof.
  destruct (under R cwd) eqn:H; [|done]. apply under_length in H.
  rewrite R_is, !str_length_app in H. cbn [String.length] in H. lia.
Qed.

Lemma in_repo (n : string) :
  startswith PosixPath.sep n = false → PosixPath.join R n = R +:+ "/" +:+ n.
Proof. apply (join_R cwd cwd). Qed.

Lemma in_sub (a n : string) :
  is_name a → startswith PosixPath.sep n = false →
  PosixPath.join (PosixPath.join R a) n = R +:+ "/" +:+ a +:+ "/" +:+ n.
Proof.
  intros [Ha1 Ha2] Hn. rewrite (in_repo a) by (by apply has_char_startswith).
  rewrite <- !str_app_assoc. rewrite join_name by done. by rewrite !str_app_assoc.
Qed.

Lemma dirname_in_repo (n : string) :
  has_char PosixPath.slash n = false → PosixPath.dirname (PosixPath.join R n) = R.
Proof. intros Hn. rewrite R_is. by apply dirname_join_name. Qed.

Lemma dirname_in_sub (a n : string) :
  is_name a → has_char PosixPath.slash n = false →
  PosixPath.dirname (PosixPath.join (PosixPath.join R a) n) = PosixPath.join R a.
Proof.
  intros [Ha1 Ha2] Hn. rewrite (in_repo a) by (by apply has_char_startswith).
  rewrite <- !str_app_assoc. by apply dirname_join_name.
Qed.

Lemma under_repo (s : string) : under R (R +:+ "/" +:+ s) = true.
Proof.
  unfold under. rewrite <- str_app_assoc, startswith_app. by rewrite orb_true_r.
Qed.

Lemma under_self : under R R = true.
Proof. unfold under. by rewrite bool_decide_eq_true_2. Qed.

End layout.

(** Paths with the same front and different literal ends. *)
Ltac differ :=
  let H := fresh in
  intros H;
  rewrite ?in_sub, ?in_repo in H by done;
  repeat match type of H with
         | ?r = ?r +:+ _ => rewrite <- (str_app_nil_r r) in H at 1
         | ?r +:+ _ = ?r => rewrite <- (str_app_nil_r r) in H at 2
         end;
  apply String.app_inj in H; cbv [String.append] in H; discriminate H.

Section create.
Variable cwd : string.
Local Abbreviation R := (PosixPath.join cwd ".easygit").

Lemma create_layout (w : world) :
  files w !! PosixPath.dirname (PosixPath.join cwd ".easygit") = Some Dir →
  (∀ q, under (PosixPath.join cwd ".easygit") q = true → files w !! q = None) →
  let repoFolderPath := PosixPath.join cwd ".easygit" in
  let changesFolderPath := PosixPath.join repoFolderPath "changes" in
  let commitFolderPath := PosixPath.join repoFolderPath "commit" in
  let logFolderPath := PosixPath.join repoFolderPath "log" in
  let configFile := PosixPath.join repoFolderPath "config.ini" in
  (for_each [repoFolderPath; changesFolderPath; commitFolderPath; logFolderPath] mkdir ;;
   open_w configFile ;;
   write configFile config_text ;;
   for_each [PosixPath.join commitFolderPath "HEAD";
             PosixPath.join logFolderPath "log.log"] open_w) w
  = (Ok (), with_files w (init_files cwd (files w))).
Proof.
  intros Hparent Hfresh. cbv zeta.
  assert (Hn : ∀ s, files w !! (R +:+ "/" +:+ s) = None).
  { intros s. apply Hfresh, under_repo. }
  assert (H0 : files w !! R = None) by apply Hfresh, under_self.
  assert (Hc1 : files w !! PosixPath.join R "changes" = None)
    by (rewrite in_repo by done; apply Hn).
  assert (Hc2 : files w !! PosixPath.join R "commit" = None)
    by (rewrite in_repo by done; apply Hn).
  assert (Hc3 : files w !! PosixPath.join R "log" = None)
    by (rewrite in_repo by done; apply Hn).
  assert (Hc4 : files w !! PosixPath.join R "config.ini" = None)
    by (rewrite in_repo by done; apply Hn).
  assert (Hc5 : files w !! PosixPath.join (PosixPath.join R "commit") "HEAD" = None)
    by (rewrite in_sub by done; apply Hn).
  assert (Hc6 : files w !! PosixPath.join (PosixPath.join R "log") "log.log" = None)
    by (rewrite in_sub by done; apply Hn).
  cbn [for_each].
  rewrite !bind_eq.
  rewrite (mkdir_ok R w H0 Hparent). cbv beta iota zeta.
  rewrite !bind_eq.
  rewrite mkdir_ok; unfold with_files; cbn [files logged printed];
    [|by rewrite lookup_insert_ne by (done || differ)
     |by rewrite dirname_in_repo, lookup_insert_eq].
  cbv beta iota zeta. rewrite !bind_eq.
  rewrite mkdir_ok; unfold with_files; cbn [files logged printed];
    [|by rewrite !lookup_insert_ne by (done || differ)
     |by rewrite dirname_in_repo, lookup_insert_ne, lookup_insert_eq by (done || differ)].
  cbv beta iota zeta. rewrite !bind_eq.
  rewrite mkdir_ok; unfold with_files; cbn [files logged printed];
    [|by rewrite !lookup_insert_ne by (done || differ)
     |by rewrite dirname_in_repo, !lookup_insert_ne, lookup_insert_eq by (done || differ)].
  cbv beta iota zeta. cbn [ret]. cbv beta iota zeta. rewrite !bind_eq.
  rewrite open_w_ok; unfold with_files; cbn [files logged printed];
    [|rewrite !lookup_insert_ne by (done || differ); by rewrite Hc4
     |by rewrite dirname_in_repo, !lookup_insert_ne, lookup_insert_eq by (done || differ)].
  cbv beta iota zeta. rewrite !bind_eq.
  rewrite write_eq. cbn [files logged printed]. rewrite lookup_insert_eq.
  cbv beta iota zeta. unfold with_files. cbn [files logged printed].
  rewrite insert_insert_eq, str_app_nil_l. rewrite !bind_eq.
  rewrite open_w_ok; unfold with_files; cbn [files logged printed];
    [|rewrite !lookup_insert_ne by (done || differ); by rewrite Hc5
     |by rewrite dirname_in_sub, !lookup_insert_ne, lookup_insert_eq by (done || differ)].
  cbv beta iota zeta. rewrite !bind_eq.
  rewrite open_w_ok; unfold with_files; cbn [files logged printed];
    [|rewrite !lookup_insert_ne by (done || differ); by rewrite Hc6
     |by rewrite dirname_in_sub, !lookup_insert_ne, lookup_insert_eq by (done || differ)].
  reflexivity.
Qed.

Lemma init_files_outside (fs : gmap string node) (q : string) :
  under R q = false → init_files cwd fs !! q = fs !! q.
Proof.
  intros Hq. unfold init_files. cbv zeta.
  assert (Hne : ∀ p, under R p = true → p ≠ q) by (intros p Hp ->; congruence).
  rewrite !lookup_insert_ne; [done|apply Hne..].
  - apply under_self.
  - rewrite in_repo by done. apply under_repo.
  - rewrite in_repo by done. apply under_repo.
  - rewrite in_repo by done. apply under_repo.
  - rewrite in_repo by done. apply under_repo.
  - rewrite in_sub by done. apply under_repo.
  - rewrite in_sub by done. apply under_repo.
Qed.

Lemma init_files_layout (fs : gmap string node) :
  let self := easyGit_at cwd cwd in
  fs !! stagingFilePath self = None →
  init_files cwd fs !! repoPath self = Some Dir
  ∧ init_files cwd fs !! commitFolderPath self = Some Dir
  ∧ init_files cwd fs !! changeFolderPath self = Some Dir
  ∧ init_files cwd fs !! headFile self = Some (File "")
  ∧ init_files cwd fs !! logFile self = Some (File "")
  ∧ init_files cwd fs !! stagingFilePath self = None.
Proof.
  intros self Hs. subst self. unfold init_files. cbv zeta.
  change (repoPath (easyGit_at cwd cwd)) with R.
  change (commitFolderPath (easyGit_at cwd cwd)) with (PosixPath.join R "commit").
  change (changeFolderPath (easyGit_at cwd cwd)) with (PosixPath.join R "changes").
  change (headFile (easyGit_at cwd cwd))
    with (PosixPath.join (PosixPath.join R "commit") "HEAD").
  change (logFile (easyGit_at cwd cwd))
    with (PosixPath.join (PosixPath.join R "log") "log.log").
  unfold stagingFilePath in *.
  change (repoPath (easyGit_at cwd cwd)) with R in *.
  repeat split.
  - by rewrite !lookup_insert_ne, lookup_insert_eq by (done || differ).
  - by rewrite !lookup_insert_ne, lookup_insert_eq by (done || differ).
  - by rewrite !lookup_insert_ne, lookup_insert_eq by (done || differ).
  - by rewrite !lookup_insert_ne, lookup_insert_eq by (done || differ).
  - by rewrite lookup_insert_eq.
  - by rewrite !lookup_insert_ne by (done || differ).
Qed.

End create.

Lemma init_enter (cwd : string) (w : world) :
  PosixPath.abspath cwd cwd = cwd →
  is_Some (files w !! cwd) →
  getRepositoryPath cwd (Some cwd) w = (Ok None, w) →
  initialization cwd w
  = (let repoFolderPath := PosixPath.join cwd ".easygit" in
     let changesFolderPath := PosixPath.join repoFolderPath "changes" in
     let commitFolderPath := PosixPath.join repoFolderPath "commit" in
     let logFolderPath := PosixPath.join repoFolderPath "log" in
     let configFile := PosixPath.join repoFolderPath "config.ini" in
     for_each [repoFolderPath; changesFolderPath; commitFolderPath; logFolderPath] mkdir ;;
     open_w configFile ;;
     write configFile config_text ;;
     for_each [PosixPath.join commitFolderPath "HEAD";
               PosixPath.join logFolderPath "log.log"] open_w) w.
Proof.
  intros Hself [x Hx] Hnone. unfold initialization.
  rewrite bind_eq, convertToPath_eq, Hself, (exists_Some _ _ _ Hx). cbv beta iota zeta.
  by rewrite bind_eq, Hnone.
Qed.

End InitFacts.

(** ** From [initialization] to the first commit *)

Module JourneyFacts.
Import PyStr OS FS EasyGit Spec Frame Setup.
Import PyStrFacts Sha1Facts PathFacts OSFacts StagingFacts WalkFacts LayoutFacts.
Import DirFacts NormFacts CommitRunFacts TreeFacts SetupFacts InitFacts.

Ltac differs :=
  let H := fresh in
  intros H; apply String.app_inj in H; cbv [String.append] in H;
  (discriminate H || (injection H; done)).

Section fresh.
Variable cwd : string.
Variable fs : gmap string node.
Local Abbreviation self := (easyGit_at cwd cwd).
Local Abbreviation R := (PosixPath.join cwd ".easygit").
Hypothesis fresh : ∀ q, under R q = true → fs !! q = None.

Lemma init_files_forms :
  init_files cwd fs =
  <[R +:+ "/log/log.log" := File ""]>
    (<[R +:+ "/commit/HEAD" := File ""]>
       (<[R +:+ "/config.ini" := File config_text]>
          (<[R +:+ "/log" := Dir]>
             (<[R +:+ "/commit" := Dir]>
                (<[R +:+ "/changes" := Dir]>
                   (<[R +:+ "" := Dir]> fs)))))).
Proof.
  unfold init_files. cbv zeta. rewrite !in_sub, !in_repo by done.
  by rewrite str_app_nil_r.
Qed.

Lemma init_files_new (t : string) :
  t ∉ ["/log/log.log"; "/commit/HEAD"; "/config.ini"; "/log"; "/commit"; "/changes"; ""] →
  under R (R +:+ t) = true →
  init_files cwd fs !! (R +:+ t) = None.
Proof.
  intros Ht Hu. rewrite init_files_forms.
  rewrite !lookup_insert_ne; [by apply fresh|..];
    intros H'; apply String.app_inj in H'; subst t; apply Ht;
    repeat (first [by left|right]).
Qed.

Lemma init_files_blob_dir (d : string) :
  is_name d → init_files cwd fs !! blob_dir self d = None.
Proof.
  intros Hd. rewrite (blob_dir_at cwd cwd) by (by apply is_name_relative).
  change (repoPath self) with R.
  apply init_files_new.
  - intros Hin. repeat (apply elem_of_cons in Hin as [Hin|Hin];
                        [cbv [String.append] in Hin; discriminate Hin|]).
    by apply elem_of_nil in Hin.
  - change ("/changes/" +:+ d) with ("/" +:+ "changes/" +:+ d). apply under_repo.
Qed.

Lemma init_files_blob (d x : string) :
  is_name d → is_name x → init_files cwd fs !! blob_path self d x = None.
Proof.
  intros Hd Hx. rewrite (blob_path_at cwd cwd) by (done || by apply is_name_relative).
  change (repoPath self) with R.
  apply init_files_new.
  - intros Hin. repeat (apply elem_of_cons in Hin as [Hin|Hin];
                        [cbv [String.append] in Hin; discriminate Hin|]).
    by apply elem_of_nil in Hin.
  - change ("/changes/" +:+ d +:+ "/" +:+ x) with ("/" +:+ "changes/" +:+ d +:+ "/" +:+ x).
    apply under_repo.
Qed.

Lemma init_files_record (d : string) :
  is_name d → d ≠ "HEAD" → init_files cwd fs !! record_path self d = None.
Proof.
  intros Hd Hne. rewrite (record_path_at cwd cwd) by (by apply is_name_relative).
  change (repoPath self) with R.
  apply init_files_new.
  - intros Hin. repeat (apply elem_of_cons in Hin as [Hin|Hin];
                        [cbv [String.append] in Hin;
                         first [discriminate Hin|by injection Hin]|]).
    by apply elem_of_nil in Hin.
  - change ("/commit/" +:+ d) with ("/" +:+ "commit/" +:+ d). apply under_repo.
Qed.

End fresh.

End JourneyFacts.

(** ** Resolving the names again once the staging file is written *)

Module AgainFacts.
Import PyStr OS FS EasyGit Spec Frame.
Import PyStrFacts PathFacts OSFacts StagingFacts WalkFacts LayoutFacts.
Import DirFacts CommitRunFacts TreeFacts.

Lemma listdir_elem (fs : gmap string node) (d name : string) :
  name ∈ listdir fs d ↔
  ∃ key, is_Some (fs !! key) ∧ PosixPath.dirname key = d
         ∧ PosixPath.basename key = name ∧ name ≠ "".
Proof.
  unfold listdir. rewrite list_elem_of_omap. split.
  - intros (key & Hk & Hn). exists key.
    apply elem_of_elements, elem_of_dom in Hk.
    destruct (bool_decide (PosixPath.dirname key = d)) eqn:Hd; [|done].
    destruct (bool_decide (PosixPath.basename key = "")) eqn:Hb; [done|].
    cbn in Hn. injection Hn as <-.
    apply bool_decide_eq_true in Hd. apply bool_decide_eq_false in Hb. done.
  - intros (key & Hk & Hd & Hb & Hne). exists key. split.
    + by apply elem_of_elements, elem_of_dom.
    + rewrite bool_decide_eq_true_2 by done.
      rewrite bool_decide_eq_false_2 by (by rewrite Hb). cbn. by rewrite Hb.
Qed.

Section again.
Variables root cwd : string.
Local Abbreviation self := (easyGit_at root cwd).
Variable fs : gmap string node.
Variable c : string.
Hypothesis not_dir : fs !! stagingFilePath self ≠ Some Dir.
Local Abbreviation fs1 := (<[stagingFilePath self := File c]> fs).

Lemma basename_staging : PosixPath.basename (stagingFilePath self) = "stagingCache".
Proof.
  unfold PosixPath.basename. rewrite split_snd.
  rewrite (stagingFilePath_at root cwd).
  change "/stagingCache" with ("/" +:+ "stagingCache").
  by rewrite rsplit_name.
Qed.

Lemma isfile_again (p : string) :
  p ≠ stagingFilePath self → isfile fs1 p = isfile fs p.
Proof. intros Hp. unfold isfile. by rewrite lookup_insert_ne. Qed.

Lemma isdir_again (p : string) : isdir fs1 p = isdir fs p.
Proof.
  unfold isdir. destruct (decide (p = stagingFilePath self)) as [->|Hp].
  - rewrite lookup_insert_eq. rewrite !bool_decide_eq_false_2; done.
  - by rewrite lookup_insert_ne.
Qed.

Lemma exists_again (p : string) :
  p ≠ stagingFilePath self → exists_ fs1 p = exists_ fs p.
Proof. intros Hp. unfold exists_. by rewrite lookup_insert_ne. Qed.

Lemma listdir_again (d name : string) :
  name ∈ listdir fs1 d →
  PosixPath.join d name = stagingFilePath self ∨ name ∈ listdir fs d.
Proof.
  rewrite !listdir_elem. intros (key & Hk & Hd & Hb & Hne).
  destruct (decide (key = stagingFilePath self)) as [->|Hkey].
  - left. rewrite <- Hd, <- Hb, (dirname_staging root cwd), basename_staging. done.
  - right. exists key. by rewrite lookup_insert_ne in Hk.
Qed.

Lemma listdir_grows (d name : string) : name ∈ listdir fs d → name ∈ listdir fs1 d.
Proof.
  rewrite !listdir_elem. intros (key & Hk & Hrest). exists key. split; [|done].
  destruct (decide (key = stagingFilePath self)) as [->|Hkey].
  - rewrite lookup_insert_eq. by eexists.
  - by rewrite lookup_insert_ne.
Qed.

Lemma reaches_again (d p : string) :
  p ≠ stagingFilePath self → reaches fs1 d p → reaches fs d p.
Proof.
  intros Hp Hr. induction Hr as [d name Hname Hf|d name p Hname Hf Hd Hne Hr IH].
  - destruct (listdir_again _ _ Hname) as [Heq|Hin]; [done|].
    apply reaches_file; [done|]. by rewrite <- isfile_again.
  - rewrite isdir_again in Hd.
    assert (Hitem : PosixPath.join d name ≠ stagingFilePath self).
    { intros Heq. rewrite Heq in Hd. unfold isdir in Hd.
      by apply bool_decide_eq_true in Hd. }
    destruct (listdir_again _ _ Hname) as [Heq|Hin]; [done|].
    apply (reaches_dir fs d name p); try done.
    + by rewrite <- isfile_again.
    + by apply IH.
Qed.

Lemma reaches_grows (d p : string) : reaches fs d p → reaches fs1 d p.
Proof.
  intros Hr. induction Hr as [d name Hname Hf|d name p Hname Hf Hd Hne Hr IH].
  - apply reaches_file; [by apply listdir_grows|].
    unfold isfile in *. destruct (decide (PosixPath.join d name = stagingFilePath self))
      as [->|Hne]; [by rewrite lookup_insert_eq|by rewrite lookup_insert_ne].
  - assert (Hitem : PosixPath.join d name ≠ stagingFilePath self).
    { intros Heq. rewrite Heq in Hd. unfold isdir in Hd.
      by apply bool_decide_eq_true in Hd. }
    apply (reaches_dir fs1 d name p); try done.
    + by apply listdir_grows.
    + by rewrite isfile_again.
    + by rewrite isdir_again.
Qed.

Lemma paths_of_again (targets : list string) (p : string) :
  p ≠ stagingFilePath self →
  p ∈ paths_of self fs1 targets ↔ p ∈ paths_of self fs targets.
Proof.
  intros Hp. unfold paths_of. destruct (bool_decide ("." ∈ targets)).
  - rewrite !walk_iff_reaches. split; [by apply reaches_again|apply reaches_grows].
  - unfold resolved_names. rewrite !list_elem_of_omap.
    split; intros (n & Hn & Hres); exists n; (split; [done|]); cbv zeta in *.
    + destruct (exists_ fs1 _) eqn:He; [|done]. injection Hres as <-.
      by rewrite <- exists_again, He.
    + destruct (exists_ fs _) eqn:He; [|done]. injection Hres as <-.
      by rewrite exists_again, He.
Qed.

End again.

(** What [add] persists. *)
Lemma add_staged (self : easyGit) (targets : list string) (w : world) :
  files w !! PosixPath.dirname (stagingFilePath self) = Some Dir →
  files w !! stagingFilePath self ≠ Some Dir →
  (∀ b, files w !! stagingFilePath self ≠ Some (Binary b)) →
  Forall single_line (filter (λ f, contains ".easygit" f = false)
                             (elements (merged self (files w) targets))) →
  ∃ lg, add self targets w
        = (Ok (), World (<[stagingFilePath self :=
                            File (entries (filter (λ f, contains ".easygit" f = false)
                                             (elements (merged self (files w) targets))))]>
                           (files w)) lg (printed w))
    ∧ staged self (<[stagingFilePath self :=
                       File (entries (filter (λ f, contains ".easygit" f = false)
                                        (elements (merged self (files w) targets))))]>
                     (files w))
      = Some (filter (λ f, contains ".easygit" f = false) (merged self (files w) targets)).
Proof.
  intros Hdir Hnd Hnb Hsingle. destruct (add_eq self targets w Hdir Hnd Hnb) as [lg Hrun].
  exists lg. split; [exact Hrun|].
  rewrite staged_of_lines, staged_lines_written by done.
  cbn [fmap option_fmap option_map]. by rewrite list_to_set_filter_elements.
Qed.

End AgainFacts.

(** ** A staged file that cannot be decoded *)

Module DecodeFacts.
Import PyStr OS FS EasyGit Spec Frame.
Import PyStrFacts Sha1Facts PathFacts OSFacts StagingFacts LayoutFacts CommitFacts.
Import FrameFacts DirFacts CommitRunFacts.
Local Open Scope Z_scope.

Section stops.
Variables root cwd : string.
Local Abbreviation self := (easyGit_at root cwd).




End stops.

End DecodeFacts.

(** * Properties of the repository operations *)

Import PyStr OS FS EasyGit Spec.
Import PyStrFacts Sha1Facts PathFacts OSFacts SearchFacts StatusFacts StagingFacts.
Import LayoutFacts CommitFacts.

(** ** Missing state: nothing is written *)

(** C9. When there is no staging file, [commit] logs an error and returns:
    the files are as before (no [HEAD] update, no blob directory, no commit
    record). *)
Theorem commit_without_staging_no_write
    (self : easyGit) (message : list string) (now : string) (w : world) :
  files w !! stagingFilePath self = None →
  commit self message now w =
    (Ok (), World (files w)
              (logged w ++ [(DEBUG, "function commit executed");
                            (ERROR, "staging file not found")])
              (printed w)).
Proof.
  intros H. unfold commit.
  rewrite bind_eq, log_eq. cbv beta iota zeta.
  rewrite bind_eq, path_exists_eq. cbv beta iota.
  cbn [files]. rewrite (exists_None _ _ H). cbn [negb].
  rewrite log_eq. cbn [files logged printed]. by rewrite <- (assoc_L (++)).
Qed.

Lemma commit_without_staging_no_write_witness :
  files Scenario.w0 !! stagingFilePath Scenario.self = None ∧
  commit Scenario.self ["first"] Scenario.t1 Scenario.w0 =
    (Ok (), World (files Scenario.w0)
              (logged Scenario.w0 ++ [(DEBUG, "function commit executed");
                                      (ERROR, "staging file not found")])
              (printed Scenario.w0)).
Proof.
  split; [reflexivity|].
  apply (commit_without_staging_no_write Scenario.self ["first"] Scenario.t1 Scenario.w0).
  reflexivity.
Defined.

(** C8. [restore] of a digest that names no commit record logs an error and
    returns: the files are as before and nothing is printed. *)
Theorem restore_unknown_target_no_write
    (self : easyGit) (digest : string) (w : world) :
  files w !! PosixPath.join (commitFolderPath self) digest = None →
  restore self (Some digest) w =
    (Ok (), World (files w)
              (logged w ++ [(DEBUG, "function restore executed");
                            (ERROR, "Target commitment not found, exiting...")])
              (printed w)).
Proof.
  intros H. unfold restore.
  rewrite bind_eq, log_eq. cbv beta iota zeta.
  rewrite bind_eq. unfold ret at 1. cbv beta iota.
  rewrite bind_eq, path_exists_eq. cbv beta iota.
  cbn [files]. rewrite (exists_None _ _ H). cbn [negb].
  rewrite log_eq. cbn [files logged printed]. by rewrite <- (assoc_L (++)).
Qed.

Lemma restore_unknown_target_no_write_witness :
  files Scenario.committed
    !! PosixPath.join (commitFolderPath Scenario.self)
         "deadbeefdeadbeefdeadbeefdeadbeefdeadbeef" = None ∧
  restore Scenario.self (Some "deadbeefdeadbeefdeadbeefdeadbeefdeadbeef") Scenario.committed =
    (Ok (), World (files Scenario.committed)
              (logged Scenario.committed
                 ++ [(DEBUG, "function restore executed");
                     (ERROR, "Target commitment not found, exiting...")])
              (printed Scenario.committed)).
Proof.
  split; [vm_compute; reflexivity|].
  apply (restore_unknown_target_no_write Scenario.self
           "deadbeefdeadbeefdeadbeefdeadbeefdeadbeef" Scenario.committed).
  vm_compute; reflexivity.
Defined.

(** ** The history chain *)

(** C5. Along a chain [ds] of commit records, [search] with [maxDepth] levels
    returns the first [maxDepth] digests of the chain, one per level, and
    stops there with no error (the world, log included, is as before); it
    stops earlier only at a record without parent.  With [maxDepth = 1] on a
    chain of three commits it returns one digest. *)
Theorem search_depth_cap
    (self : easyGit) (w : world) (ds : list string) (d : string)
    (targetSHA : option string) (maxDepth : Z) :
  head ds = Some d →
  linked self (files w) ds →
  match targetSHA with
  | None => ∃ h, files w !! headFile self = Some (File h)
                 ∧ strip LF (universal_newlines h) = d ∧ d ≠ ""
  | Some t => t = d
  end →
  0 < maxDepth →
  maxDepth <= Z.of_nat (length ds)
    ∨ parent_of self (files w) (List.last ds "") = Some "" →
  search self targetSHA 0 maxDepth w = (Ok (Some (take (Z.to_nat maxDepth) ds)), w)
  ∧ length (take (Z.to_nat maxDepth) ds) = Nat.min (Z.to_nat maxDepth) (length ds).
Proof.
  intros Hd Hl Ht Hpos Hstop. split; [|apply length_take].
  by apply (search_chain self w ds d).
Qed.

Lemma search_depth_cap_witness :
  head [Scenario.d3; Scenario.d2; Scenario.d1] = Some Scenario.d3 ∧
  linked Scenario.self (files Scenario.committed3)
    [Scenario.d3; Scenario.d2; Scenario.d1] ∧
  search Scenario.self None 0 1 Scenario.committed3
    = (Ok (Some (take (Z.to_nat 1) [Scenario.d3; Scenario.d2; Scenario.d1])),
       Scenario.committed3).
Proof.
  assert (Hl : linked Scenario.self (files Scenario.committed3)
                 [Scenario.d3; Scenario.d2; Scenario.d1]).
  { repeat split; try (vm_compute; reflexivity); try (vm_compute; discriminate).
    vm_compute. eexists. reflexivity. }
  split; [reflexivity|]. split; [exact Hl|].
  apply (search_depth_cap Scenario.self Scenario.committed3
           [Scenario.d3; Scenario.d2; Scenario.d1] Scenario.d3 None 1).
  - reflexivity.
  - exact Hl.
  - exists Scenario.d3. repeat split; try (vm_compute; reflexivity).
    vm_compute; discriminate.
  - lia.
  - left. simpl. lia.
Defined.

(** C10. With an empty [HEAD] and no target, or with a target that names no
    commit record, [search] returns [None] and [status] raises [TypeError]
    when it subscripts that result; [status] returns normally exactly when
    [search] yields a non-empty sequence. *)
Theorem status_raises_without_history
    (self : easyGit) (targetSHA : option string) (maxDepth : Z) (w : world) :
  let entered := exec (log DEBUG "function status executed") w in
  (match targetSHA with
   | None => ∃ h, files w !! headFile self = Some (File h)
                  ∧ strip LF (universal_newlines h) = ""
   | Some t => files w !! PosixPath.join (commitFolderPath self) t = None
   end →
   ∃ w', search self targetSHA 0 maxDepth entered = (Ok None, w')
         ∧ status self targetSHA maxDepth w = (Raise TypeError, w'))
  ∧ ((∃ w', status self targetSHA maxDepth w = (Ok (), w'))
     ↔ (∃ first rest w1,
          search self targetSHA 0 maxDepth entered = (Ok (Some (first :: rest)), w1))).
Proof.
  intros entered. split.
  - intros H.
    destruct (search_none self targetSHA maxDepth entered) as [lg Hs]; [done|].
    eexists. split; [exact Hs|].
    rewrite status_eq. fold entered. by rewrite Hs.
  - rewrite status_eq. fold entered.
    destruct (search self targetSHA 0 maxDepth entered) as [[[[|first rest]|]|e] w1].
    + split; [by intros [? ?]|by intros (? & ? & ? & ?)].
    + split; [|intros _].
      * intros _. by exists first, rest, w1.
      * rewrite bind_eq, log_eq. cbv beta iota.
        destruct (bool_decide (1 < length (first :: rest))%nat).
        -- destruct (for_each_log rest
                       (World (files w1) (logged w1 ++ [(INFO, first +:+ " <- HEAD")])
                          (printed w1))) as [lg ->].
           by eexists.
        -- by eexists.
    + split; [by intros [? ?]|by intros (? & ? & ? & ?)].
    + split; [by intros [? ?]|by intros (? & ? & ? & ?)].
Qed.

Lemma status_raises_without_history_witness :
  (∃ h, files Scenario.w0 !! headFile Scenario.self = Some (File h)
        ∧ strip LF (universal_newlines h) = "")
  ∧ ∃ w', status Scenario.self None 5 Scenario.w0 = (Raise TypeError, w').
Proof.
  assert (H : ∃ h, files Scenario.w0 !! headFile Scenario.self = Some (File h)
                   ∧ strip LF (universal_newlines h) = "").
  { exists "". split; reflexivity. }
  split; [exact H|].
  destruct (proj1 (status_raises_without_history Scenario.self None 5 Scenario.w0) H)
    as (w' & _ & Hs).
  exists w'. exact Hs.
Defined.

(** ** The staging set *)

(** C2, as the code has it. [add] persists the union of the persisted set and
    the resolved paths, minus the paths that have [".easygit"] somewhere in
    their text; no path under the metadata directory is retained.  The
    previous set is read from the staging file: when that file is not valid
    UTF-8, [add] raises [UnicodeDecodeError] and has written nothing. *)
Theorem add_persists_filtered_union
    (root cwd : string) (targetFilenames : list string) (w : world) :
  let self := easyGit_at root cwd in
  files w !! PosixPath.dirname (stagingFilePath self) = Some Dir →
  files w !! stagingFilePath self ≠ Some Dir →
  Forall single_line (paths_of self (files w) targetFilenames) →
  ((∀ b, files w !! stagingFilePath self ≠ Some (Binary b)) →
   ∃ w', add self targetFilenames w = (Ok (), w')
     ∧ staged self (files w')
       = Some (filter (λ p, contains ".easygit" p = false)
                      (list_to_set (paths_of self (files w) targetFilenames)
                         ∪ default ∅ (staged self (files w))))
     ∧ ∀ S p, staged self (files w') = Some S → under (repoPath self) p = true → p ∉ S)
  ∧ (∀ b, files w !! stagingFilePath self = Some (Binary b) →
     ∃ w', add self targetFilenames w = (Raise UnicodeDecodeError, w')
       ∧ files w' = files w).
Proof.
  intros self Hdir Hnd Hsingle. split.
  2:{ intros b Hb. destruct (add_binary self targetFilenames w b Hb) as [lg Hadd].
      eexists. split; [exact Hadd|done]. }
  intros Hnb.
  destruct (add_eq self targetFilenames w Hdir Hnd Hnb) as [lg Hadd].
  eexists. split; [exact Hadd|]. cbn [files].
  assert (Hst : staged self
                  (<[stagingFilePath self :=
                       File (entries (filter (λ f, contains ".easygit" f = false)
                                       (elements (merged self (files w) targetFilenames))))]>
                     (files w))
                = Some (filter (λ p, contains ".easygit" p = false)
                               (merged self (files w) targetFilenames))).
  { rewrite staged_of_lines, staged_lines_written.
    - cbn. by rewrite list_to_set_filter_elements.
    - by apply filter_single, merged_single. }
  split; [exact Hst|].
  intros S p HS Hp. rewrite Hst in HS. injection HS as <-.
  intros [Hk _]%elem_of_filter.
  apply under_repo_contains in Hp. congruence.
Qed.

Lemma add_persists_filtered_union_witness :
  files Scenario.w0 !! PosixPath.dirname (stagingFilePath (easyGit_at "/proj" "/proj"))
    = Some Dir
  ∧ ∃ w', add (easyGit_at "/proj" "/proj") ["a.txt"; "b.txt"] Scenario.w0 = (Ok (), w')
    ∧ staged (easyGit_at "/proj" "/proj") (files w')
      = Some (filter (λ p, contains ".easygit" p = false)
                (list_to_set (paths_of (easyGit_at "/proj" "/proj") (files Scenario.w0)
                                ["a.txt"; "b.txt"])
                   ∪ default ∅ (staged (easyGit_at "/proj" "/proj") (files Scenario.w0)))).
Proof.
  split; [vm_compute; reflexivity|].
  destruct (add_persists_filtered_union "/proj" "/proj" ["a.txt"; "b.txt"] Scenario.w0)
    as [Hthen _].
  - vm_compute; reflexivity.
  - vm_compute; discriminate.
  - vm_compute. repeat constructor.
  - destruct Hthen as (w' & Hadd & Hst & _).
    + intros b. vm_compute. discriminate.
    + exists w'. split; [exact Hadd|exact Hst].
Defined.

(** A path that is not under the metadata directory and is dropped all the
    same: [notes.easygit.txt] in the project folder. *)
Lemma add_drops_path_outside_metadata :
  "/proj/notes.easygit.txt"
    ∈ paths_of Scenario.self (files Scenario.w_notes) ["notes.easygit.txt"]
  ∧ under (repoPath Scenario.self) "/proj/notes.easygit.txt" = false
  ∧ fst (add Scenario.self ["notes.easygit.txt"] Scenario.w_notes) = Ok ()
  ∧ staged Scenario.self
      (files (exec (add Scenario.self ["notes.easygit.txt"]) Scenario.w_notes))
    = Some ∅.
Proof.
  split; [vm_compute; by left|].
  split; [vm_compute; reflexivity|].
  split; vm_compute; reflexivity.
Qed.









(** C3, as the code has it. Two commits in a row that both return have
    distinct digests; the parent field of the second record is the digest of
    the first; and [search] from the second, or from [HEAD], returns
    [second; first] when the first commit found [HEAD] empty (with
    [maxDepth = 2] in any case). *)
Theorem commit_twice_parent_chain
    (root cwd : string) (m1 m2 : list string) (t1 t2 s : string) (w0 w1 w2 : world) :
  let self := easyGit_at root cwd in
  let d1 := SHA1 (t1 +:+ stagingFilePath self) in
  let d2 := SHA1 (t2 +:+ stagingFilePath self) in
  files w0 !! stagingFilePath self = Some (File s) →
  commit self m1 t1 w0 = (Ok (), w1) →
  commit self m2 t2 w1 = (Ok (), w2) →
  d1 ≠ d2
  ∧ parent_of self (files w2) d2 = Some d1
  ∧ (∀ targetSHA, targetSHA = None ∨ targetSHA = Some d2 →
       search self targetSHA 0 2 w2 = (Ok (Some [d2; d1]), w2))
  ∧ (files w0 !! headFile self = Some (File "") →
     ∀ targetSHA maxDepth, targetSHA = None ∨ targetSHA = Some d2 → 2 <= maxDepth →
       search self targetSHA 0 maxDepth w2 = (Ok (Some [d2; d1]), w2)).
Proof.
  intros self d1 d2 Hs Hc1 Hc2.
  pose proof (SHA1_is_name (t1 +:+ stagingFilePath self)) as Hn1. fold d1 in Hn1.
  pose proof (SHA1_is_name (t2 +:+ stagingFilePath self)) as Hn2. fold d2 in Hn2.
  destruct (commit_post root cwd m1 t1 s w0 w1 Hs Hc1)
    as (h1 & more1 & Hh1 & _ & Hhead1 & Hdir1 & Hrec1 & Hframe1).
  fold self d1 in Hh1, Hhead1, Hdir1, Hrec1, Hframe1.
  assert (Hs1 : files w1 !! stagingFilePath self = Some (File s)).
  { rewrite Hframe1; [done|..].
    - apply staging_not_head.
    - by apply staging_not_blob_dir.
    - by apply staging_not_record.
    - intros x Hx. by apply staging_not_blob. }
  destruct (commit_post root cwd m2 t2 s w1 w2 Hs1 Hc2)
    as (h2 & more2 & Hh2 & Hnone2 & Hhead2 & Hdir2 & Hrec2 & Hframe2).
  fold self d2 in Hh2, Hnone2, Hhead2, Hdir2, Hrec2, Hframe2.
  rewrite Hhead1 in Hh2. injection Hh2 as <-.
  assert (Hne : d1 ≠ d2).
  { intros E. rewrite <- E in Hnone2. congruence. }
  assert (Hp2 : parent_of self (files w2) d2 = Some d1).
  { unfold parent_of. fold (record_path self d2). rewrite Hrec2.
    rewrite (universal_newlines_id d1) by (by apply SHA1_has_char).
    f_equal. apply parent_of_header; by apply SHA1_has_char. }
  assert (Hrec1' : files w2 !! record_path self d1
                   = Some (File (record_header (universal_newlines h1) m1 +:+ more1))).
  { rewrite Hframe2; [done|..].
    - by apply record_not_head, SHA1_not_HEAD.
    - by apply record_not_blob_dir.
    - intros E. by apply record_path_inj in E.
    - intros x Hx. by apply record_not_blob. }
  assert (Hlinked : linked self (files w2) [d2; d1]).
  { split; [exact Hp2|]. split; [apply SHA1_nonempty|].
    cbn. unfold parent_of. fold (record_path self d1). rewrite Hrec1'. by eexists. }
  assert (Htarget : ∀ targetSHA, targetSHA = None ∨ targetSHA = Some d2 →
            match targetSHA with
            | None => ∃ h, files w2 !! headFile self = Some (File h)
                           ∧ strip LF (universal_newlines h) = d2 ∧ d2 ≠ ""
            | Some t => t = d2
            end).
  { intros targetSHA [->| ->]; [|done]. exists d2. split; [exact Hhead2|].
    split; [|apply SHA1_nonempty].
    rewrite universal_newlines_id by (by apply SHA1_has_char).
    apply strip_no_LF. by apply SHA1_has_char. }
  split; [exact Hne|]. split; [exact Hp2|]. split.
  - intros targetSHA Ht.
    pose proof (search_chain self w2 [d2; d1] d2 targetSHA 2 eq_refl Hlinked
                  (Htarget _ Ht)) as Hsearch.
    apply Hsearch; [lia|]. left. cbn. lia.
  - intros Hroot targetSHA maxDepth Ht Hmax.
    pose proof (search_chain self w2 [d2; d1] d2 targetSHA maxDepth eq_refl Hlinked
                  (Htarget _ Ht)) as Hsearch.
    rewrite Hsearch; [|lia|].
    + rewrite take_ge; [done|]. cbn. lia.
    + right. cbn. unfold parent_of. fold (record_path self d1). rewrite Hrec1'.
      rewrite Hh1 in Hroot. injection Hroot as ->.
      f_equal; by apply (parent_of_header "").
Qed.

Lemma commit_twice_parent_chain_witness :
  commit Scenario.self ["first"] Scenario.t1 Scenario.staged_ab = (Ok (), Scenario.committed)
  ∧ commit Scenario.self ["second"] Scenario.t2 Scenario.committed
    = (Ok (), Scenario.committed2)
  ∧ Scenario.d1 ≠ Scenario.d2
  ∧ parent_of Scenario.self (files Scenario.committed2) Scenario.d2 = Some Scenario.d1
  ∧ search Scenario.self None 0 5 Scenario.committed2
    = (Ok (Some [Scenario.d2; Scenario.d1]), Scenario.committed2).
Proof.
  assert (H1 : commit Scenario.self ["first"] Scenario.t1 Scenario.staged_ab
               = (Ok (), Scenario.committed)) by (vm_compute; reflexivity).
  assert (H2 : commit Scenario.self ["second"] Scenario.t2 Scenario.committed
               = (Ok (), Scenario.committed2)) by (vm_compute; reflexivity).
  split; [exact H1|]. split; [exact H2|].
  destruct (commit_twice_parent_chain "/proj" "/proj" ["first"] ["second"]
              Scenario.t1 Scenario.t2 ("/proj/a.txt" +:+ nl +:+ "/proj/b.txt" +:+ nl)
              Scenario.staged_ab Scenario.committed Scenario.committed2)
    as (Hne & Hp & _ & Hs).
  - vm_compute; reflexivity.
  - exact H1.
  - exact H2.
  - split; [exact Hne|]. split; [exact Hp|].
    apply Hs; [vm_compute; reflexivity|by left|lia].
Defined.

(** Two commits within the same timestamp: the second computes the digest of
    the first, writes it to [HEAD] and raises [FileExistsError] on the blob
    directory; the history still has one commit. *)
Lemma commit_twice_same_time_collides :
  fst (commit Scenario.self ["first"] Scenario.t1 Scenario.staged_ab) = Ok ()
  ∧ fst (commit Scenario.self ["second"] Scenario.t1 Scenario.committed)
    = Raise FileExistsError
  ∧ files (exec (commit Scenario.self ["second"] Scenario.t1) Scenario.committed)
      !! headFile Scenario.self = Some (File Scenario.d1)
  ∧ fst (search Scenario.self None 0 5
           (exec (commit Scenario.self ["second"] Scenario.t1) Scenario.committed))
    = Ok (Some [Scenario.d1]).
Proof. repeat split; vm_compute; reflexivity. Qed.

(** ** Restore *)

(** In a record as [commit] writes it, [restore] starts one line after the
    first association: the sum of the two marker positions is the position
    of the closing marker plus two. *)
Lemma restore_skips_first_association (h : string) (message assoc : list string) :
  h ≠ "=====" → "=====" ∉ message →
  let content := [h; "Commitment Message:"; "====="] ++ message ++ ["====="] ++ assoc in
  index "=====" content 0 = Some 2%nat
  ∧ index "=====" content (2 + 1) = Some (3 + length message)%nat
  ∧ drop (2 + (3 + length message)) content = drop 1 assoc.
Proof.
  intros Hh Hm content. split; [|split].
  - unfold content, index. cbn [app index_from].
    rewrite (bool_decide_eq_false_2 (h = "=====")) by done.
    by rewrite andb_false_r.
  - unfold content, index. cbn [app index_from].
    rewrite !(bool_decide_eq_false_2 (_ ≤ _)%nat) by lia. cbn [andb].
    assert (Hgo : ∀ pos, (3 ≤ pos)%nat →
              index_from "=====" (message ++ "=====" :: assoc) 3 pos
              = Some (pos + length message)%nat).
    { clear Hh. induction message as [|m ms IH]; intros pos Hpos.
      - cbn [app index_from length]. rewrite bool_decide_eq_true_2 by lia.
        rewrite bool_decide_eq_true_2 by done. cbn [andb]. f_equal. lia.
      - cbn [app index_from length].
        rewrite (bool_decide_eq_false_2 (m = "=====")).
        2:{ intros ->. apply Hm. by left. }
        rewrite andb_false_r. rewrite IH; [f_equal; lia| |lia].
        intros Hin. apply Hm. by right. }
    by rewrite Hgo.
  - unfold content. cbn [app Nat.add drop].
    rewrite drop_app_ge by lia.
    replace (S (S (length message)) - length message)%nat with 2%nat by lia.
    reflexivity.
Qed.

(** C1. Two files staged, committed with the message ["first"], deleted,
    then [restore()]: the run returns normally, but only the second
    association of the record is replayed; the file of the first one is
    still missing. *)
Theorem restore_round_trip_loses_file :
  fst (restore Scenario.self None Scenario.deleted) = Ok ()
  ∧ staged_lines Scenario.self (files Scenario.committed) = Some ["/proj/a.txt"; "/proj/b.txt"]
  ∧ files Scenario.deleted !! "/proj/a.txt" = None
  ∧ files Scenario.deleted !! "/proj/b.txt" = None
  ∧ files Scenario.restored !! "/proj/b.txt" = Some (File "world")
  ∧ files Scenario.restored !! "/proj/a.txt" = None
  ∧ length (printed Scenario.restored) = 1%nat.
Proof. repeat split; vm_compute; reflexivity. Qed.

Import Frame Setup.
Import FrameFacts HistoryFacts DirFacts RestoreFacts CommitRunFacts TreeFacts ReplayFacts.
Import NormFacts SetupFacts InitFacts JourneyFacts AgainFacts DecodeFacts.

(** * Further properties of the repository operations *)

(** ** What each operation may write *)

(** X1. Whatever its arguments, the state it starts from and its outcome,
    [add] changes no path but the staging file. *)
Theorem add_writes_only_staging
    (self : easyGit) (targetFilenames : list string) (w : world) (q : string) :
  q ≠ stagingFilePath self →
  files (exec (add self targetFilenames) w) !! q = files w !! q.
Proof. intros Hq. by apply touches_add. Qed.

Lemma add_writes_only_staging_witness :
  "/proj/a.txt" ≠ stagingFilePath Scenario.self
  ∧ files (exec (add Scenario.self ["a.txt"; "b.txt"]) Scenario.w0) !! "/proj/a.txt"
    = files Scenario.w0 !! "/proj/a.txt".
Proof.
  assert (H : "/proj/a.txt" ≠ stagingFilePath Scenario.self) by (by vm_compute).
  split; [exact H|].
  exact (add_writes_only_staging Scenario.self ["a.txt"; "b.txt"] Scenario.w0 "/proj/a.txt" H).
Defined.

(** X2. Whatever its arguments, the state it starts from and its outcome,
    [remove] changes no path but the staging file. *)
Theorem remove_writes_only_staging
    (self : easyGit) (targetFilenames : list string) (w : world) (q : string) :
  q ≠ stagingFilePath self →
  files (exec (EasyGit.remove self targetFilenames) w) !! q = files w !! q.
Proof. intros Hq. by apply touches_remove_staged. Qed.

Lemma remove_writes_only_staging_witness :
  "/proj/a.txt" ≠ stagingFilePath Scenario.self
  ∧ files (exec (EasyGit.remove Scenario.self ["a.txt"]) Scenario.staged_ab) !! "/proj/a.txt"
    = files Scenario.staged_ab !! "/proj/a.txt".
Proof.
  assert (H : "/proj/a.txt" ≠ stagingFilePath Scenario.self) by (by vm_compute).
  split; [exact H|].
  exact (remove_writes_only_staging Scenario.self ["a.txt"] Scenario.staged_ab "/proj/a.txt" H).
Defined.

(** X3. Whatever its outcome, [commit] changes [HEAD], the blob directory
    of its digest, the record of its digest and blobs in that directory, and
    nothing else: the staging file and every path without [".easygit"] in
    its text (the working tree) are as before. *)
Theorem commit_writes_only_repository
    (root cwd : string) (message : list string) (now : string) (w : world) (q : string) :
  let self := easyGit_at root cwd in
  let d := SHA1 (now +:+ stagingFilePath self) in
  (q ≠ headFile self ∧ q ≠ blob_dir self d ∧ q ≠ record_path self d
   ∧ ∀ x, q ≠ blob_path self d (SHA1 x))
  ∨ q = stagingFilePath self
  ∨ contains ".easygit" q = false →
  files (exec (commit self message now) w) !! q = files w !! q.
Proof.
  intros self d Hq. apply touches_commit. fold d.
  pose proof (SHA1_is_name (now +:+ stagingFilePath self)) as Hd. fold d in Hd.
  intros [->|[->|[->|[x ->]]]].
  - destruct Hq as [(H & _)|[H|H]]; [done| |].
    + by apply (staging_not_head root cwd).
    + by apply (outside_not_head root cwd) in H.
  - destruct Hq as [(_ & H & _)|[H|H]]; [done| |].
    + symmetry in H. by apply (staging_not_blob_dir root cwd) in H.
    + by apply (outside_not_blob_dir root cwd _ d) in H.
  - destruct Hq as [(_ & _ & H & _)|[H|H]]; [done| |].
    + symmetry in H. by apply (staging_not_record root cwd) in H.
    + by apply (outside_not_record root cwd _ d) in H.
  - destruct Hq as [(_ & _ & _ & H)|[H|H]]; [by apply (H x)| |].
    + symmetry in H. apply (staging_not_blob root cwd) in H; [done|done|apply SHA1_is_name].
    + apply (outside_not_blob root cwd _ d (SHA1 x)) in H; [done|done|apply SHA1_is_name].
Qed.

Lemma commit_writes_only_repository_witness :
  contains ".easygit" "/proj/a.txt" = false
  ∧ files (exec (commit Scenario.self ["first"] Scenario.t1) Scenario.staged_ab) !! "/proj/a.txt"
    = files Scenario.staged_ab !! "/proj/a.txt".
Proof.
  assert (H : contains ".easygit" "/proj/a.txt" = false) by (by vm_compute).
  split; [exact H|].
  exact (commit_writes_only_repository "/proj" "/proj" ["first"] Scenario.t1
           Scenario.staged_ab "/proj/a.txt" (or_intror (or_intror H))).
Defined.

(** X4. [search] and [status] write no file, whatever
    they return or raise: the history is only read. *)
Theorem history_is_read_only
    (self : easyGit) (targetSHA : option string) (depth maxDepth : Z) (w : world) :
  files (exec (search self targetSHA depth maxDepth) w) = files w
  ∧ files (exec (status self targetSHA maxDepth) w) = files w.
Proof.
  split; apply map_eq; intros q.
  - apply (touches_search (λ _, False)). by intros [].
  - apply (touches_status (λ _, False)). by intros [].
Qed.

(** ** Missing state *)

(** X5. Without staging file [remove] logs an error and returns: no file is
    changed, and the names are not even resolved. *)
Theorem remove_without_staging_no_write
    (self : easyGit) (targetFilenames : list string) (w : world) :
  files w !! stagingFilePath self = None →
  EasyGit.remove self targetFilenames w =
    (Ok (), World (files w)
              (logged w ++ [(DEBUG, "function remove executed");
                            (ERROR, "staging file not found")])
              (printed w)).
Proof.
  intros Hs. unfold EasyGit.remove.
  rewrite bind_eq, log_eq. cbv beta iota zeta.
  rewrite bind_eq, path_exists_eq. cbv beta iota zeta.
  cbn [files]. rewrite (exists_None _ _ Hs). cbn [negb].
  rewrite log_eq. cbn [files logged printed]. by rewrite <- (assoc_L (++)).
Qed.

Lemma remove_without_staging_no_write_witness :
  files Scenario.w0 !! stagingFilePath Scenario.self = None
  ∧ EasyGit.remove Scenario.self ["a.txt"] Scenario.w0 =
    (Ok (), World (files Scenario.w0)
              (logged Scenario.w0 ++ [(DEBUG, "function remove executed");
                                      (ERROR, "staging file not found")])
              (printed Scenario.w0)).
Proof.
  assert (H : files Scenario.w0 !! stagingFilePath Scenario.self = None)
    by (vm_compute; reflexivity).
  split; [exact H|].
  exact (remove_without_staging_no_write Scenario.self ["a.txt"] Scenario.w0 H).
Defined.

(** X6. [restore] without target on a repository whose [HEAD] is empty (or
    holds only line feeds) logs an error and returns: nothing is written and
    nothing is printed. *)
Theorem restore_without_history_no_write
    (self : easyGit) (h : string) (w : world) :
  files w !! headFile self = Some (File h) →
  strip LF (universal_newlines h) = "" →
  restore self None w =
    (Ok (), World (files w)
              (logged w ++ [(DEBUG, "function restore executed");
                            (ERROR, "There's no any recorded commitment, exiting...")])
              (printed w)).
Proof.
  intros Hh Hs. unfold restore, head_target.
  rewrite bind_eq, log_eq. cbv beta iota zeta.
  rewrite !bind_eq, read_eq. cbn [files]. rewrite Hh. cbv beta iota zeta.
  rewrite Hs. rewrite bool_decide_eq_true_2 by done.
  rewrite bind_eq, log_eq. cbv beta iota zeta. cbn [files logged printed ret].
  by rewrite <- (assoc_L (++)).
Qed.

Lemma restore_without_history_no_write_witness :
  files Scenario.w0 !! headFile Scenario.self = Some (File "")
  ∧ strip LF (universal_newlines "") = ""
  ∧ restore Scenario.self None Scenario.w0 =
    (Ok (), World (files Scenario.w0)
              (logged Scenario.w0
                 ++ [(DEBUG, "function restore executed");
                     (ERROR, "There's no any recorded commitment, exiting...")])
              (printed Scenario.w0)).
Proof.
  assert (H1 : files Scenario.w0 !! headFile Scenario.self = Some (File ""))
    by (vm_compute; reflexivity).
  assert (H2 : strip LF (universal_newlines "") = "") by reflexivity.
  split; [exact H1|]. split; [exact H2|].
  exact (restore_without_history_no_write Scenario.self "" Scenario.w0 H1 H2).
Defined.

(** ** The history *)

(** X7. What [search] returns is a chain of records: it starts at the target
    (at what [HEAD] holds when no target is given), each digest names a
    record whose parent field is the next digest, and it has no more
    elements than the levels allowed; the files are as before. *)
Theorem search_returns_linked_chain
    (self : easyGit) (targetSHA : option string) (depth maxDepth : Z)
    (w w' : world) (l : list string) :
  search self targetSHA depth maxDepth w = (Ok (Some l), w') →
  (∃ d, head l = Some d
        ∧ match targetSHA with
          | Some t => d = t
          | None => ∃ h, files w !! headFile self = Some (File h)
                         ∧ d = strip LF (universal_newlines h)
          end)
  ∧ (1 <= Z.of_nat (length l)
     <= match targetSHA with Some _ => maxDepth - depth | None => maxDepth end)
  ∧ linked self (files w) l
  ∧ files w' = files w.
Proof.
  intros Hrun.
  assert (Hf : files w' = files w).
  { pose proof (search_files self targetSHA depth maxDepth w) as H.
    by rewrite Hrun in H. }
  revert Hrun. unfold search.
  destruct (bool_decide (depth >= maxDepth)) eqn:Hd; [done|].
  apply bool_decide_eq_false in Hd.
  destruct targetSHA as [t|].
  - intros Hrun. destruct (search_from_sound _ _ _ _ _ _ Hrun) as (Hh & Hlen & Hl).
    split; [by exists t|]. split; [|done].
    destruct l; [done|]. cbn [length] in *. lia.
  - unfold head_target. rewrite !bind_eq, read_eq.
    destruct (files w !! headFile self) as [[h| |?]|] eqn:Hhead; [|done..].
    cbv beta iota zeta.
    destruct (bool_decide (strip LF (universal_newlines h) = "")).
    { rewrite bind_eq, log_eq. done. }
    cbn [ret]. intros Hrun.
    destruct (search_from_sound _ _ _ _ _ _ Hrun) as (Hh & Hlen & Hl).
    split; [eexists; split; [done|by exists h]|]. split; [|done].
    destruct l; [done|]. cbn [length] in *. lia.
Qed.

Lemma search_returns_linked_chain_witness :
  search Scenario.self None 0 5 Scenario.committed3
    = (Ok (Some [Scenario.d3; Scenario.d2; Scenario.d1]), Scenario.committed3)
  ∧ linked Scenario.self (files Scenario.committed3)
      [Scenario.d3; Scenario.d2; Scenario.d1].
Proof.
  assert (H : search Scenario.self None 0 5 Scenario.committed3
              = (Ok (Some [Scenario.d3; Scenario.d2; Scenario.d1]), Scenario.committed3))
    by (vm_compute; reflexivity).
  split; [exact H|].
  exact (proj1 (proj2 (proj2 (search_returns_linked_chain Scenario.self None 0 5
                                Scenario.committed3 Scenario.committed3
                                [Scenario.d3; Scenario.d2; Scenario.d1] H)))).
Defined.

(** X8. Along a chain [ds] of commit records [status] returns normally and
    logs, after its entry line, the first digest followed by [" <- HEAD"]
    and then the following digests of the chain, one line each, newest
    first, as many as [maxDepth] allows; it writes and prints nothing. *)
Theorem status_logs_chain
    (self : easyGit) (w : world) (ds : list string) (d : string)
    (targetSHA : option string) (maxDepth : Z) :
  head ds = Some d →
  linked self (files w) ds →
  match targetSHA with
  | None => ∃ h, files w !! headFile self = Some (File h)
                 ∧ strip LF (universal_newlines h) = d ∧ d ≠ ""
  | Some t => t = d
  end →
  0 < maxDepth →
  maxDepth <= Z.of_nat (length ds)
    ∨ parent_of self (files w) (List.last ds "") = Some "" →
  status self targetSHA maxDepth w =
    (Ok (), World (files w)
              (logged w ++ (DEBUG, "function status executed")
                 :: (INFO, d +:+ " <- HEAD")
                 :: ((λ s, (INFO, s)) <$> drop 1 (take (Z.to_nat maxDepth) ds)))
              (printed w)).
Proof.
  intros Hd Hl Ht Hpos Hlen. rewrite status_eq.
  unfold exec. rewrite log_eq. cbn [snd].
  set (w1 := World (files w) (logged w ++ [(DEBUG, "function status executed")]) (printed w)).
  rewrite (search_chain self w1 ds d targetSHA maxDepth Hd Hl Ht Hpos Hlen).
  destruct ds as [|d0 rest]; [done|]. injection Hd as ->.
  destruct (Z.to_nat maxDepth) as [|k] eqn:Hk; [lia|].
  cbn [take drop]. rewrite bind_eq, log_eq. cbv beta iota zeta.
  cbn [files logged printed w1].
  destruct (bool_decide (1 < length (d :: take k rest))%nat) eqn:Hmore.
  - rewrite for_each_log_exact. cbn [files logged printed].
    by rewrite <- !(assoc_L (++)).
  - apply bool_decide_eq_false in Hmore. cbn [length] in Hmore.
    destruct (take k rest); [|cbn [length] in Hmore; lia].
    cbn [ret fmap list_fmap]. by rewrite <- !(assoc_L (++)).
Qed.

Lemma status_logs_chain_witness :
  head [Scenario.d3; Scenario.d2; Scenario.d1] = Some Scenario.d3
  ∧ linked Scenario.self (files Scenario.committed3)
      [Scenario.d3; Scenario.d2; Scenario.d1]
  ∧ status Scenario.self None 2 Scenario.committed3 =
      (Ok (), World (files Scenario.committed3)
                (logged Scenario.committed3 ++ (DEBUG, "function status executed")
                   :: (INFO, Scenario.d3 +:+ " <- HEAD")
                   :: ((λ s, (INFO, s))
                         <$> drop 1 (take (Z.to_nat 2)
                                       [Scenario.d3; Scenario.d2; Scenario.d1])))
                (printed Scenario.committed3)).
Proof.
  assert (Hl : linked Scenario.self (files Scenario.committed3)
                 [Scenario.d3; Scenario.d2; Scenario.d1]).
  { repeat split; try (vm_compute; reflexivity); try (vm_compute; discriminate).
    vm_compute. eexists. reflexivity. }
  split; [reflexivity|]. split; [exact Hl|].
  apply (status_logs_chain Scenario.self Scenario.committed3
           [Scenario.d3; Scenario.d2; Scenario.d1] Scenario.d3 None 2).
  - reflexivity.
  - exact Hl.
  - exists Scenario.d3. repeat split; try (vm_compute; reflexivity).
    vm_compute; discriminate.
  - lia.
  - left. simpl. lia.
Defined.

(** ** The staging set, continued *)

(** X9. [remove] on an existing staging file persists the previous set minus
    the resolved paths: when something is left the staging file holds
    exactly that set, and when nothing is left there is no staging file. *)
Theorem remove_persists_difference
    (self : easyGit) (targetFilenames : list string) (w : world) (S : gset string) :
  staged self (files w) = Some S →
  files w !! PosixPath.dirname (stagingFilePath self) = Some Dir →
  let left := S ∖ list_to_set (paths_of self (files w) targetFilenames) in
  ∃ w', EasyGit.remove self targetFilenames w = (Ok (), w')
    ∧ staged self (files w') = (if decide (left = ∅) then None else Some left).
Proof.
  intros HS Hdir left. unfold staged in HS.
  destruct (files w !! stagingFilePath self) as [[c| |?]|] eqn:Hc; [|done..].
  injection HS as HS.
  destruct (remove_staged_eq self targetFilenames w c Hc) as [Hempty Hsome].
  cbv zeta in Hempty, Hsome. rewrite HS in Hempty, Hsome. fold left in Hempty, Hsome.
  destruct (decide (left = ∅)) as [He|Hne].
  - destruct Hempty as [lg Hrun]; [by rewrite He|].
    eexists. split; [exact Hrun|]. unfold staged. cbn [files].
    by rewrite lookup_delete_eq.
  - assert (Hsize : size left ≠ 0%nat) by (by intros ?%size_empty_inv%leibniz_equiv).
    destruct (Hsome Hsize Hdir) as [lg Hrun].
    eexists. split; [exact Hrun|]. cbn [files].
    rewrite staged_of_lines, staged_lines_written.
    + cbn. f_equal. apply list_to_set_elements_L.
    + apply Forall_forall. intros f Hf%elem_of_elements.
      apply elem_of_difference in Hf as [Hf _]. rewrite <- HS in Hf.
      rewrite add_lines_eq, (left_id_L ∅ (∪)) in Hf.
      apply elem_of_list_to_set in Hf.
      pose proof (lines_single c) as Hall. rewrite Forall_forall in Hall. by apply Hall.
Qed.

Lemma remove_persists_difference_witness :
  staged Scenario.self (files Scenario.staged_ab) = Some {["/proj/a.txt"; "/proj/b.txt"]}
  ∧ files Scenario.staged_ab !! PosixPath.dirname (stagingFilePath Scenario.self) = Some Dir
  ∧ ∃ w', EasyGit.remove Scenario.self ["a.txt"] Scenario.staged_ab = (Ok (), w')
      ∧ staged Scenario.self (files w')
        = (if decide ({["/proj/a.txt"; "/proj/b.txt"]}
                        ∖ list_to_set (paths_of Scenario.self (files Scenario.staged_ab)
                                         ["a.txt"]) = (∅ : gset string))
           then None
           else Some ({["/proj/a.txt"; "/proj/b.txt"]}
                        ∖ list_to_set (paths_of Scenario.self (files Scenario.staged_ab)
                                         ["a.txt"]))).
Proof.
  assert (H1 : staged Scenario.self (files Scenario.staged_ab)
               = Some {["/proj/a.txt"; "/proj/b.txt"]}) by (vm_compute; reflexivity).
  assert (H2 : files Scenario.staged_ab !! PosixPath.dirname (stagingFilePath Scenario.self)
               = Some Dir) by (vm_compute; reflexivity).
  split; [exact H1|]. split; [exact H2|].
  exact (remove_persists_difference Scenario.self ["a.txt"] Scenario.staged_ab _ H1 H2).
Defined.

(** ** Restore, continued *)

(** X10. A record with fewer than two marker lines [=====] cannot be
    restored: [restore] raises [ValueError] when it looks for the markers,
    before it writes or prints anything. *)
Theorem restore_record_without_markers
    (self : easyGit) (d c : string) (w : world) :
  files w !! record_path self d = Some (File c) →
  (length (filter (λ l, l = "=====") (strip LF <$> readlines (universal_newlines c))) < 2)%nat →
  restore self (Some d) w =
    (Raise ValueError,
     World (files w) (logged w ++ [(DEBUG, "function restore executed")]) (printed w)).
Proof.
  intros Hc Hcount. rewrite (restore_found self d c w Hc). cbv zeta.
  pose proof (index_twice_fails "=====" _ Hcount) as H.
  unfold exec. rewrite log_eq. cbn [snd].
  destruct (index "=====" _ 0) as [top|]; [|done]. by rewrite H.
Qed.

Lemma restore_record_without_markers_witness :
  let w := World (<["/proj/.easygit/commit/draft" := File "HEAD:"]> Scenario.fs0) [] [] in
  files w !! record_path Scenario.self "draft" = Some (File "HEAD:")
  ∧ (length (filter (λ l, l = "=====")
               (strip LF <$> readlines (universal_newlines "HEAD:"))) < 2)%nat
  ∧ restore Scenario.self (Some "draft") w =
      (Raise ValueError,
       World (files w) (logged w ++ [(DEBUG, "function restore executed")]) (printed w)).
Proof.
  intros w.
  assert (H1 : files w !! record_path Scenario.self "draft" = Some (File "HEAD:"))
    by (vm_compute; reflexivity).
  assert (H2 : (length (filter (λ l, l = "=====")
                          (strip LF <$> readlines (universal_newlines "HEAD:"))) < 2)%nat)
    by (vm_compute; lia).
  split; [exact H1|]. split; [exact H2|].
  exact (restore_record_without_markers Scenario.self "draft" "HEAD:" w H1 H2).
Defined.

(** X11. On a record as [commit] writes it (the parent line, the message
    between the two markers, then one line per staged file) [restore] runs
    its loop on the association lines but the first: the first staged file
    of every commit is left out, and a commit of one file restores
    nothing. *)
Theorem restore_replays_all_but_first
    (self : easyGit) (d h : string) (message assoc : list string) (w : world) :
  files w !! record_path self d = Some (File (record_header h message +:+ entries assoc)) →
  single_line h →
  message ≠ [] → Forall single_line message → "=====" ∉ message →
  Forall single_line assoc →
  let entered := exec (log DEBUG "function restore executed") w in
  restore self (Some d) w = for_each (drop 1 assoc) (restore_file self d) entered
  ∧ ((length assoc ≤ 1)%nat → restore self (Some d) w = (Ok (), entered)).
Proof.
  intros Hc Hh Hne Hmsg Hmark Hassoc entered.
  pose proof (restore_drop_first self d h message assoc w Hc Hh Hne Hmsg Hmark Hassoc)
    as Hrun.
  split; [exact Hrun|]. intros Hlen. rewrite Hrun.
  destruct assoc as [|a [|a' r]]; [done|done|cbn in Hlen; lia].
Qed.

Lemma restore_replays_all_but_first_witness :
  let assoc := ["/proj/a.txt:::" +:+ SHA1 ("/proj/a.txt" +:+ "hello");
                "/proj/b.txt:::" +:+ SHA1 ("/proj/b.txt" +:+ "world")] in
  files Scenario.deleted !! record_path Scenario.self Scenario.d1
    = Some (File (record_header "" ["first"] +:+ entries assoc))
  ∧ restore Scenario.self (Some Scenario.d1) Scenario.deleted
    = for_each (drop 1 assoc) (restore_file Scenario.self Scenario.d1)
        (exec (log DEBUG "function restore executed") Scenario.deleted).
Proof.
  intros assoc.
  assert (H1 : files Scenario.deleted !! record_path Scenario.self Scenario.d1
               = Some (File (record_header "" ["first"] +:+ entries assoc)))
    by (vm_compute; reflexivity).
  split; [exact H1|].
  refine (proj1 (restore_replays_all_but_first Scenario.self Scenario.d1 "" ["first"]
                   assoc Scenario.deleted H1 _ _ _ _ _)).
  - by split.
  - done.
  - repeat constructor.
  - intros H%list_elem_of_singleton. discriminate H.
  - repeat constructor; vm_compute; reflexivity.
Defined.

(** X12. One association line [path:::digest] (neither part with a colon),
    with the directory of the path in place and the blob of that digest in
    the blob directory of the commit: [restore] prints the pair and leaves
    at the path a file with the text of the blob; no other file changes. *)
Theorem restore_file_rewrites_from_blob
    (self : easyGit) (d p x b : string) (w : world) :
  has_char ":" p = false → has_char ":" x = false →
  files w !! PosixPath.dirname p = Some Dir →
  is_Some (files w !! PosixPath.dirname (PosixPath.dirname p)) →
  files w !! p ≠ Some Dir →
  files w !! blob_path self d x = Some (File b) →
  p ≠ blob_path self d x →
  restore_file self d (p +:+ ":::" +:+ x) w
  = (Ok (), World (<[p := File (universal_newlines b)]> (files w)) (logged w)
              (printed w ++ [[p; x]])).
Proof. apply restore_file_replay. Qed.

Lemma restore_file_rewrites_from_blob_witness :
  let p := "/proj/b.txt" in
  let x := SHA1 ("/proj/b.txt" +:+ "world") in
  files Scenario.deleted !! blob_path Scenario.self Scenario.d1 x = Some (File "world")
  ∧ files Scenario.deleted !! p = None
  ∧ restore_file Scenario.self Scenario.d1 (p +:+ ":::" +:+ x) Scenario.deleted
    = (Ok (), World (<[p := File (universal_newlines "world")]> (files Scenario.deleted))
                (logged Scenario.deleted) (printed Scenario.deleted ++ [[p; x]])).
Proof.
  intros p x.
  assert (Hb : files Scenario.deleted !! blob_path Scenario.self Scenario.d1 x
               = Some (File "world")) by (vm_compute; reflexivity).
  assert (Hp : files Scenario.deleted !! p = None) by (vm_compute; reflexivity).
  split; [exact Hb|]. split; [exact Hp|].
  apply (restore_file_rewrites_from_blob Scenario.self Scenario.d1 p x "world"
           Scenario.deleted).
  - vm_compute; reflexivity.
  - vm_compute; reflexivity.
  - vm_compute; reflexivity.
  - exists Dir. vm_compute; reflexivity.
  - rewrite Hp. discriminate.
  - exact Hb.
  - vm_compute. discriminate.
Defined.

(** ** Commits, continued *)

(** X13. [commit] rewrites [HEAD] before anything else: once the staging
    file and [HEAD] have been read, [HEAD] holds the new digest whether the
    commit then completes or raises, so a failed commit leaves [HEAD]
    naming a commit that was not (or not fully) recorded. *)
Theorem commit_updates_head_first
    (root cwd : string) (message : list string) (now s h : string) (w : world) :
  let self := easyGit_at root cwd in
  let d := SHA1 (now +:+ stagingFilePath self) in
  files w !! stagingFilePath self = Some (File s) →
  files w !! headFile self = Some (File h) →
  files w !! commitFolderPath self = Some Dir →
  files (exec (commit self message now) w) !! headFile self = Some (File d).
Proof.
  intros self d Hs Hh Hdir. subst self. unfold exec.
  rewrite (commit_enter _ message now s h w Hs Hh)
    by (by rewrite (dirname_head root cwd)).
  cbv zeta. fold d.
  rewrite (head_kept root cwd) by (apply SHA1_is_name || apply SHA1_not_HEAD).
  cbn [files]. by rewrite lookup_insert_eq.
Qed.

Lemma commit_updates_head_first_witness :
  files Scenario.committed !! stagingFilePath Scenario.self
    = Some (File "/proj/a.txt
/proj/b.txt
")
  ∧ fst (commit Scenario.self ["second"] Scenario.t1 Scenario.committed)
    = Raise FileExistsError
  ∧ files (exec (commit Scenario.self ["second"] Scenario.t1) Scenario.committed)
      !! headFile Scenario.self
    = Some (File (SHA1 (Scenario.t1 +:+ stagingFilePath Scenario.self))).
Proof.
  assert (Hs : files Scenario.committed !! stagingFilePath Scenario.self
               = Some (File "/proj/a.txt
/proj/b.txt
")) by (vm_compute; reflexivity).
  split; [exact Hs|]. split; [vm_compute; reflexivity|].
  apply (commit_updates_head_first "/proj" "/proj" ["second"] Scenario.t1 _
           Scenario.d1 Scenario.committed Hs).
  - vm_compute; reflexivity.
  - vm_compute; reflexivity.
Defined.

(** X14. When the blob directory of the digest already exists (a commit
    with the same timestamp was made), [commit] raises [FileExistsError];
    by then it has overwritten [HEAD] with the digest, and that is the only
    change: no record is written. *)
Theorem commit_existing_digest_raises
    (root cwd : string) (message : list string) (now s h : string) (w : world) :
  let self := easyGit_at root cwd in
  let d := SHA1 (now +:+ stagingFilePath self) in
  files w !! stagingFilePath self = Some (File s) →
  files w !! headFile self = Some (File h) →
  files w !! commitFolderPath self = Some Dir →
  is_Some (files w !! blob_dir self d) →
  commit self message now w =
    (Raise FileExistsError,
     World (<[headFile self := File d]> (files w))
           (logged w ++ [(DEBUG, "function commit executed")]) (printed w)).
Proof.
  intros self d Hs Hh Hdir [x Hx]. subst self.
  rewrite (commit_enter _ message now s h w Hs Hh)
    by (by rewrite (dirname_head root cwd)).
  cbv zeta. fold d. unfold commit_tail.
  rewrite bind_eq, mkdir_eq. cbn [files].
  rewrite lookup_insert_ne by (apply (head_not_blob_dir root cwd), SHA1_is_name).
  by rewrite Hx.
Qed.

Lemma commit_existing_digest_raises_witness :
  let self := easyGit_at "/proj" "/proj" in
  let d := SHA1 (Scenario.t1 +:+ stagingFilePath self) in
  files Scenario.committed !! stagingFilePath self
    = Some (File "/proj/a.txt
/proj/b.txt
")
  ∧ is_Some (files Scenario.committed !! blob_dir self d)
  ∧ commit self ["second"] Scenario.t1 Scenario.committed =
    (Raise FileExistsError,
     World (<[headFile self := File d]> (files Scenario.committed))
           (logged Scenario.committed ++ [(DEBUG, "function commit executed")])
           (printed Scenario.committed)).
Proof.
  intros self d.
  assert (Hs : files Scenario.committed !! stagingFilePath self
               = Some (File "/proj/a.txt
/proj/b.txt
")) by (vm_compute; reflexivity).
  assert (Hh : files Scenario.committed !! headFile self = Some (File Scenario.d1))
    by (vm_compute; reflexivity).
  assert (Hc : files Scenario.committed !! commitFolderPath self = Some Dir)
    by (vm_compute; reflexivity).
  assert (Hb : is_Some (files Scenario.committed !! blob_dir self d))
    by (exists Dir; vm_compute; reflexivity).
  split; [exact Hs|]. split; [exact Hb|].
  pose proof (commit_existing_digest_raises "/proj" "/proj" ["second"] Scenario.t1 _
                Scenario.d1 Scenario.committed Hs Hh Hc) as H.
  cbv zeta in H. exact (H Hb).
Defined.

(** X15. [commit] returns normally on a repository as [init] lays it out
    (staging file, [HEAD], the commit and the changes folder) when its
    digest is new (no blob directory of that name, nothing under it, no
    directory where the record goes) and every staged path, without
    [".easygit"] in its text, is a regular file that holds valid UTF-8
    text (a [File] node: reading a [Binary] one raises
    [UnicodeDecodeError]).  Then [HEAD] holds the digest and the record
    holds the parent line, the message between markers, and one association
    per staged path. *)
Theorem commit_returns
    (root cwd : string) (message : list string) (now s h : string) (w : world) :
  let self := easyGit_at root cwd in
  let d := SHA1 (now +:+ stagingFilePath self) in
  let targetFilePaths := elements (add_lines ∅ (universal_newlines s)) in
  files w !! stagingFilePath self = Some (File s) →
  files w !! headFile self = Some (File h) →
  files w !! commitFolderPath self = Some Dir →
  files w !! changeFolderPath self = Some Dir →
  files w !! blob_dir self d = None →
  (∀ x, files w !! blob_path self d (SHA1 x) = None) →
  files w !! record_path self d ≠ Some Dir →
  (∀ f, f ∈ targetFilePaths →
        contains ".easygit" f = false ∧ ∃ cf, files w !! f = Some (File cf)) →
  ∃ w', commit self message now w = (Ok (), w')
    ∧ files w' !! headFile self = Some (File d)
    ∧ files w' !! blob_dir self d = Some Dir
    ∧ files w' !! record_path self d
      = Some (File (record_header (universal_newlines h) message
                    +:+ concat_all ((λ f, f +:+ ":::"
                                          +:+ SHA1 (f +:+ content_of (files w) f)
                                          +:+ nl) <$> targetFilePaths))).
Proof.
  intros self d targetFilePaths Hs Hh Hcf Hch Hbd Hblob Hrec Hl. subst self.
  destruct (commit_runs root cwd message now s h w Hs Hh Hcf Hch Hbd Hblob Hrec Hl)
    as [w' Hrun].
  exists w'. split; [exact Hrun|].
  assert (Hall : Forall (λ f, contains ".easygit" f = false) targetFilePaths).
  { apply Forall_forall. intros f Hf. by destruct (Hl f Hf). }
  destruct (commit_full root cwd message now s w w' Hs Hall Hrun)
    as (H1 & H2 & (h' & Hh' & H3) & _).
  split; [exact H1|]. split; [exact H2|].
  rewrite Hh in Hh'. injection Hh' as <-. exact H3.
Qed.

Lemma commit_returns_witness :
  let self := easyGit_at "/proj" "/proj" in
  ∃ w', commit self ["first"] Scenario.t1 Scenario.staged_ab = (Ok (), w')
    ∧ files w' !! headFile self
      = Some (File (SHA1 (Scenario.t1 +:+ stagingFilePath self))).
Proof.
  intros self.
  pose proof (commit_returns "/proj" "/proj" ["first"] Scenario.t1 "/proj/a.txt
/proj/b.txt
" "" Scenario.staged_ab) as H.
  cbv zeta in H. fold self in H.
  destruct H as (w' & Hrun & Hhead & _).
  - vm_compute; reflexivity.
  - vm_compute; reflexivity.
  - vm_compute; reflexivity.
  - vm_compute; reflexivity.
  - vm_compute; reflexivity.
  - intros x.
    destruct (files Scenario.staged_ab !! _) as [n|] eqn:Hn; [exfalso|done].
    pose proof (longest_ge _ _ (mk_is_Some _ _ Hn)) as Hlen.
    rewrite (blob_path_at "/proj" "/proj") in Hlen
      by (apply SHA1_is_name || apply is_name_relative, SHA1_is_name).
    rewrite !str_length_app, !SHA1_length in Hlen.
    vm_compute in Hlen. lia.
  - vm_compute; discriminate.
  - assert (Hel : elements (add_lines ∅ (universal_newlines "/proj/a.txt
/proj/b.txt
")) = ["/proj/a.txt"; "/proj/b.txt"]) by (vm_compute; reflexivity).
    intros f Hf. rewrite Hel in Hf.
    apply elem_of_cons in Hf as [->|Hf]; [|apply list_elem_of_singleton in Hf as ->];
      (split; [vm_compute; reflexivity|]).
    + exists "hello". vm_compute; reflexivity.
    + exists "world". vm_compute; reflexivity.
  - exists w'. split; [exact Hrun|exact Hhead].
Defined.

(** ** Digests and the walk *)

(** X16. A digest is forty lower-case hexadecimal digits, whatever is
    hashed; so it names an entry directly in the folder it is joined to:
    the record of a commit lies in the commit folder, its blob directory in
    the changes folder, and its blobs in that blob directory. *)
Theorem SHA1_names_an_entry (root cwd target x : string) :
  let self := easyGit_at root cwd in
  String.length (SHA1 target) = 40%nat
  ∧ all_hex (SHA1 target) = true
  ∧ PosixPath.dirname (record_path self (SHA1 target)) = commitFolderPath self
  ∧ PosixPath.dirname (blob_dir self (SHA1 target)) = changeFolderPath self
  ∧ PosixPath.dirname (blob_path self (SHA1 target) (SHA1 x))
    = blob_dir self (SHA1 target).
Proof.
  intros self. pose proof (SHA1_is_name target) as Hd.
  split; [apply SHA1_length|]. split; [apply SHA1_hex|].
  split; [by apply dirname_record|]. split; [by apply dirname_blob_dir|].
  apply dirname_blob; [done|apply SHA1_is_name].
Qed.

(** X17. [getAllChildFiles] returns, without writing or printing, the
    regular files that a descent from the folder meets when it enters every
    directory but the entry [.easygit] of the folder it is in; every such
    file is returned, however deep it lies. *)
Theorem getAllChildFiles_finds_working_tree (targetFolderPath : string) (w : world) :
  ∃ filePaths lg,
    getAllChildFiles targetFolderPath w
      = (Ok filePaths, World (files w) lg (printed w))
    ∧ (∀ p, p ∈ filePaths ↔ reaches (files w) targetFolderPath p)
    ∧ Forall (λ p, isfile (files w) p = true) filePaths.
Proof.
  unfold getAllChildFiles. rewrite bind_eq. cbn [get_files]. cbv beta iota zeta.
  destruct (getAllChildFiles_go_eq (S (longest (files w))) targetFolderPath w) as [lg Hrun].
  exists (walk (S (longest (files w))) (files w) targetFolderPath), lg.
  split; [exact Hrun|]. split; [intros p; apply walk_iff_reaches|].
  apply Forall_forall. intros p Hp%walk_iff_reaches.
  clear Hrun. induction Hp; done.
Qed.



(** ** Finding a repository *)

(** X19. [getRepositoryPath] climbs from the folder it is given, one
    directory name at a time, and returns the [.easygit] of the first
    folder that has one as a directory: the nearest enclosing repository.
    It writes nothing. *)
Theorem getRepositoryPath_finds_nearest
    (cwd t top : string) (above : list string) (w : world) :
  startswith "/" cwd = true →
  head (above ++ [top]) = Some (PosixPath.abspath cwd t) →
  climbs cwd (above ++ [top]) →
  Forall (λ p, is_Some (files w !! p)) (above ++ [top]) →
  Forall (λ p, isdir (files w) (PosixPath.join p ".easygit") = false) above →
  isdir (files w) (PosixPath.join top ".easygit") = true →
  PosixPath.abspath cwd (PosixPath.join top ".easygit") = PosixPath.join top ".easygit" →
  getRepositoryPath cwd (Some t) w = (Ok (Some (PosixPath.join top ".easygit")), w).
Proof.
  intros Hcwd Hhead Hclimb Hex Hno Htop Hnorm. unfold getRepositoryPath.
  rewrite (go_found cwd Hcwd w top above _ t Hhead Hclimb Hex Hno Htop) by lia.
  rewrite convertToPath_eq, Hnorm.
  apply bool_decide_eq_true in Htop. by rewrite (exists_Some _ _ _ Htop).
Qed.

Lemma getRepositoryPath_finds_nearest_witness :
  let w := World (<["/proj/src" := Dir]> Scenario.fs0) [] [] in
  getRepositoryPath "/proj/src" (Some "/proj/src") w
  = (Ok (Some (PosixPath.join "/proj" ".easygit")), w).
Proof.
  intros w.
  apply (getRepositoryPath_finds_nearest "/proj/src" "/proj/src" "/proj" ["/proj/src"] w).
  - reflexivity.
  - vm_compute; reflexivity.
  - split; [vm_compute; discriminate|]. split; [vm_compute; reflexivity|done].
  - repeat constructor; exists Dir; vm_compute; reflexivity.
  - repeat constructor; vm_compute; reflexivity.
  - vm_compute; reflexivity.
  - vm_compute; reflexivity.
Defined.

(** X20. When no folder from the given one up to the root has a directory
    [.easygit], [getRepositoryPath] returns [None]; it stops at the folder
    that is its own directory name. *)
Theorem getRepositoryPath_none_up_to_root
    (cwd t top : string) (above : list string) (w : world) :
  startswith "/" cwd = true →
  head (above ++ [top]) = Some (PosixPath.abspath cwd t) →
  climbs cwd (above ++ [top]) →
  Forall (λ p, is_Some (files w !! p)) (above ++ [top]) →
  Forall (λ p, isdir (files w) (PosixPath.join p ".easygit") = false) (above ++ [top]) →
  top = PosixPath.dirname top →
  getRepositoryPath cwd (Some t) w = (Ok None, w).
Proof.
  intros Hcwd Hhead Hclimb Hex Hno Htop. unfold getRepositoryPath.
  by rewrite (go_none cwd Hcwd w top above _ t Hhead Hclimb Hex Hno Htop) by lia.
Qed.

Lemma getRepositoryPath_none_up_to_root_witness :
  let w := World (list_to_map [("/", Dir); ("/home", Dir)]) [] [] in
  getRepositoryPath "/home" (Some "/home") w = (Ok None, w).
Proof.
  intros w.
  apply (getRepositoryPath_none_up_to_root "/home" "/home" "/" ["/home"] w).
  - reflexivity.
  - vm_compute; reflexivity.
  - split; [vm_compute; discriminate|]. split; [vm_compute; reflexivity|done].
  - repeat constructor; exists Dir; vm_compute; reflexivity.
  - repeat constructor; vm_compute; reflexivity.
  - vm_compute; reflexivity.
Defined.

(** X21. For a folder that does not exist, and for [None],
    [getRepositoryPath] raises [TypeError]: the [return None] under
    [if not os.path.exists(currentFolder)] is never taken, since
    [convertToPath] has turned a missing folder into [None] before. *)
Theorem getRepositoryPath_missing_folder_raises
    (cwd : string) (targetPath : option string) (w : world) :
  match targetPath with
  | Some t => files w !! PosixPath.abspath cwd t = None
  | None => True
  end →
  getRepositoryPath cwd targetPath w = (Raise TypeError, w).
Proof.
  unfold getRepositoryPath. destruct targetPath as [t|]; intros H.
  - by apply go_missing.
  - apply go_None.
Qed.

Lemma getRepositoryPath_missing_folder_raises_witness :
  files Scenario.w0 !! PosixPath.abspath "/proj" "gone" = None
  ∧ getRepositoryPath "/proj" (Some "gone") Scenario.w0 = (Raise TypeError, Scenario.w0).
Proof.
  assert (H : files Scenario.w0 !! PosixPath.abspath "/proj" "gone" = None)
    by (vm_compute; reflexivity).
  split; [exact H|].
  exact (getRepositoryPath_missing_folder_raises "/proj" (Some "gone") Scenario.w0 H).
Defined.

(** ** Creating a repository *)

(** X22. In a folder that lies in a repository (its own or one of a folder
    above), [initialization] prints that it cannot create one and changes
    no file. *)
Theorem initialization_refuses_under_repository
    (cwd top : string) (above : list string) (w : world) :
  startswith "/" cwd = true →
  PosixPath.abspath cwd cwd = cwd →
  head (above ++ [top]) = Some cwd →
  climbs cwd (above ++ [top]) →
  Forall (λ p, is_Some (files w !! p)) (above ++ [top]) →
  Forall (λ p, isdir (files w) (PosixPath.join p ".easygit") = false) above →
  isdir (files w) (PosixPath.join top ".easygit") = true →
  PosixPath.abspath cwd (PosixPath.join top ".easygit") = PosixPath.join top ".easygit" →
  initialization cwd w =
    (Ok (), World (files w) (logged w)
              (printed w ++ [["Could not create repository, the target path is already under a repository, exiting..."]])).
Proof.
  intros Hcwd Hself Hhead Hclimb Hex Hno Htop Hnorm. unfold initialization.
  assert (Hc : is_Some (files w !! cwd)).
  { destruct above; cbn in Hhead; injection Hhead as ->;
      by apply Forall_cons in Hex as [? _]. }
  destruct Hc as [x Hx].
  rewrite bind_eq, convertToPath_eq, Hself, (exists_Some _ _ _ Hx). cbv beta iota zeta.
  rewrite bind_eq. unfold getRepositoryPath.
  rewrite (go_found cwd Hcwd w top above _ cwd) by (rewrite ?Hself; done || lia).
  rewrite convertToPath_eq, Hnorm.
  apply bool_decide_eq_true in Htop. rewrite (exists_Some _ _ _ Htop).
  reflexivity.
Qed.

Lemma initialization_refuses_under_repository_witness :
  initialization "/proj" Scenario.w0 =
    (Ok (), World (files Scenario.w0) (logged Scenario.w0)
              (printed Scenario.w0 ++ [["Could not create repository, the target path is already under a repository, exiting..."]])).
Proof.
  apply (initialization_refuses_under_repository "/proj" "/proj" [] Scenario.w0).
  - reflexivity.
  - vm_compute; reflexivity.
  - reflexivity.
  - done.
  - repeat constructor; exists Dir; vm_compute; reflexivity.
  - constructor.
  - vm_compute; reflexivity.
  - vm_compute; reflexivity.
Defined.

(** X23. In an existing folder with no repository from it up to the root
    and nothing at or under its [.easygit], [initialization] returns
    normally, prints nothing, and leaves the layout the other commands
    work on: the directories [.easygit], [changes], [commit] and [log], the
    configuration file, and an empty [HEAD] and log; there is no staging
    file yet, and nothing outside [.easygit] changes. *)
Theorem initialization_creates_repository
    (cwd top : string) (above : list string) (w : world) :
  let self := easyGit_at cwd cwd in
  startswith "/" cwd = true →
  PosixPath.abspath cwd cwd = cwd →
  head (above ++ [top]) = Some cwd →
  climbs cwd (above ++ [top]) →
  Forall (λ p, is_Some (files w !! p)) (above ++ [top]) →
  Forall (λ p, isdir (files w) (PosixPath.join p ".easygit") = false) (above ++ [top]) →
  top = PosixPath.dirname top →
  files w !! projectFolderPath self = Some Dir →
  (∀ q, under (repoPath self) q = true → files w !! q = None) →
  ∃ w', initialization cwd w = (Ok (), w')
    ∧ logged w' = logged w ∧ printed w' = printed w
    ∧ files w' !! repoPath self = Some Dir
    ∧ files w' !! commitFolderPath self = Some Dir
    ∧ files w' !! changeFolderPath self = Some Dir
    ∧ files w' !! PosixPath.join (repoPath self) "config.ini" = Some (File config_text)
    ∧ files w' !! headFile self = Some (File "")
    ∧ files w' !! logFile self = Some (File "")
    ∧ files w' !! stagingFilePath self = None
    ∧ ∀ q, under (repoPath self) q = false → files w' !! q = files w !! q.
Proof.
  intros self Hcwd Hself Hhead Hclimb Hex Hno Htop Hparent Hfresh. subst self.
  assert (Hc : is_Some (files w !! cwd)).
  { destruct above; cbn in Hhead; injection Hhead as ->;
      by apply Forall_cons in Hex as [? _]. }
  assert (Hnone : getRepositoryPath cwd (Some cwd) w = (Ok None, w)).
  { unfold getRepositoryPath.
    apply (go_none cwd Hcwd w top above); rewrite ?Hself; done || lia. }
  exists (with_files w (init_files cwd (files w))).
  split.
  { rewrite (init_enter cwd w Hself Hc Hnone). by apply create_layout. }
  split; [done|]. split; [done|]. cbn [files with_files].
  assert (Hs : files w !! stagingFilePath (easyGit_at cwd cwd) = None).
  { apply Hfresh. rewrite (stagingFilePath_at cwd cwd).
    change "/stagingCache" with ("/" +:+ "stagingCache"). apply under_repo. }
  destruct (init_files_layout cwd (files w) Hs) as (H1 & H2 & H3 & H4 & H5 & H6).
  repeat (split; [done|]).
  split.
  { unfold init_files. cbv zeta.
    change (repoPath (easyGit_at cwd cwd)) with (PosixPath.join cwd ".easygit").
    by rewrite !lookup_insert_ne, lookup_insert_eq by (done || differ). }
  repeat (split; [done|]).
  intros q Hq. by apply init_files_outside.
Qed.

Lemma initialization_creates_repository_witness :
  let self := easyGit_at "/proj" "/proj" in
  ∃ w', initialization "/proj" w_fresh = (Ok (), w')
    ∧ files w' !! headFile self = Some (File "")
    ∧ files w' !! "/proj/a.txt" = Some (File "hello").
Proof.
  intros self.
  destruct (initialization_creates_repository "/proj" "/" ["/proj"] w_fresh)
    as (w' & Hrun & _ & _ & _ & _ & _ & _ & Hhead & _ & _ & Hout).
  - reflexivity.
  - vm_compute; reflexivity.
  - reflexivity.
  - split; [vm_compute; discriminate|]. split; [vm_compute; reflexivity|done].
  - repeat constructor; exists Dir; vm_compute; reflexivity.
  - repeat constructor; vm_compute; reflexivity.
  - vm_compute; reflexivity.
  - vm_compute; reflexivity.
  - intros q Hq. destruct (files w_fresh !! q) as [n|] eqn:Hn; [exfalso|done].
    pose proof (longest_ge _ _ (mk_is_Some _ _ Hn)) as Hlen.
    apply under_length in Hq.
    assert (Hl : longest (files w_fresh) = 11%nat) by (vm_compute; reflexivity).
    assert (Hr : String.length (repoPath (easyGit_at "/proj" "/proj")) = 14%nat)
      by (vm_compute; reflexivity).
    rewrite Hl in Hlen. rewrite Hr in Hq. lia.
  - exists w'. split; [exact Hrun|]. split; [exact Hhead|].
    rewrite Hout by (vm_compute; reflexivity). vm_compute; reflexivity.
Defined.

(** X24. When [.easygit] exists in the folder as a regular file (whatever
    its bytes), it is no repository for [getRepositoryPath], and
    [initialization] raises [FileExistsError] at its first [os.mkdir],
    having changed nothing. *)
Theorem initialization_blocked_by_file
    (cwd top : string) (above : list string) (w : world) :
  startswith "/" cwd = true →
  PosixPath.abspath cwd cwd = cwd →
  head (above ++ [top]) = Some cwd →
  climbs cwd (above ++ [top]) →
  Forall (λ p, is_Some (files w !! p)) (above ++ [top]) →
  Forall (λ p, isdir (files w) (PosixPath.join p ".easygit") = false) (above ++ [top]) →
  top = PosixPath.dirname top →
  isfile (files w) (PosixPath.join cwd ".easygit") = true →
  initialization cwd w = (Raise FileExistsError, w).
Proof.
  intros Hcwd Hself Hhead Hclimb Hex Hno Htop Hfile.
  assert (Hc : is_Some (files w !! cwd)).
  { destruct above; cbn in Hhead; injection Hhead as ->;
      by apply Forall_cons in Hex as [? _]. }
  assert (Hnone : getRepositoryPath cwd (Some cwd) w = (Ok None, w)).
  { unfold getRepositoryPath.
    apply (go_none cwd Hcwd w top above); rewrite ?Hself; done || lia. }
  rewrite (init_enter cwd w Hself Hc Hnone). cbv zeta. cbn [for_each].
  unfold isfile in Hfile.
  destruct (files w !! PosixPath.join cwd ".easygit") as [n|] eqn:E; [|done].
  by rewrite !bind_eq, mkdir_eq, E.
Qed.

Lemma initialization_blocked_by_file_witness :
  let w := World (<["/proj/.easygit" := File "notes"]> fs_fresh) [] [] in
  initialization "/proj" w = (Raise FileExistsError, w).
Proof.
  intros w.
  apply (initialization_blocked_by_file "/proj" "/" ["/proj"] w).
  - reflexivity.
  - vm_compute; reflexivity.
  - reflexivity.
  - split; [vm_compute; discriminate|]. split; [vm_compute; reflexivity|done].
  - repeat constructor; exists Dir; vm_compute; reflexivity.
  - repeat constructor; vm_compute; reflexivity.
  - vm_compute; reflexivity.
  - vm_compute; reflexivity.
Defined.

(** X25. [initialization] a second time in the folder it has just set up
    finds the repository it made: it prints that it cannot create one and
    leaves the files of the first run. *)
Theorem initialization_twice_refuses
    (cwd top : string) (above : list string) (w : world) :
  let self := easyGit_at cwd cwd in
  startswith "/" cwd = true →
  PosixPath.abspath cwd cwd = cwd →
  PosixPath.abspath cwd (repoPath self) = repoPath self →
  head (above ++ [top]) = Some cwd →
  climbs cwd (above ++ [top]) →
  Forall (λ p, is_Some (files w !! p)) (above ++ [top]) →
  Forall (λ p, isdir (files w) (PosixPath.join p ".easygit") = false) (above ++ [top]) →
  top = PosixPath.dirname top →
  files w !! projectFolderPath self = Some Dir →
  (∀ q, under (repoPath self) q = true → files w !! q = None) →
  ∃ w1, initialization cwd w = (Ok (), w1)
    ∧ initialization cwd w1 =
      (Ok (), World (files w1) (logged w1)
                (printed w1 ++ [["Could not create repository, the target path is already under a repository, exiting..."]])).
Proof.
  intros self Hcwd Hself Hnorm Hhead Hclimb Hex Hno Htop Hparent Hfresh. subst self.
  assert (Hc : is_Some (files w !! cwd)).
  { destruct above; cbn in Hhead; injection Hhead as ->;
      by apply Forall_cons in Hex as [? _]. }
  assert (Hnone : getRepositoryPath cwd (Some cwd) w = (Ok None, w)).
  { unfold getRepositoryPath.
    apply (go_none cwd Hcwd w top above); rewrite ?Hself; done || lia. }
  set (w1 := with_files w (init_files cwd (files w))).
  exists w1. split.
  { rewrite (init_enter cwd w Hself Hc Hnone). by apply create_layout. }
  assert (Hs : files w !! stagingFilePath (easyGit_at cwd cwd) = None).
  { apply Hfresh. rewrite (stagingFilePath_at cwd cwd).
    change "/stagingCache" with ("/" +:+ "stagingCache"). apply under_repo. }
  destruct (init_files_layout cwd (files w) Hs) as (H1 & _).
  assert (Hc1 : is_Some (files w1 !! cwd)).
  { cbn [w1 files with_files]. rewrite init_files_outside by apply cwd_outside. done. }
  destruct Hc1 as [x Hx].
  unfold initialization.
  rewrite bind_eq, convertToPath_eq, Hself, (exists_Some _ _ _ Hx). cbv beta iota zeta.
  rewrite bind_eq. unfold getRepositoryPath.
  rewrite (go_found cwd Hcwd w1 cwd [] _ cwd); rewrite ?Hself; try done.
  - change (PosixPath.join cwd ".easygit") with (repoPath (easyGit_at cwd cwd)).
    rewrite convertToPath_eq, Hnorm.
    cbn [w1 files with_files]. by rewrite (exists_Some _ _ _ H1).
  - constructor; [by eexists|constructor].
  - unfold isdir. cbn [w1 files with_files].
    change (PosixPath.join cwd ".easygit") with (repoPath (easyGit_at cwd cwd)).
    by rewrite H1, bool_decide_eq_true_2.
Qed.

Lemma initialization_twice_refuses_witness :
  ∃ w1, initialization "/proj" w_fresh = (Ok (), w1)
    ∧ initialization "/proj" w1 =
      (Ok (), World (files w1) (logged w1)
                (printed w1 ++ [["Could not create repository, the target path is already under a repository, exiting..."]])).
Proof.
  apply (initialization_twice_refuses "/proj" "/" ["/proj"] w_fresh).
  - reflexivity.
  - vm_compute; reflexivity.
  - vm_compute; reflexivity.
  - reflexivity.
  - split; [vm_compute; discriminate|]. split; [vm_compute; reflexivity|done].
  - repeat constructor; exists Dir; vm_compute; reflexivity.
  - repeat constructor; vm_compute; reflexivity.
  - vm_compute; reflexivity.
  - vm_compute; reflexivity.
  - intros q Hq. destruct (files w_fresh !! q) as [n|] eqn:Hn; [exfalso|done].
    pose proof (longest_ge _ _ (mk_is_Some _ _ Hn)) as Hlen.
    apply under_length in Hq.
    assert (Hl : longest (files w_fresh) = 11%nat) by (vm_compute; reflexivity).
    assert (Hr : String.length (repoPath (easyGit_at "/proj" "/proj")) = 14%nat)
      by (vm_compute; reflexivity).
    rewrite Hl in Hlen. rewrite Hr in Hq. lia.
Defined.

(** ** The default target *)

(** X26. [restore] and [search] without target act on the commit that
    [HEAD] names: when [HEAD] holds a digest, the call without target does
    what the call with that digest does (for [search], from depth [0]). *)
Theorem default_target_is_head
    (self : easyGit) (h : string) (maxDepth : Z) (w : world) :
  files w !! headFile self = Some (File h) →
  strip LF (universal_newlines h) ≠ "" →
  restore self None w = restore self (Some (strip LF (universal_newlines h))) w
  ∧ search self None 0 maxDepth w
    = search self (Some (strip LF (universal_newlines h))) 0 maxDepth w.
Proof.
  intros Hh Hne. split.
  - unfold restore, head_target.
    rewrite !bind_eq, log_eq. cbv beta iota zeta.
    rewrite !bind_eq, read_eq. cbn [files]. rewrite Hh. cbv beta iota zeta.
    by rewrite bool_decide_eq_false_2 by done.
  - unfold search, head_target. destruct (bool_decide (0 >= maxDepth)); [done|].
    rewrite !bind_eq, read_eq, Hh. cbv beta iota zeta.
    by rewrite bool_decide_eq_false_2 by done.
Qed.

Lemma default_target_is_head_witness :
  files Scenario.deleted !! headFile Scenario.self = Some (File Scenario.d1)
  ∧ restore Scenario.self None Scenario.deleted
    = restore Scenario.self (Some (strip LF (universal_newlines Scenario.d1)))
        Scenario.deleted.
Proof.
  assert (H : files Scenario.deleted !! headFile Scenario.self = Some (File Scenario.d1))
    by (vm_compute; reflexivity).
  split; [exact H|].
  refine (proj1 (default_target_is_head Scenario.self Scenario.d1 5 Scenario.deleted H _)).
  vm_compute. discriminate.
Defined.

(** ** From an empty folder to the first commit *)

(** X27. In a folder where [initialization] can create a repository,
    [initialization()] and then [add(["."])] return normally, whatever the
    files hold: the staging set is the regular files met in the folder
    whose path has no [".easygit"].  When none of these staged files has
    bytes that are not valid UTF-8, so that [commit] can read each of them,
    [commit(message)] returns normally too: [HEAD] ends with the digest of the commit, and
    the record of that first commit has an empty parent field.  (Paths are
    taken without line break, as one line of the staging file holds one
    path.) *)
Theorem first_commit_after_initialization
    (cwd top : string) (above : list string) (message : list string) (now : string)
    (w : world) :
  let self := easyGit_at cwd cwd in
  let d := SHA1 (now +:+ stagingFilePath self) in
  startswith "/" cwd = true →
  PosixPath.abspath cwd cwd = cwd →
  head (above ++ [top]) = Some cwd →
  climbs cwd (above ++ [top]) →
  Forall (λ p, is_Some (files w !! p)) (above ++ [top]) →
  Forall (λ p, isdir (files w) (PosixPath.join p ".easygit") = false) (above ++ [top]) →
  top = PosixPath.dirname top →
  files w !! projectFolderPath self = Some Dir →
  (∀ q, under (repoPath self) q = true → files w !! q = None) →
  (∀ p, is_Some (files w !! p) → single_line p) →
  ∃ w1 w2 S,
    initialization cwd w = (Ok (), w1)
    ∧ add self ["."] w1 = (Ok (), w2)
    ∧ staged self (files w2) = Some S
    ∧ (∀ p, p ∈ S ↔ reaches (files w1) cwd p ∧ contains ".easygit" p = false)
    ∧ ((∀ p b, p ∈ S → files w !! p ≠ Some (Binary b)) →
       ∃ w3, commit self message now w2 = (Ok (), w3)
         ∧ files w3 !! headFile self = Some (File d)
         ∧ parent_of self (files w3) d = Some "").
Proof.
  intros self d Hcwd Hself Hhead Hclimb Hex Hno Htop Hparent Hfresh Hsingle.
  subst self.
  (* initialization *)
  assert (Hc : is_Some (files w !! cwd)).
  { destruct above; cbn in Hhead; injection Hhead as ->;
      by apply Forall_cons in Hex as [? _]. }
  assert (Hnone : getRepositoryPath cwd (Some cwd) w = (Ok None, w)).
  { unfold getRepositoryPath.
    apply (go_none cwd Hcwd w top above); rewrite ?Hself; done || lia. }
  set (fs1 := init_files cwd (files w)).
  set (w1 := with_files w fs1).
  assert (Hinit : initialization cwd w = (Ok (), w1)).
  { rewrite (init_enter cwd w Hself Hc Hnone). by apply create_layout. }
  assert (Hs : files w !! stagingFilePath (easyGit_at cwd cwd) = None).
  { apply Hfresh. rewrite (stagingFilePath_at cwd cwd).
    change "/stagingCache" with ("/" +:+ "stagingCache"). apply under_repo. }
  destruct (init_files_layout cwd (files w) Hs) as (H1 & H2 & H3 & H4 & H5 & H6).
  fold fs1 in H1, H2, H3, H4, H5, H6.
  (* add *)
  set (L := filter (λ f, contains ".easygit" f = false)
                   (elements (merged (easyGit_at cwd cwd) fs1 ["."]))).
  destruct (add_eq (easyGit_at cwd cwd) ["."] w1) as [lg Hadd].
  { cbn [w1 files with_files]. by rewrite (dirname_staging cwd cwd). }
  { cbn [w1 files with_files]. by rewrite H6. }
  { intros b. cbn [w1 files with_files]. by rewrite H6. }
  cbn [w1 files with_files logged printed] in Hadd. fold L in Hadd.
  set (fs2 := <[stagingFilePath (easyGit_at cwd cwd) := File (entries L)]> fs1) in *.
  set (w2 := World fs2 lg (printed w)) in *.
  assert (HL : ∀ p, p ∈ L ↔ reaches fs1 cwd p ∧ contains ".easygit" p = false).
  { intros p. unfold L. rewrite list_elem_of_filter, elem_of_elements.
    unfold merged, staged. rewrite H6. cbn [default].
    rewrite (right_id_L ∅ (∪)), elem_of_list_to_set.
    unfold paths_of. rewrite bool_decide_eq_true_2 by (by left).
    change (currentPath (easyGit_at cwd cwd)) with cwd.
    rewrite walk_iff_reaches. tauto. }
  assert (Hout : ∀ p, contains ".easygit" p = false → fs1 !! p = files w !! p).
  { intros p Hp. unfold fs1. apply init_files_outside.
    destruct (under (PosixPath.join cwd ".easygit") p) eqn:Hu; [|done].
    apply (under_repo_contains cwd cwd) in Hu. congruence. }
  assert (Hfile : ∀ p, p ∈ L → isfile (files w) p = true).
  { intros p [Hp Hno']%HL. pose proof (reaches_isfile _ _ _ Hp) as Hi.
    unfold isfile in *. by rewrite <- Hout. }
  assert (Hlines : Forall (λ f, has_char LF f = false ∧ has_char CR f = false) L).
  { apply Forall_forall. intros p Hp. pose proof (Hfile p Hp) as Hi.
    apply Hsingle. unfold isfile in Hi. destruct (files w !! p); [by eexists|done]. }
  assert (Hstaged : staged (easyGit_at cwd cwd) fs2 = Some (list_to_set L)).
  { rewrite staged_of_lines. unfold fs2. by rewrite staged_lines_written. }
  exists w1, w2, (list_to_set L).
  split; [exact Hinit|]. split; [exact Hadd|]. split; [exact Hstaged|].
  split; [intros p; by rewrite elem_of_list_to_set|].
  intros Htext.
  (* commit *)
  assert (Hs2 : fs2 !! stagingFilePath (easyGit_at cwd cwd) = Some (File (entries L)))
    by (unfold fs2; by rewrite lookup_insert_eq).
  assert (Hkeep : ∀ q, q ≠ stagingFilePath (easyGit_at cwd cwd) → fs2 !! q = fs1 !! q).
  { intros q Hq. unfold fs2. by rewrite lookup_insert_ne. }
  pose proof (SHA1_is_name (now +:+ stagingFilePath (easyGit_at cwd cwd))) as Hd.
  fold d in Hd.
  destruct (commit_runs cwd cwd message now (entries L) "" w2) as [w3 Hcommit];
    cbn [w2 files]; fold d.
  - exact Hs2.
  - rewrite Hkeep; [done|]. apply not_eq_sym, staging_not_head.
  - rewrite Hkeep; [done|]. intros H. rewrite H, H6 in H2. done.
  - rewrite Hkeep; [done|]. intros H. rewrite H, H6 in H3. done.
  - rewrite Hkeep by (by apply not_eq_sym, staging_not_blob_dir).
    by apply init_files_blob_dir.
  - intros x. rewrite Hkeep
      by (apply not_eq_sym, staging_not_blob; [done|apply SHA1_is_name]).
    apply init_files_blob; [done..|apply SHA1_is_name].
  - rewrite Hkeep by (by apply not_eq_sym, staging_not_record).
    unfold fs1. by rewrite (init_files_record cwd (files w) Hfresh d Hd (SHA1_not_HEAD _)).
  - intros f Hf. apply elem_of_elements in Hf.
    assert (Hin : f ∈ L).
    { unfold staged in Hstaged. rewrite Hs2 in Hstaged. injection Hstaged as Hst.
      rewrite Hst in Hf. by apply elem_of_list_to_set in Hf. }
    pose proof (Hfile f Hin) as Hi. unfold isfile in Hi.
    destruct (files w !! f) as [[cf| |b]|] eqn:Hcf; [|done| |done].
    2:{ destruct (Htext f b); [by apply elem_of_list_to_set|done]. }
    apply HL in Hin as [_ Hno']. split; [done|]. exists cf.
    rewrite Hkeep, Hout; [done..|].
    intros ->. rewrite (stagingFilePath_at cwd cwd), (contains_R cwd cwd) in Hno'. done.
  - exists w3. split; [exact Hcommit|].
    assert (Hhd : files w2 !! headFile (easyGit_at cwd cwd) = Some (File "")).
    { cbn [w2 files]. rewrite Hkeep; [done|]. apply not_eq_sym, staging_not_head. }
    destruct (commit_post cwd cwd message now (entries L) w2 w3 Hs2 Hcommit)
      as (h & more & Hh & _ & Hhead' & _ & Hrec & _).
    fold d in Hhead', Hrec. split; [exact Hhead'|].
    rewrite Hhd in Hh. injection Hh as <-.
    unfold parent_of. fold (record_path (easyGit_at cwd cwd) d). rewrite Hrec.
    change (universal_newlines "") with "".
    by rewrite parent_of_header.
Qed.

Lemma first_commit_after_initialization_witness :
  let self := easyGit_at "/proj" "/proj" in
  let d := SHA1 (Scenario.t1 +:+ stagingFilePath self) in
  ∃ w1 w2 w3 S,
    initialization "/proj" w_fresh = (Ok (), w1)
    ∧ add self ["."] w1 = (Ok (), w2)
    ∧ staged self (files w2) = Some S
    ∧ (∀ p, p ∈ S ↔ reaches (files w1) "/proj" p ∧ contains ".easygit" p = false)
    ∧ commit self ["first"] Scenario.t1 w2 = (Ok (), w3)
    ∧ files w3 !! headFile self = Some (File d)
    ∧ parent_of self (files w3) d = Some "".
Proof.
  intros self d.
  assert (Hdom : dom (files w_fresh) = {["/"; "/proj"; "/proj/a.txt"]})
    by (vm_compute; reflexivity).
  pose proof (first_commit_after_initialization "/proj" "/" ["/proj"] ["first"]
                Scenario.t1 w_fresh) as H.
  cbv zeta in H. fold self in H. fold d in H.
  assert (Hrun : ∃ w1 w2 S,
             initialization "/proj" w_fresh = (Ok (), w1)
             ∧ add self ["."] w1 = (Ok (), w2)
             ∧ staged self (files w2) = Some S
             ∧ (∀ p, p ∈ S ↔ reaches (files w1) "/proj" p ∧ contains ".easygit" p = false)
             ∧ ((∀ p b, p ∈ S → files w_fresh !! p ≠ Some (Binary b)) →
                ∃ w3, commit self ["first"] Scenario.t1 w2 = (Ok (), w3)
                  ∧ files w3 !! headFile self = Some (File d)
                  ∧ parent_of self (files w3) d = Some "")); [|clear H].
  2:{ destruct Hrun as (w1 & w2 & S & Hinit & Hadd & Hst & HS & Hthen).
      destruct Hthen as (w3 & Hcommit & Hhead & Hparent).
      - intros p b _ Hp.
        assert (Hin : p ∈ dom (files w_fresh)) by (apply elem_of_dom; by eexists).
        rewrite Hdom in Hin.
        apply elem_of_union in Hin as [Hin|Hin]; [apply elem_of_union in Hin as [Hin|Hin]|];
          apply elem_of_singleton in Hin; subst p; revert Hp; vm_compute; discriminate.
      - exists w1, w2, w3, S.
        split; [exact Hinit|]. split; [exact Hadd|]. split; [exact Hst|].
        split; [exact HS|]. split; [exact Hcommit|]. split; [exact Hhead|exact Hparent]. }
  apply H; clear H.
  - reflexivity.
  - vm_compute; reflexivity.
  - reflexivity.
  - split; [vm_compute; discriminate|]. split; [vm_compute; reflexivity|done].
  - repeat constructor; exists Dir; vm_compute; reflexivity.
  - repeat constructor; vm_compute; reflexivity.
  - vm_compute; reflexivity.
  - vm_compute; reflexivity.
  - intros q Hq. destruct (files w_fresh !! q) as [n|] eqn:Hn; [exfalso|done].
    pose proof (longest_ge _ _ (mk_is_Some _ _ Hn)) as Hlen.
    apply under_length in Hq.
    assert (Hl : longest (files w_fresh) = 11%nat) by (vm_compute; reflexivity).
    assert (Hr : String.length (repoPath self) = 14%nat)
      by (vm_compute; reflexivity).
    rewrite Hl in Hlen. rewrite Hr in Hq. lia.
  - intros p Hp. apply elem_of_dom in Hp.
    rewrite Hdom in Hp.
    apply elem_of_union in Hp as [Hp|Hp]; [apply elem_of_union in Hp as [Hp|Hp]|];
      apply elem_of_singleton in Hp; subst p; split; vm_compute; reflexivity.
Defined.

(** ** From a commit back to the working tree *)



(** ** Staging again *)

(** X29. [add] with the same names a second time leaves the staging set of
    the first call, whatever was staged before and whatever the names
    resolve to: what the second call resolves is already in the set, or is
    dropped for having [".easygit"] in its path.  (Resolved paths are taken
    without line break, and the staging file, when there is one, can be
    read: it is not a directory and its bytes are valid UTF-8.) *)
Theorem add_again_keeps_staging_set
    (root cwd : string) (targetFilenames : list string) (w : world) :
  let self := easyGit_at root cwd in
  files w !! PosixPath.dirname (stagingFilePath self) = Some Dir →
  files w !! stagingFilePath self ≠ Some Dir →
  (∀ b, files w !! stagingFilePath self ≠ Some (Binary b)) →
  Forall single_line (paths_of self (files w) targetFilenames) →
  ∃ w1 w2, add self targetFilenames w = (Ok (), w1)
    ∧ add self targetFilenames w1 = (Ok (), w2)
    ∧ staged self (files w2) = staged self (files w1)
    ∧ staged self (files w1)
      = Some (filter (λ p, contains ".easygit" p = false)
                     (merged self (files w) targetFilenames)).
Proof.
  intros self Hdir Hnd Hnb Hsingle. subst self.
  set (self := easyGit_at root cwd) in *.
  pose proof (merged_single self (files w) targetFilenames Hsingle) as Hm0.
  destruct (add_staged self targetFilenames w Hdir Hnd Hnb) as (lg1 & Hrun1 & Hst1).
  { by apply filter_single. }
  set (P := λ f : string, contains ".easygit" f = false) in *.
  assert (Hstaging : ¬ P (stagingFilePath self)).
  { unfold P, self. rewrite (stagingFilePath_at root cwd), (contains_R root cwd). done. }
  set (fs1 := <[stagingFilePath self :=
                  File (entries (filter P (elements (merged self (files w) targetFilenames))))]>
                (files w)) in *.
  assert (Hm1 : merged self fs1 targetFilenames
                = list_to_set (paths_of self fs1 targetFilenames)
                  ∪ filter P (merged self (files w) targetFilenames)).
  { unfold merged at 1. by rewrite Hst1. }
  assert (Hsame : filter P (merged self fs1 targetFilenames)
                  = filter P (merged self (files w) targetFilenames)).
  { apply set_eq. intros p. rewrite !elem_of_filter, Hm1, elem_of_union, elem_of_filter.
    rewrite elem_of_list_to_set. split; [|tauto].
    intros [Hp [Hin|[_ Hin]]]; (split; [done|]); [|done].
    apply (paths_of_again root cwd (files w) _ Hnd) in Hin; [|by intros ->].
    unfold merged. apply elem_of_union. left. by apply elem_of_list_to_set. }
  destruct (add_staged self targetFilenames (World fs1 lg1 (printed w)))
    as (lg2 & Hrun2 & Hst2); cbn [files].
  { unfold fs1. rewrite lookup_insert_ne; [done|]. intros H. by rewrite H in Hnd. }
  { unfold fs1. by rewrite lookup_insert_eq. }
  { intros b. unfold fs1. by rewrite lookup_insert_eq. }
  { apply Forall_forall. intros p [Hp Hin]%list_elem_of_filter.
    apply elem_of_elements in Hin. rewrite Hm1 in Hin.
    rewrite Forall_forall in Hm0, Hsingle.
    apply elem_of_union in Hin as [Hin|Hin].
    - apply elem_of_list_to_set in Hin.
      apply (paths_of_again root cwd (files w) _ Hnd) in Hin; [|by intros ->].
      by apply Hsingle.
    - apply elem_of_filter in Hin as [_ Hin]. apply Hm0. by apply elem_of_elements. }
  cbn [files] in Hst2.
  eexists _, _. split; [exact Hrun1|]. split; [exact Hrun2|]. cbn [files].
  split; [|exact Hst1]. rewrite Hst2, Hst1. f_equal. exact Hsame.
Qed.

Lemma add_again_keeps_staging_set_witness :
  let self := easyGit_at "/proj" "/proj" in
  ∃ w1 w2, add self ["."] Scenario.w0 = (Ok (), w1)
    ∧ add self ["."] w1 = (Ok (), w2)
    ∧ staged self (files w2) = staged self (files w1).
Proof.
  intros self.
  pose proof (add_again_keeps_staging_set "/proj" "/proj" ["."] Scenario.w0) as H.
  cbv zeta in H. fold self in H.
  destruct H as (w1 & w2 & H1 & H2 & H3 & _).
  - vm_compute; reflexivity.
  - vm_compute. discriminate.
  - intros b. vm_compute. discriminate.
  - assert (Hp : paths_of self (files Scenario.w0) ["."] = ["/proj/a.txt"; "/proj/b.txt"])
      by (vm_compute; reflexivity).
    rewrite Hp. repeat constructor.
  - exists w1, w2. split; [exact H1|]. split; [exact H2|exact H3].
Defined.

(** ** Files that are not text *)


